(** * BayerCLAW job-definition registrar ([lambda/src/job_def/register.py])

    A shallow embedding of the CloudFormation custom-resource handler that
    registers AWS Batch job definitions, and the properties of its
    response protocol and of the [edit_spec] transform. *)

From Stdlib Require Import String Ascii ZArith List Lia Bool Permutation.
From Stdlib Require Import DecimalString OrderedTypeEx Sorted.
From stdpp Require Import base list strings gmap.
Import ListNotations.
Local Open Scope string_scope.
Set Warnings "-register-all".

(** ** Python values *)

(** Values that arrive as JSON (the event, the image, API results) and that
    the handler only ever reads.  A Python [dict] keeps its insertion order,
    so it is an association list; its keys are pairwise distinct.  Numbers
    are the integers; a character of a string is a code point below 256. *)
Inductive json : Type :=
| JNull
| JBool (b : bool)
| JInt (n : Z)
| JStr (s : string)
| JList (items : list json)
| JDict (fields : list (string * json)).

Module PyDict.
Section Ops.
Context {V : Type}.

(** [d.get(k)] / the lookup behind [d[k]] *)
Fixpoint get (k : string) (d : list (string * V)) : option V :=
  match d with
  | [] => None
  | (k', v) :: d' => if String.eqb k k' then Some v else get k d'
  end.

(** [d[k] = v]: an existing key keeps its position, a new key goes last *)
Fixpoint set (k : string) (v : V) (d : list (string * V)) : list (string * V) :=
  match d with
  | [] => [(k, v)]
  | (k', v') :: d' =>
      if String.eqb k k' then (k, v) :: d' else (k', v') :: set k v d'
  end.

Definition keys (d : list (string * V)) : list string := map fst d.

(** [sorted(d.items())]: a stable sort of the items by key, in the
    code-point order of Python strings. *)
Fixpoint insert_item (kv : string * V) (d : list (string * V)) : list (string * V) :=
  match d with
  | [] => [kv]
  | kv' :: d' =>
      if String.leb (fst kv) (fst kv') then kv :: kv' :: d'
      else kv' :: insert_item kv d'
  end.

Definition sorted_items (d : list (string * V)) : list (string * V) :=
  fold_right insert_item [] d.
End Ops.
End PyDict.

(** ** [json.dumps] *)

Module Json.

Definition hex_digit (n : N) : ascii :=
  match n with
  | 0 => "0" | 1 => "1" | 2 => "2" | 3 => "3" | 4 => "4" | 5 => "5"
  | 6 => "6" | 7 => "7" | 8 => "8" | 9 => "9" | 10 => "a" | 11 => "b"
  | 12 => "c" | 13 => "d" | 14 => "e" | _ => "f"
  end%N%char.

(** [py_encode_basestring_ascii] on one character (a code point below
    256): backslash and double quote are escaped, the short escapes are
    used for \b \f \n \r \t, and everything outside [' '..'~'] becomes
    [\u00xx]. *)
Definition escape_char (c : ascii) : string :=
  let n := N_of_ascii c in
  if (n =? 92)%N then "\\"
  else if (n =? 34)%N then String "\" (String c "")
  else if (n =? 8)%N then "\b"
  else if (n =? 12)%N then "\f"
  else if (n =? 10)%N then "\n"
  else if (n =? 13)%N then "\r"
  else if (n =? 9)%N then "\t"
  else if ((32 <=? n) && (n <=? 126))%N then String c ""
  else "\u00" ++ String (hex_digit (n / 16)) (String (hex_digit (n mod 16)) "").

Fixpoint escape (s : string) : string :=
  match s with
  | EmptyString => ""
  | String c s' => escape_char c ++ escape s'
  end.

Definition quote : string := String (ascii_of_N 34) "".

Definition dump_str (s : string) : string := quote ++ escape s ++ quote.

Definition dump_int (n : Z) : string := NilZero.string_of_int (Z.to_int n).

Fixpoint join (sep : string) (parts : list string) : string :=
  match parts with
  | [] => ""
  | [p] => p
  | p :: ps => p ++ sep ++ join sep ps
  end.

Section Dumps.
Variable sort_keys : bool.
Variables item_separator key_separator : string.

Definition order {V} (d : list (string * V)) : list (string * V) :=
  if sort_keys then PyDict.sorted_items d else d.

(** [JSONEncoder.iterencode]: containers are walked recursively; with
    [sort_keys] every dict is emitted in key order. *)
Fixpoint dumps (j : json) : string :=
  match j with
  | JNull => "null"
  | JBool true => "true"
  | JBool false => "false"
  | JInt n => dump_int n
  | JStr s => dump_str s
  | JList items => "[" ++ join item_separator (map dumps items) ++ "]"
  | JDict fields =>
      "{" ++ join item_separator
               (map (fun kv => dump_str (fst kv) ++ key_separator ++ snd kv)
                  (order (map (fun kv => (fst kv, dumps (snd kv))) fields)))
          ++ "}"
  end.
End Dumps.

(** [json.dumps(obj)] *)
Definition dumps_default : json -> string := dumps false ", " ": ".
(** [json.dumps(obj, sort_keys=True, separators=(",", ":"))] *)
Definition dumps_canonical : json -> string := dumps true "," ":".

End Json.

(** ** Exceptions and the state-and-exception monad *)

(** The Python exceptions the handler can meet.  [Stuck] is not a Python
    exception: it marks a start state that no Python run can be in (a
    reference to no object, an in-place update of a value given as a
    read-only tree). *)
Inductive exn : Type :=
| KeyError (key : string)
| TypeError
| AttributeError
| ValueError
| JSONDecodeError
| InvalidURL
| ClientError (msg : string)
| OSError (msg : string)
| Stuck.

Inductive res (A : Type) : Type :=
| Ok (a : A)
| Raise (e : exn).
Arguments Ok {A} a.
Arguments Raise {A} e.

(** A computation over a state [S]; what was written to the state before an
    exception is raised stays written, as in Python. *)
Definition M (S A : Type) : Type := S -> S * res A.

Definition ret {S A} (a : A) : M S A := fun s => (s, Ok a).
Definition raise {S A} (e : exn) : M S A := fun s => (s, Raise e).
Definition bind {S A B} (c : M S A) (k : A -> M S B) : M S B :=
  fun s => match c s with
           | (s', Ok a) => k a s'
           | (s', Raise e) => (s', Raise e)
           end.
Definition of_res {S A} (r : res A) : M S A := fun s => (s, r).

Declare Scope py_scope.
Delimit Scope py_scope with py.
Notation "x <- c ;; k" := (bind c (fun x => k))
  (at level 100, c at next level, right associativity) : py_scope.
Notation "c ;; k" := (bind c (fun _ => k))
  (at level 100, right associativity) : py_scope.
Local Open Scope py_scope.

(** a comprehension: [f] on every element, left to right *)
Fixpoint for_each {S A B} (f : A -> M S B) (l : list A) : M S (list B) :=
  match l with
  | [] => ret []
  | x :: l' => y <- f x ;; ys <- for_each f l' ;; ret (y :: ys)
  end.

(** [try: body except: handler] with a bare [except] *)
Definition try_except {S A} (body : M S A) (handler : exn -> M S A) : M S A :=
  fun s => match body s with
           | (s', Ok a) => (s', Ok a)
           | (s', Raise e) => handler e s'
           end.

(** [try: body finally: final]: [final] always runs; an exception of
    [final] replaces the outcome of [body]. *)
Definition try_finally {S A} (body : M S A) (final : M S unit) : M S A :=
  fun s => match body s with
           | (s', r) =>
               match final s' with
               | (s'', Ok _) => (s'', r)
               | (s'', Raise e) => (s'', Raise e)
               end
           end.

(** ** The object store *)

Abbreviation loc := nat.

(** A value is a read-only tree or a reference to a mutable container. *)
Inductive value : Type :=
| VJson (j : json)
| VRef (l : loc).

Inductive object : Type :=
| ODict (d : list (string * value))
| OList (items : list value).

Abbreviation heap := (list object).

Definition VStr (s : string) : value := VJson (JStr s).

Module Py.

(** a container display: a new object at the next free location *)
Definition new (o : object) : M heap value :=
  fun h => ((h ++ [o])%list, Ok (VRef (length h))).

Definition store (l : loc) (o : object) : M heap unit :=
  fun h => (<[l := o]> h, Ok tt).

(** [v.copy()]: dicts and lists have it, nothing else does *)
Definition copy (v : value) : M heap value :=
  fun h =>
    match v with
    | VRef l =>
        match h !! l with
        | Some o => new o h
        | None => (h, Raise Stuck)
        end
    | VJson (JDict fields) =>
        new (ODict (map (fun kv => (fst kv, VJson (snd kv))) fields)) h
    | VJson (JList items) => new (OList (map VJson items)) h
    | VJson _ => (h, Raise AttributeError)
    end.

(** [v[k]] with a string key *)
Definition getitem (v : value) (k : string) : M heap value :=
  fun h =>
    match v with
    | VRef l =>
        match h !! l with
        | Some (ODict d) =>
            match PyDict.get k d with
            | Some x => (h, Ok x)
            | None => (h, Raise (KeyError k))
            end
        | Some (OList _) => (h, Raise TypeError)
        | None => (h, Raise Stuck)
        end
    | VJson (JDict fields) =>
        match PyDict.get k fields with
        | Some x => (h, Ok (VJson x))
        | None => (h, Raise (KeyError k))
        end
    | VJson _ => (h, Raise TypeError)
    end.

(** [v[k] = x] with a string key *)
Definition setitem (v : value) (k : string) (x : value) : M heap unit :=
  fun h =>
    match v with
    | VRef l =>
        match h !! l with
        | Some (ODict d) => store l (ODict (PyDict.set k x d)) h
        | Some (OList _) => (h, Raise TypeError)
        | None => (h, Raise Stuck)
        end
    | VJson (JDict _) => (h, Raise Stuck)
    | VJson _ => (h, Raise TypeError)
    end.

(** [v += [x1, ..., xn]]: a list is extended in place and is itself the
    result; no other type accepts a list on the right. *)
Definition iadd_list (v : value) (xs : list value) : M heap value :=
  fun h =>
    match v with
    | VRef l =>
        match h !! l with
        | Some (OList items) =>
            (<[l := OList (items ++ xs)%list]> h, Ok (VRef l))
        | Some (ODict _) => (h, Raise TypeError)
        | None => (h, Raise Stuck)
        end
    | VJson (JList _) => (h, Raise Stuck)
    | VJson _ => (h, Raise TypeError)
    end.

(** The tree a value denotes in a store; [None] past [fuel] nested
    containers or at a reference to no object. *)
Fixpoint snapshot (fuel : nat) (h : heap) (v : value) : option json :=
  match v with
  | VJson j => Some j
  | VRef l =>
      match fuel with
      | O => None
      | S fuel' =>
          match h !! l with
          | Some (ODict d) =>
              JDict <$> mapM (fun kv => pair (fst kv) <$> snapshot fuel' h (snd kv)) d
          | Some (OList items) => JList <$> mapM (snapshot fuel' h) items
          | None => None
          end
      end
  end.

(** The object graph that [json.loads] builds for a parsed document:
    every list and dict is a new mutable object, scalars are plain
    values. *)
Fixpoint alloc (j : json) : M heap value :=
  match j with
  | JList items => vs <- for_each alloc items ;; new (OList vs)
  | JDict fields =>
      d <- for_each (fun kv => v <- alloc (snd kv) ;; ret (fst kv, v)) fields ;;
      new (ODict d)
  | _ => ret (VJson j)
  end.

(** [j[k]] on a read-only tree *)
Definition subscript (j : json) (k : string) : res json :=
  match j with
  | JDict fields =>
      match PyDict.get k fields with
      | Some x => Ok x
      | None => Raise (KeyError k)
      end
  | _ => Raise TypeError
  end.

(** [j.get(k)] on a read-only tree; only a dict has the method *)
Definition get (j : json) (k : string) : res json :=
  match j with
  | JDict fields =>
      match PyDict.get k fields with
      | Some x => Ok x
      | None => Ok JNull
      end
  | _ => Raise AttributeError
  end.

End Py.

(** ** The response envelope *)

Record Response : Type := {
  PhysicalResourceId : json;
  StackId : json;
  RequestId : json;
  LogicalResourceId : json;
  Status : string;
  Reason : string;
  NoEcho : bool;
  Data : list (string * json)
}.

(** the generated [__init__], with the defaults of the dataclass *)
Definition Response_init (physical stack request logical : json) (no_echo : bool) : Response :=
  {| PhysicalResourceId := physical; StackId := stack; RequestId := request;
     LogicalResourceId := logical; Status := "FAILED"; Reason := "";
     NoEcho := no_echo; Data := [] |}.

Definition set_PhysicalResourceId (v : json) (r : Response) : Response :=
  {| PhysicalResourceId := v; StackId := StackId r; RequestId := RequestId r;
     LogicalResourceId := LogicalResourceId r; Status := Status r;
     Reason := Reason r; NoEcho := NoEcho r; Data := Data r |}.

Definition set_Status (v : string) (r : Response) : Response :=
  {| PhysicalResourceId := PhysicalResourceId r; StackId := StackId r;
     RequestId := RequestId r; LogicalResourceId := LogicalResourceId r;
     Status := v; Reason := Reason r; NoEcho := NoEcho r; Data := Data r |}.

Definition set_Reason (v : string) (r : Response) : Response :=
  {| PhysicalResourceId := PhysicalResourceId r; StackId := StackId r;
     RequestId := RequestId r; LogicalResourceId := LogicalResourceId r;
     Status := Status r; Reason := v; NoEcho := NoEcho r; Data := Data r |}.

(** [self.Data.update] with the keyword arguments, in order *)
Definition return_this (kwargs : list (string * json)) (r : Response) : Response :=
  {| PhysicalResourceId := PhysicalResourceId r; StackId := StackId r;
     RequestId := RequestId r; LogicalResourceId := LogicalResourceId r;
     Status := Status r; Reason := Reason r; NoEcho := NoEcho r;
     Data := fold_left (fun d kv => PyDict.set (fst kv) (snd kv) d) kwargs (Data r) |}.

(** [dataclasses.asdict]: the fields in declaration order *)
Definition asdict (r : Response) : json :=
  JDict [("PhysicalResourceId", PhysicalResourceId r);
         ("StackId", StackId r);
         ("RequestId", RequestId r);
         ("LogicalResourceId", LogicalResourceId r);
         ("Status", JStr (Status r));
         ("Reason", JStr (Reason r));
         ("NoEcho", JBool (NoEcho r));
         ("Data", JDict (Data r))].

(** ** What an invocation does to the outside *)

Inductive level : Type := INFO | WARNING | ERROR.

(** A log record keeps the literal text of the message and the values
    whose [repr] the f-string interpolates. *)
Inductive effect : Type :=
| Log (lvl : level) (msg : string) (args : list value)
| RegisterJobDefinition (spec : value)
| DeregisterJobDefinition (jobDefinition : json)
| HttpsPut (host target body : string).

Record world : Type := {
  store : heap;
  trace : list effect
}.

Definition is_put (e : effect) : bool :=
  match e with HttpsPut _ _ _ => true | _ => false end.

Definition is_deregister (e : effect) : bool :=
  match e with DeregisterJobDefinition _ => true | _ => false end.

(** the callback requests in a trace, and their number *)
Definition callbacks (t : list effect) : list effect := List.filter is_put t.
Definition puts (t : list effect) : nat := length (callbacks t).

(** the world after one more effect *)
Definition after (w : world) (e : effect) : world :=
  {| store := store w; trace := (trace w ++ [e])%list |}.

Definition emit (e : effect) : M world unit := fun w => (after w e, Ok tt).

Definition in_heap {A} (c : M heap A) : M world A :=
  fun w => match c (store w) with
           | (h, r) => ({| store := h; trace := trace w |}, r)
           end.

(** Inside the [with] block the state also holds the envelope. *)
Abbreviation scope := (Response * world)%type.

Definition in_world {A} (c : M world A) : M scope A :=
  fun s => match c (snd s) with
           | (w, r) => ((fst s, w), r)
           end.

Definition get_response : M scope Response := fun s => (s, Ok (fst s)).

Definition update_response (f : Response -> Response) : M scope unit :=
  fun s => ((f (fst s), snd s), Ok tt).

Definition with_response {A} (r : Response) (c : M scope A) : M world A :=
  fun w => match c (r, w) with
           | (s, a) => (snd s, a)
           end.

Record Context : Type := {
  log_group_name : string;
  log_stream_name : string
}.

Record url_obj : Type := {
  hostname : option string;
  path : string;
  query : string
}.

(** the two operations of the Batch client that the handler calls *)
Record Batch : Type := {
  register_job_definition : heap -> value -> res json;
  deregister_job_definition : json -> res json
}.

(** What the handler takes from the Python runtime, the standard library
    and the network; none of it is code of this repository. *)
Record Host : Type := {
  (** [os.environ] *)
  environ : gmap string string;
  (** [str(v)] for a value that is not a string *)
  builtin_str : json -> string;
  (** [json.loads] on a string *)
  json_loads : string -> res json;
  (** [urllib.parse.urlparse] on a string *)
  urlparse : string -> res url_obj;
  (** [boto3.client("batch")] *)
  boto3_client_batch : res Batch;
  (** what the constructor [http.client.HTTPSConnection] does with a host
      name: it takes a port off its end and validates the rest, and raises
      [InvalidURL] for names such as [fe80::abcd] or one with a blank *)
  https_connection : string -> res unit;
  (** how [request("PUT", target, body)] ends on the connection that was
      constructed from the host name [host] *)
  https_request : string -> string -> string -> res unit
}.

(** ** [edit_spec] *)

Section EditSpec.

Variable host : Host.

(** [os.environ[k]] *)
Definition os_environ (k : string) : M heap string :=
  match environ host !! k with
  | Some v => ret v
  | None => raise (KeyError k)
  end.

(** a replacement field [{v}] of an f-string *)
Definition fmt (v : json) : string :=
  match v with
  | JStr s => s
  | _ => builtin_str host v
  end.

Definition name_value (name : string) (v : value) : object :=
  ODict [("name", VStr name); ("value", v)].

Definition edit_spec (spec : value) (wf_name step_name image : json) : M heap value :=
  ret_ <- Py.copy spec ;;
  Py.setitem ret_ "jobDefinitionName" (VStr (fmt wf_name ++ "_" ++ fmt step_name)) ;;
  (* the target of [+=] is read first, then the right-hand side is built *)
  cp <- Py.getitem ret_ "containerProperties" ;;
  env <- Py.getitem cp "environment" ;;
  e1 <- Py.new (name_value "BC_WORKFLOW_NAME" (VJson wf_name)) ;;
  e2 <- Py.new (name_value "BC_STEP_NAME" (VJson step_name)) ;;
  region <- os_environ "REGION" ;;
  e3 <- Py.new (name_value "AWS_DEFAULT_REGION" (VStr region)) ;;
  acct <- os_environ "ACCT_NUM" ;;
  e4 <- Py.new (name_value "AWS_ACCOUNT_ID" (VStr acct)) ;;
  env' <- Py.iadd_list env [e1; e2; e3; e4] ;;
  Py.setitem cp "environment" env' ;;
  (* an assignment evaluates its right-hand side before its target *)
  let image_json := Json.dumps_canonical image in
  params <- Py.getitem ret_ "parameters" ;;
  Py.setitem params "image" (VStr image_json) ;;
  tags <- Py.getitem ret_ "tags" ;;
  Py.setitem tags "bclaw:workflow" (VJson wf_name) ;;
  ret ret_.

End EditSpec.


(** ** [respond], [responder] and [lambda_handler] *)

Section Handler.

Variable host : Host.

Definition logger_info (msg : string) (args : list value) : M world unit :=
  emit (Log INFO msg args).
Definition logger_warning (msg : string) : M world unit :=
  emit (Log WARNING msg []).
(** [logger.exception]: an ERROR record (the traceback is not kept) *)
Definition logger_exception (msg : string) : M world unit :=
  emit (Log ERROR msg []).

(** [http.client.HTTPSConnection(hostname)]: the constructor looks for a
    port in the host name, and so fails with AttributeError on [None];
    a name that it does not accept raises before any request.  The
    connection is known by the name it was constructed from. *)
Definition HTTPSConnection (hostname : option string) : M world string :=
  match hostname with
  | Some h => of_res (https_connection host h) ;; ret h
  | None => raise AttributeError
  end.

(** [respond(url, body)].  A [url] that is not a string raises
    AttributeError before any request: [urlparse] decodes what is not a
    [str] as bytes, which fails on a value that is true, and takes a value
    that is false (None, 0, an empty list) for the empty URL, whose
    [hostname] is [None], on which the constructor fails. *)
Definition respond (url : json) (body : json) : M world unit :=
  url_obj <- match url with
             | JStr u => of_res (urlparse host u)
             | _ => raise AttributeError
             end ;;
  let body_json := Json.dumps_default body in
  https <- HTTPSConnection (hostname url_obj) ;;
  let target := path url_obj ++ "?" ++ query url_obj in
  emit (HttpsPut https target body_json) ;;
  of_res (https_request host https target body_json).

Definition diagnostic (context : Context) : string :=
  "see log group " ++ log_group_name context ++ " / log stream " ++ log_stream_name context.

(** the envelope as [responder] constructs it, the keyword arguments
    evaluated in order *)
Definition new_response (event : json) (no_echo : bool) : res Response :=
  match Py.get event "PhysicalResourceId" with
  | Raise e => Raise e
  | Ok physical =>
      match Py.subscript event "StackId" with
      | Raise e => Raise e
      | Ok stack =>
          match Py.subscript event "RequestId" with
          | Raise e => Raise e
          | Ok request =>
              match Py.subscript event "LogicalResourceId" with
              | Raise e => Raise e
              | Ok logical =>
                  Ok (Response_init physical stack request logical no_echo)
              end
          end
      end
  end.

(** [responder] as a context manager: [body] is the block of the [with]
    statement, run at the [yield]. *)
Definition responder (event : json) (context : Context) (no_echo : bool)
    (body : M scope unit) : M world unit :=
  response <- of_res (new_response event no_echo) ;;
  with_response response
    (try_finally
       (try_except
          (body ;;
           in_world (logger_info "succeeded" []) ;;
           update_response (set_Status "SUCCESS"))
          (fun _ =>
             in_world (logger_exception "failed: ") ;;
             update_response (set_Reason (diagnostic context))))
       (response <- get_response ;;
        in_world (logger_info "asdict(response)=" [VJson (asdict response)]) ;;
        url <- of_res (Py.subscript event "ResponseURL") ;;
        response <- get_response ;;
        in_world (respond url (asdict response)))).

Definition is_create_or_update (request_type : json) : bool :=
  match request_type with
  | JStr t => String.eqb t "Create" || String.eqb t "Update"
  | _ => false
  end.

(** [json.loads(s)]: [s] must be a string; the parsed document is a
    graph of new objects. *)
Definition loads (s : json) : M world value :=
  match s with
  | JStr text => doc <- of_res (json_loads host text) ;; in_heap (Py.alloc doc)
  | _ => raise TypeError
  end.

Definition call_register (batch : Batch) (spec : value) : M world json :=
  emit (RegisterJobDefinition spec) ;;
  (fun w => (w, register_job_definition batch (store w) spec)).

Definition call_deregister (batch : Batch) (job_def_id : json) : M world json :=
  emit (DeregisterJobDefinition job_def_id) ;;
  of_res (deregister_job_definition batch job_def_id).

Definition create_or_update (batch : Batch) (event : json) : M scope unit :=
  props <- of_res (Py.subscript event "ResourceProperties") ;;
  text <- of_res (Py.subscript props "spec") ;;
  spec0 <- in_world (loads text) ;;
  props <- of_res (Py.subscript event "ResourceProperties") ;;
  wf_name <- of_res (Py.subscript props "workflowName") ;;
  props <- of_res (Py.subscript event "ResourceProperties") ;;
  step_name <- of_res (Py.subscript props "stepName") ;;
  props <- of_res (Py.subscript event "ResourceProperties") ;;
  image <- of_res (Py.subscript props "image") ;;
  spec <- in_world (in_heap (edit_spec host spec0 wf_name step_name image)) ;;
  in_world (logger_info "spec=" [spec]) ;;
  result <- in_world (call_register batch spec) ;;
  arn <- of_res (Py.subscript result "jobDefinitionArn") ;;
  update_response (set_PhysicalResourceId arn) ;;
  arn <- of_res (Py.subscript result "jobDefinitionArn") ;;
  update_response (return_this [("Arn", arn)]).

Definition delete (batch : Batch) (event : json) : M scope unit :=
  try_except
    (job_def_id <- of_res (Py.get event "PhysicalResourceId") ;;
     match job_def_id with
     | JNull => in_world (logger_warning "no physical resource id found")
     | _ => in_world (call_deregister batch job_def_id) ;; ret tt
     end)
    (fun _ => in_world (logger_warning "deregistration failed: ")).

(** the block of the [with] statement of [lambda_handler] *)
Definition handler_body (batch : Batch) (event : json) : M scope unit :=
  request_type <- of_res (Py.subscript event "RequestType") ;;
  if is_create_or_update request_type
  then create_or_update batch event
  else delete batch event.

(** the [with responder(event, context) as cfn_response:] statement *)
Definition with_block (batch : Batch) (event : json) (context : Context) : M world unit :=
  responder event context false (handler_body batch event).

Definition lambda_handler (event : json) (context : Context) : M world unit :=
  logger_info "event=" [VJson event] ;;
  batch <- of_res (boto3_client_batch host) ;;
  with_block batch event context.

End Handler.


(** ** Auxiliary notions used by the statements *)

(** an item of a dict with its value serialized, as the encoder sorts them *)
Definition entry (sort_keys : bool) (isep ksep : string) (kv : string * json) : string * string :=
  (fst kv, Json.dumps sort_keys isep ksep (snd kv)).

(** the order of items by key *)
Definition key_le {V} (x y : string * V) : Prop := String.leb (fst x) (fst y) = true.

(** a text without the space character *)
Fixpoint spaceless (s : string) : bool :=
  match s with
  | EmptyString => true
  | String c s' => negb (Ascii.eqb c " ") && spaceless s'
  end.

(** a JSON value none of whose keys and strings has a space *)
Fixpoint json_spaceless (j : json) : bool :=
  match j with
  | JStr s => spaceless s
  | JList items => forallb json_spaceless items
  | JDict fields =>
      forallb (fun kv => spaceless (fst kv) && json_spaceless (snd kv)) fields
  | _ => true
  end.

(** Two JSON values are the same up to the order in which the keys of
    their mappings were supplied, at any depth.  Mappings have pairwise
    distinct keys. *)
Fixpoint same_map (a b : json) : bool :=
  match a, b with
  | JNull, JNull => true
  | JBool x, JBool y => Bool.eqb x y
  | JInt x, JInt y => Z.eqb x y
  | JStr x, JStr y => String.eqb x y
  | JList l1, JList l2 =>
      (fix all2 (l1 l2 : list json) : bool :=
         match l1, l2 with
         | [], [] => true
         | x :: l1', y :: l2' => same_map x y && all2 l1' l2'
         | _, _ => false
         end) l1 l2
  | JDict d1, JDict d2 =>
      bool_decide (NoDup (PyDict.keys d1))
      && bool_decide (NoDup (PyDict.keys d2))
      && Nat.eqb (length d1) (length d2)
      && forallb (fun kv =>
                    match PyDict.get (fst kv) d2 with
                    | Some v2 => same_map (snd kv) v2
                    | None => false
                    end) d1
  | _, _ => false
  end.

(** The parts of a job-definition spec that [edit_spec] goes through: the
    items of the spec itself and, with their locations, the container
    properties, the environment list, the parameters and the tags. *)
Record spec_parts : Type := {
  top : list (string * value);
  cp_loc : loc;
  cp : list (string * value);
  env_loc : loc;
  env : list value;
  params_loc : loc;
  params : list (string * value);
  tags_loc : loc;
  tags : list (string * value)
}.

(** [valid_spec h l p]: in the store [h] the object at [l] is a spec that
    has [containerProperties.environment] (a list), [parameters] and
    [tags] (mappings), and these are the parts [p]. *)
Definition valid_spec (h : heap) (l : loc) (p : spec_parts) : Prop :=
  h !! l = Some (ODict (top p))
  /\ PyDict.get "containerProperties" (top p) = Some (VRef (cp_loc p))
  /\ h !! cp_loc p = Some (ODict (cp p))
  /\ PyDict.get "environment" (cp p) = Some (VRef (env_loc p))
  /\ h !! env_loc p = Some (OList (env p))
  /\ PyDict.get "parameters" (top p) = Some (VRef (params_loc p))
  /\ h !! params_loc p = Some (ODict (params p))
  /\ PyDict.get "tags" (top p) = Some (VRef (tags_loc p))
  /\ h !! tags_loc p = Some (ODict (tags p)).

(** the two process environment variables that [edit_spec] reads *)
Definition configured (host : Host) (region acct : string) : Prop :=
  environ host !! "REGION" = Some region
  /\ environ host !! "ACCT_NUM" = Some acct.

(** the references to the four entries that [edit_spec] creates in a store
    that had [n] objects (the copy of the spec is at [n]) *)
Definition new_entries (n : nat) : list value :=
  [VRef (n + 1); VRef (n + 2); VRef (n + 3); VRef (n + 4)].

(** The store that [edit_spec] leaves, in closed form. *)
Definition edited_store (host : Host) (h : heap) (p : spec_parts)
    (wf_name step_name image : json) (region acct : string) : heap :=
  let n := length h in
  let name := VStr (fmt host wf_name ++ "_" ++ fmt host step_name) in
  let image_json := VStr (Json.dumps_canonical image) in
  let params' := PyDict.set "image" image_json (params p) in
  let tags0 := if decide (tags_loc p = params_loc p) then params' else tags p in
  <[tags_loc p := ODict (PyDict.set "bclaw:workflow" (VJson wf_name) tags0)]>
    (<[params_loc p := ODict params']>
       (<[env_loc p := OList (env p ++ new_entries n)%list]>
          (h ++ [ODict (PyDict.set "jobDefinitionName" name (top p));
                 name_value "BC_WORKFLOW_NAME" (VJson wf_name);
                 name_value "BC_STEP_NAME" (VJson step_name);
                 name_value "AWS_DEFAULT_REGION" (VStr region);
                 name_value "AWS_ACCOUNT_ID" (VStr acct)])%list)).

(** [v[k]] read in a store, when it is defined *)
Definition read (h : heap) (v : value) (k : string) : option value :=
  match Py.getitem v k h with
  | (_, Ok x) => Some x
  | _ => None
  end.

(** [spec["parameters"]["image"]] read in a store *)
Definition parameters_image (h : heap) (spec : value) : option value :=
  match read h spec "parameters" with
  | Some params => read h params "image"
  | None => None
  end.

(** the store and the result of a run *)
Definition final {S A} (run : S * res A) : S := fst run.
Definition outcome {S A} (run : S * res A) : res A := snd run.

(** [addressed host event hst target]: the event carries a [ResponseURL]
    that parses, with a host name [hst] from which a connection can be
    constructed, and path-and-query [target]. *)
Definition addressed (host : Host) (event : json) (hst target : string) : Prop :=
  exists url u,
    Py.subscript event "ResponseURL" = Ok (JStr url)
    /\ urlparse host url = Ok u
    /\ hostname u = Some hst
    /\ target = path u ++ "?" ++ query u
    /\ https_connection host hst = Ok tt.

(** what a Delete request does about the job definition [physical] *)
Definition deregistration (batch : Batch) (physical : json) : list effect :=
  match physical with
  | JNull => [Log WARNING "no physical resource id found" []]
  | _ =>
      DeregisterJobDefinition physical
      :: match deregister_job_definition batch physical with
         | Ok _ => []
         | Raise _ => [Log WARNING "deregistration failed: " []]
         end
  end.

(** the two effects of a finalization that delivers the envelope [r]: the
    log record and the request *)
Definition delivery (hst target : string) (r : Response) : list effect :=
  [Log INFO "asdict(response)=" [VJson (asdict r)];
   HttpsPut hst target (Json.dumps_default (asdict r))].

(** the envelope at the end of the [try] statement of [responder], from the
    envelope [r] that the body leaves and the way the body ended *)
Definition exit_envelope (context : Context) (r : Response) (ended : res unit) : Response :=
  match ended with
  | Ok _ => set_Status "SUCCESS" r
  | Raise _ => set_Reason (diagnostic context) r
  end.

(** the log record of that exit *)
Definition exit_log (ended : res unit) : effect :=
  match ended with
  | Ok _ => Log INFO "succeeded" []
  | Raise _ => Log ERROR "failed: " []
  end.

(** A computation is quiet when it issues no callback request: the
    requests in the trace (read off the state by [tr]) are the same after
    it as before. *)
Definition quiet {S A} (tr : S -> list effect) (c : M S A) : Prop :=
  forall s, callbacks (tr (fst (c s))) = callbacks (tr s).

Definition scope_trace (s : scope) : list effect := trace (snd s).

(** [represents h j v]: in the store [h] the value [v] is the document [j]
    as [json.loads] builds it, every list and dict an object of its own. *)
Inductive represents (h : heap) : json -> value -> Prop :=
| represents_null : represents h JNull (VJson JNull)
| represents_bool b : represents h (JBool b) (VJson (JBool b))
| represents_int n : represents h (JInt n) (VJson (JInt n))
| represents_str s : represents h (JStr s) (VJson (JStr s))
| represents_list items l vs :
    h !! l = Some (OList vs) ->
    Forall2 (represents h) items vs ->
    represents h (JList items) (VRef l)
| represents_dict fields l d :
    h !! l = Some (ODict d) ->
    Forall2 (fun kj kv => fst kj = fst kv /\ represents h (snd kj) (snd kv)) fields d ->
    represents h (JDict fields) (VRef l).

(** the locations that the values of a dict refer to *)
Fixpoint locations (d : list (string * value)) : list loc :=
  match d with
  | [] => []
  | (_, VRef l) :: d' => l :: locations d'
  | _ :: d' => locations d'
  end.

(** a spec document that has what [edit_spec] goes through *)
Definition spec_document (doc : json) : Prop :=
  exists fields cp_fields env_items params_fields tags_fields,
    doc = JDict fields
    /\ PyDict.get "containerProperties" fields = Some (JDict cp_fields)
    /\ PyDict.get "environment" cp_fields = Some (JList env_items)
    /\ PyDict.get "parameters" fields = Some (JDict params_fields)
    /\ PyDict.get "tags" fields = Some (JDict tags_fields).

(** ** Further notions: service calls and failures *)

Definition is_register (e : effect) : bool :=
  match e with RegisterJobDefinition _ => true | _ => false end.

(** A computation is silent for [p] when it adds no effect that [p]
    selects to the trace (read off the state by [tr]). *)
Definition silent {S A} (p : effect -> bool) (tr : S -> list effect) (c : M S A) : Prop :=
  forall s, List.filter p (tr (fst (c s))) = List.filter p (tr s).

(** [p] selects calls of the Batch service only *)
Definition service_only (p : effect -> bool) : Prop :=
  (forall lvl msg args, p (Log lvl msg args) = false)
  /\ (forall hst target body, p (HttpsPut hst target body) = false).

(** a document that is not a JSON object *)
Definition not_an_object (doc : json) : bool :=
  match doc with
  | JDict _ => false
  | _ => true
  end.

(** [has_environment h l top lc dc le es]: in the store [h] the object at
    [l] is a mapping with the items [top] whose [containerProperties] is
    the mapping [dc] at [lc], whose [environment] is the list [es] at
    [le].  Nothing is said about parameters and tags. *)
Definition has_environment (h : heap) (l : loc) (top : list (string * value))
    (lc : loc) (dc : list (string * value)) (le : loc) (es : list value) : Prop :=
  h !! l = Some (ODict top)
  /\ PyDict.get "containerProperties" top = Some (VRef lc)
  /\ h !! lc = Some (ODict dc)
  /\ PyDict.get "environment" dc = Some (VRef le)
  /\ h !! le = Some (OList es).

(** the copy of the spec with its new name, as [edit_spec] makes it first *)
Definition renamed (host : Host) (wf_name step_name : json)
    (top : list (string * value)) : object :=
  ODict (PyDict.set "jobDefinitionName"
           (VStr (fmt host wf_name ++ "_" ++ fmt host step_name)) top).

(** the rest of [edit_spec] once the environment is extended: the
    parameters, the tags and the result *)
Definition edit_spec_rest (ret_ : value) (wf_name image : json) : M heap value :=
  params <- Py.getitem ret_ "parameters" ;;
  Py.setitem params "image" (VStr (Json.dumps_canonical image)) ;;
  tags <- Py.getitem ret_ "tags" ;;
  Py.setitem tags "bclaw:workflow" (VJson wf_name) ;;
  ret ret_.

(** a call of the Batch service, of either kind *)
Definition is_service_call (e : effect) : bool := is_register e || is_deregister e.

(** A computation adds at most [n] effects that [p] selects: the selected
    effects after it are those before it and at most [n] more. *)
Definition adds_at_most {S A} (p : effect -> bool) (n : nat) (tr : S -> list effect)
    (c : M S A) : Prop :=
  forall s, exists extra,
    List.filter p (tr (fst (c s))) = (List.filter p (tr s) ++ extra)%list
    /\ length extra <= n.

(** [located host event hst target]: the event carries a [ResponseURL] that
    parses, with host name [hst] and path-and-query [target]; whether a
    connection can be constructed from [hst] is left open. *)
Definition located (host : Host) (event : json) (hst target : string) : Prop :=
  exists url u,
    Py.subscript event "ResponseURL" = Ok (JStr url)
    /\ urlparse host url = Ok u
    /\ hostname u = Some hst
    /\ target = path u ++ "?" ++ query u.

(** ** A concrete invocation, for the examples *)

Module Demo.

Definition image : json := JDict [("tag", JStr "v2"); ("repo", JStr "x")].
Definition image_reordered : json := JDict [("repo", JStr "x"); ("tag", JStr "v2")].

(** a minimal job-definition spec *)
Definition spec : json :=
  JDict [("type", JStr "container");
         ("containerProperties",
          JDict [("image", JStr "img");
                 ("environment", JList [JDict [("name", JStr "A"); ("value", JStr "1")]])]);
         ("parameters", JDict []);
         ("tags", JDict [("owner", JStr "me")])].

(** the same spec as the objects that [json.loads] builds: the entry of
    the environment at 0, the environment list at 1, the container
    properties at 2, the parameters at 3, the tags at 4 and the spec
    itself at 5 *)
Definition spec_store : heap := Eval vm_compute in fst (Py.alloc spec []).
Definition spec_ref : loc := 5.

Definition parts : spec_parts :=
  {| top := [("type", VStr "container"); ("containerProperties", VRef 2);
             ("parameters", VRef 3); ("tags", VRef 4)];
     cp_loc := 2; cp := [("image", VStr "img"); ("environment", VRef 1)];
     env_loc := 1; env := [VRef 0];
     params_loc := 3; params := [];
     tags_loc := 4; tags := [("owner", VStr "me")] |}.

(** the value of the caller's spec after [edit_spec] has returned *)
Definition spec_afterwards : json :=
  JDict [("type", JStr "container");
         ("containerProperties",
          JDict [("image", JStr "img");
                 ("environment",
                  JList [JDict [("name", JStr "A"); ("value", JStr "1")];
                         JDict [("name", JStr "BC_WORKFLOW_NAME"); ("value", JStr "wf1")];
                         JDict [("name", JStr "BC_STEP_NAME"); ("value", JStr "step1")];
                         JDict [("name", JStr "AWS_DEFAULT_REGION"); ("value", JStr "us-east-1")];
                         JDict [("name", JStr "AWS_ACCOUNT_ID"); ("value", JStr "123456789012")]])]);
         ("parameters", JDict [("image", JStr (Json.dumps_canonical image))]);
         ("tags", JDict [("owner", JStr "me"); ("bclaw:workflow", JStr "wf1")])].

Definition arn : json := JStr "arn:aws:batch:us-east-1:123456789012:job-definition/wf1_step1:7".

(** a Batch service that registers anything and refuses to deregister *)
Definition batch : Batch :=
  {| register_job_definition := fun _ _ => Ok (JDict [("jobDefinitionArn", arn)]);
     deregister_job_definition := fun _ => Raise (ClientError "cannot deregister") |}.

Definition url : string := "https://cfn.example.com/callback?sig=abc".

Definition host : Host :=
  {| environ := <["REGION" := "us-east-1"]> (<["ACCT_NUM" := "123456789012"]> ∅);
     builtin_str := fun _ => "";
     json_loads := fun text =>
                     if String.eqb text (Json.dumps_default spec)
                     then Ok spec else Raise JSONDecodeError;
     urlparse := fun u =>
                   if String.eqb u url
                   then Ok {| hostname := Some "cfn.example.com";
                              path := "/callback"; query := "sig=abc" |}
                   else Raise ValueError;
     boto3_client_batch := Ok batch;
     https_connection := fun h =>
                           if String.eqb h "cfn.example.com"
                           then Ok tt else Raise InvalidURL;
     https_request := fun _ _ _ => Ok tt |}.

Definition context : Context :=
  {| log_group_name := "/aws/lambda/register"; log_stream_name := "2024/01/01/[1]abc" |}.

Definition properties : json :=
  JDict [("workflowName", JStr "wf1"); ("stepName", JStr "step1");
         ("image", image); ("spec", JStr (Json.dumps_default spec))].

Definition event (request_type : string) (more : list (string * json)) : json :=
  JDict ([("RequestType", JStr request_type); ("StackId", JStr "stack-1");
          ("RequestId", JStr "request-1"); ("LogicalResourceId", JStr "JobDef");
          ("ResponseURL", JStr url)] ++ more)%list.

Definition create : json := event "Create" [("ResourceProperties", properties)].
Definition create_without_spec : json :=
  event "Create" [("ResourceProperties", JDict [("workflowName", JStr "wf1")])].
Definition delete_known : json := event "Delete" [("PhysicalResourceId", JStr "arn:old")].
Definition delete_unknown : json := event "Delete" [].

(** an event with no [ResponseURL], and one with no [RequestId] *)
Definition unaddressed : list (string * json) :=
  [("RequestType", JStr "Delete"); ("StackId", JStr "stack-1");
   ("RequestId", JStr "request-1"); ("LogicalResourceId", JStr "JobDef")].
Definition unidentified : list (string * json) :=
  [("RequestType", JStr "Delete"); ("StackId", JStr "stack-1");
   ("LogicalResourceId", JStr "JobDef"); ("ResponseURL", JStr url)].

Definition start : world := {| store := []; trace := [] |}.

(** a body that sets a status of its own and returns, and one that sets
    it and then fails *)
Definition body_returns : M scope unit := update_response (set_Status "PENDING").
Definition body_raises : M scope unit :=
  update_response (set_Status "PENDING") ;; raise (KeyError "spec").

(** the envelope of this invocation with the fields that vary *)
Definition envelope (physical : json) (status reason : string)
    (data : list (string * json)) : Response :=
  {| PhysicalResourceId := physical; StackId := JStr "stack-1";
     RequestId := JStr "request-1"; LogicalResourceId := JStr "JobDef";
     Status := status; Reason := reason; NoEcho := false; Data := data |}.

(** the log record and the request that deliver an envelope *)
Definition delivered (r : Response) : list effect :=
  delivery "cfn.example.com" "/callback?sig=abc" r.

End Demo.

(** ** Further concrete cases, for the examples *)

Module Cases.

(** a process without the REGION variable *)
Definition unconfigured : Host :=
  {| environ := <["ACCT_NUM" := "123456789012"]> ∅;
     builtin_str := builtin_str Demo.host;
     json_loads := json_loads Demo.host;
     urlparse := urlparse Demo.host;
     boto3_client_batch := boto3_client_batch Demo.host;
     https_connection := https_connection Demo.host;
     https_request := https_request Demo.host |}.

(** a process with neither REGION nor ACCT_NUM, and one with REGION only *)
Definition bare : Host :=
  {| environ := ∅;
     builtin_str := builtin_str Demo.host;
     json_loads := json_loads Demo.host;
     urlparse := urlparse Demo.host;
     boto3_client_batch := boto3_client_batch Demo.host;
     https_connection := https_connection Demo.host;
     https_request := https_request Demo.host |}.
Definition accountless : Host :=
  {| environ := <["REGION" := "us-east-1"]> ∅;
     builtin_str := builtin_str Demo.host;
     json_loads := json_loads Demo.host;
     urlparse := urlparse Demo.host;
     boto3_client_batch := boto3_client_batch Demo.host;
     https_connection := https_connection Demo.host;
     https_request := https_request Demo.host |}.

(** a network that refuses the connection *)
Definition offline : Host :=
  {| environ := environ Demo.host;
     builtin_str := builtin_str Demo.host;
     json_loads := json_loads Demo.host;
     urlparse := urlparse Demo.host;
     boto3_client_batch := boto3_client_batch Demo.host;
     https_connection := https_connection Demo.host;
     https_request := fun _ _ _ => Raise (OSError "connection refused") |}.

(** a process in which the Batch client cannot be created *)
Definition clientless : Host :=
  {| environ := environ Demo.host;
     builtin_str := builtin_str Demo.host;
     json_loads := json_loads Demo.host;
     urlparse := urlparse Demo.host;
     boto3_client_batch := Raise (ClientError "no region");
     https_connection := https_connection Demo.host;
     https_request := https_request Demo.host |}.

(** a ResponseURL whose host is an IPv6 address: [urlparse] gives the
    address without its brackets, and the constructor takes what follows
    the last colon of that for a port *)
Definition url6 : string := "https://[fe80::abcd]/callback?sig=abc".
Definition literal : Host :=
  {| environ := environ Demo.host;
     builtin_str := builtin_str Demo.host;
     json_loads := json_loads Demo.host;
     urlparse := fun u =>
                   if String.eqb u url6
                   then Ok {| hostname := Some "fe80::abcd";
                              path := "/callback"; query := "sig=abc" |}
                   else urlparse Demo.host u;
     boto3_client_batch := boto3_client_batch Demo.host;
     https_connection := https_connection Demo.host;
     https_request := https_request Demo.host |}.
Definition delete_at_literal : json :=
  JDict [("RequestType", JStr "Delete"); ("StackId", JStr "stack-1");
         ("RequestId", JStr "request-1"); ("LogicalResourceId", JStr "JobDef");
         ("ResponseURL", JStr url6)].

(** a Batch service that rejects every registration *)
Definition rejecting : Batch :=
  {| register_job_definition := fun _ _ => Raise (ClientError "invalid spec");
     deregister_job_definition := fun _ => Ok (JDict []) |}.

(** an Update of a job definition that exists *)
Definition update : json :=
  Demo.event "Update" [("PhysicalResourceId", JStr "arn:old");
                       ("ResourceProperties", Demo.properties)].

(** a spec with an environment and no parameters *)
Definition spec_without_parameters : json :=
  JDict [("containerProperties", JDict [("environment", JList [])]);
         ("tags", JDict [])].
Definition store_without_parameters : heap :=
  Eval vm_compute in fst (Py.alloc spec_without_parameters []).

Definition envelope0 (physical : json) : Response :=
  Response_init physical (JStr "stack-1") (JStr "request-1") (JStr "JobDef") false.

End Cases.
(** * Properties *)

(** ** Dictionaries *)

Module PyDictFacts.
Section Facts.
Context {V : Type}.
Implicit Types (d : list (string * V)) (k : string) (v : V).

Lemma get_set_eq k v d : PyDict.get k (PyDict.set k v d) = Some v.
Proof.
  induction d as [|[k' v'] d IH]; simpl.
  - now rewrite String.eqb_refl.
  - destruct (String.eqb k k') eqn:E; simpl.
    + now rewrite String.eqb_refl.
    + now rewrite E.
Qed.

Lemma get_set_ne k k' v d :
  k <> k' -> PyDict.get k' (PyDict.set k v d) = PyDict.get k' d.
Proof.
  intros Hne. induction d as [|[k0 v0] d IH]; simpl.
  - destruct (String.eqb k' k) eqn:E; [|reflexivity].
    apply String.eqb_eq in E. congruence.
  - destruct (String.eqb k k0) eqn:E; simpl.
    + apply String.eqb_eq in E. subst k0.
      destruct (String.eqb k' k) eqn:E'; [|reflexivity].
      apply String.eqb_eq in E'. congruence.
    + now rewrite IH.
Qed.

(** storing the value a key already has leaves the dict as it is *)
Lemma set_get_id k v d : PyDict.get k d = Some v -> PyDict.set k v d = d.
Proof.
  induction d as [|[k' v'] d IH]; simpl; [discriminate|].
  destruct (String.eqb k k') eqn:E.
  - apply String.eqb_eq in E. intros [= ->]. now subst.
  - intros H. now rewrite IH.
Qed.

Lemma get_In k v d : PyDict.get k d = Some v -> In (k, v) d.
Proof.
  induction d as [|[k' v'] d IH]; simpl; [discriminate|].
  destruct (String.eqb k k') eqn:E.
  - apply String.eqb_eq in E. intros [= ->]. left. now subst.
  - intros H. right. now apply IH.
Qed.

Lemma In_get k v d :
  List.NoDup (PyDict.keys d) -> In (k, v) d -> PyDict.get k d = Some v.
Proof.
  induction d as [|[k' v'] d IH]; simpl; [tauto|].
  intros Hnd [Heq|Hin].
  - injection Heq as -> ->. now rewrite String.eqb_refl.
  - inversion Hnd as [|? ? Hnotin Hnd']; subst.
    destruct (String.eqb k k') eqn:E.
    + apply String.eqb_eq in E. subst k'. exfalso. apply Hnotin.
      unfold PyDict.keys. change k with (fst (k, v)). now apply in_map.
    + now apply IH.
Qed.
End Facts.
End PyDictFacts.

(** ** The order of strings and [sorted] *)

Module SortFacts.

Lemma leb_refl (a : string) : String.leb a a = true.
Proof. destruct (String.leb_total a a); assumption. Qed.

Lemma ltb_compare_trans (a b c : string) :
  String.compare a b = Lt -> String.compare b c = Lt -> String.compare a c = Lt.
Proof.
  intros H1 H2.
  apply String_as_OT.cmp_lt in H1. apply String_as_OT.cmp_lt in H2.
  apply String_as_OT.cmp_lt. eapply String_as_OT.lt_trans; eassumption.
Qed.

Lemma leb_trans (a b c : string) :
  String.leb a b = true -> String.leb b c = true -> String.leb a c = true.
Proof.
  unfold String.leb. intros H1 H2.
  destruct (String.compare a b) eqn:Eab; try discriminate.
  - apply String.compare_eq_iff in Eab. now subst.
  - destruct (String.compare b c) eqn:Ebc; try discriminate.
    + apply String.compare_eq_iff in Ebc. subst. now rewrite Eab.
    + now rewrite (ltb_compare_trans _ _ _ Eab Ebc).
Qed.

Lemma leb_false_flip (a b : string) :
  String.leb a b = false -> String.leb b a = true.
Proof. intros H. destruct (String.leb_total a b); congruence. Qed.

Section Insert.
Context {V : Type}.
Implicit Types (x y : string * V) (d : list (string * V)).

Ltac order_contradiction :=
  match goal with
  | H1 : String.leb ?a ?b = true, H2 : String.leb ?b ?a = true |- _ =>
      exfalso; pose proof (String.leb_antisym _ _ H1 H2); congruence
  | H1 : String.leb ?a ?b = false, H2 : String.leb ?b ?a = false |- _ =>
      exfalso; apply leb_false_flip in H1; congruence
  | H1 : String.leb ?a ?b = true, H2 : String.leb ?b ?c = true,
    H3 : String.leb ?a ?c = false |- _ =>
      exfalso; pose proof (leb_trans _ _ _ H1 H2); congruence
  end.

Lemma insert_item_comm x y d :
  fst x <> fst y ->
  PyDict.insert_item x (PyDict.insert_item y d)
  = PyDict.insert_item y (PyDict.insert_item x d).
Proof.
  intros Hne. induction d as [|e d IH]; simpl.
  - destruct (String.leb (fst x) (fst y)) eqn:Exy,
             (String.leb (fst y) (fst x)) eqn:Eyx;
      try reflexivity; order_contradiction.
  - destruct (String.leb (fst y) (fst e)) eqn:Eye,
             (String.leb (fst x) (fst e)) eqn:Exe; simpl;
      rewrite ?Eye, ?Exe;
      destruct (String.leb (fst x) (fst y)) eqn:Exy,
               (String.leb (fst y) (fst x)) eqn:Eyx;
      try reflexivity; try order_contradiction.
    all: now rewrite IH.
Qed.

Lemma insert_item_permutation x d : Permutation (x :: d) (PyDict.insert_item x d).
Proof.
  induction d as [|e d IH]; simpl; [reflexivity|].
  destruct (String.leb (fst x) (fst e)); [reflexivity|].
  rewrite perm_swap. now apply perm_skip.
Qed.

(** [sorted] returns the items it was given ... *)
Lemma sorted_items_permutation d : Permutation d (PyDict.sorted_items d).
Proof.
  induction d as [|x d IH]; simpl; [reflexivity|].
  rewrite <- insert_item_permutation. now apply perm_skip.
Qed.

Lemma insert_item_sorted x d :
  Sorted key_le d -> Sorted key_le (PyDict.insert_item x d).
Proof.
  induction d as [|e d IH]; simpl; intros Hs.
  - repeat constructor.
  - destruct (String.leb (fst x) (fst e)) eqn:E.
    + constructor; [assumption|]. now constructor.
    + inversion Hs as [|? ? Hs' Hhd]; subst. constructor; [now apply IH|].
      destruct d as [|e' d]; simpl.
      * constructor. now apply leb_false_flip.
      * destruct (String.leb (fst x) (fst e')).
        -- constructor. now apply leb_false_flip.
        -- inversion Hhd; subst. now constructor.
Qed.

(** ... in the order of their keys *)
Lemma sorted_items_sorted d : Sorted key_le (PyDict.sorted_items d).
Proof.
  induction d as [|x d IH]; simpl; [constructor|]. now apply insert_item_sorted.
Qed.

(** the sorted items depend on the entries only, not on their order *)
Lemma sorted_items_perm d1 d2 :
  List.NoDup (PyDict.keys d1) -> Permutation d1 d2 ->
  PyDict.sorted_items d1 = PyDict.sorted_items d2.
Proof.
  intros Hnd Hp. induction Hp as [|x l l' Hp IH|x y l|l l' l'' Hp1 IH1 Hp2 IH2].
  - reflexivity.
  - simpl. rewrite IH; [reflexivity|]. now inversion Hnd.
  - simpl. apply insert_item_comm.
    inversion Hnd as [|? ? Hnotin _]; subst. simpl in Hnotin. intuition congruence.
  - rewrite IH1 by assumption. apply IH2.
    unfold PyDict.keys in *.
    eapply Permutation_NoDup; [|exact Hnd]. now apply Permutation_map.
Qed.
End Insert.

End SortFacts.

(** ** [json.dumps] with sorted keys *)

Module JsonFacts.

(** induction over JSON trees, with the hypothesis for every element of
    a list and every value of a mapping *)
Lemma json_nested_ind (P : json -> Prop)
    (Hnull : P JNull)
    (Hbool : forall b, P (JBool b))
    (Hint : forall n, P (JInt n))
    (Hstr : forall s, P (JStr s))
    (Hlist : forall items, Forall P items -> P (JList items))
    (Hdict : forall fields, Forall (fun kv => P (snd kv)) fields -> P (JDict fields)) :
  forall j, P j.
Proof.
  fix IH 1. intros [ | b | n | s | items | fields ].
  - exact Hnull.
  - apply Hbool.
  - apply Hint.
  - apply Hstr.
  - apply Hlist. induction items as [|x items IHitems]; constructor.
    + apply IH.
    + exact IHitems.
  - apply Hdict. induction fields as [|kv fields IHfields]; constructor.
    + apply IH.
    + exact IHfields.
Qed.

Lemma dumps_dict sort_keys isep ksep fields :
  Json.dumps sort_keys isep ksep (JDict fields)
  = "{" ++ Json.join isep
             (map (fun kv => Json.dump_str (fst kv) ++ ksep ++ snd kv)
                (Json.order sort_keys (map (entry sort_keys isep ksep) fields)))
        ++ "}".
Proof. reflexivity. Qed.

Lemma dumps_list sort_keys isep ksep items :
  Json.dumps sort_keys isep ksep (JList items)
  = "[" ++ Json.join isep (map (Json.dumps sort_keys isep ksep) items) ++ "]".
Proof. reflexivity. Qed.

Lemma keys_entries sort_keys isep ksep fields :
  PyDict.keys (map (entry sort_keys isep ksep) fields) = PyDict.keys fields.
Proof. unfold PyDict.keys. rewrite map_map. reflexivity. Qed.

Lemma NoDup_keys_items {V} (d : list (string * V)) :
  List.NoDup (PyDict.keys d) -> List.NoDup d.
Proof. unfold PyDict.keys. apply NoDup_map_inv. Qed.

(** Values that are the same up to key order have the same sorted-key
    serialization, whatever the separators. *)
Lemma dumps_sorted_same_map isep ksep :
  forall a b, same_map a b = true ->
         Json.dumps true isep ksep a = Json.dumps true isep ksep b.
Proof.
  induction a as [ | x | x | x | l1 IH | d1 IH ] using json_nested_ind;
    intros [ | y | y | y | l2 | d2 ]; simpl same_map; try discriminate.
  - reflexivity.
  - intros H. apply Bool.eqb_prop in H. now subst.
  - intros H. apply Z.eqb_eq in H. now subst.
  - intros H. apply String.eqb_eq in H. now subst.
  - intros H. rewrite !dumps_list.
    assert (map (Json.dumps true isep ksep) l1
            = map (Json.dumps true isep ksep) l2) as ->; [|reflexivity].
    revert l2 H. induction IH as [|x l1 Hx _ IHl]; intros [|y l2] H;
      try discriminate; [reflexivity|].
    apply andb_prop in H as [Hxy Hrest]. simpl. f_equal; auto.
  - intros H.
    apply andb_prop in H as [H Hall]. apply andb_prop in H as [H Hlen].
    apply andb_prop in H as [Hnd1 Hnd2].
    apply bool_decide_eq_true in Hnd1, Hnd2.
    apply NoDup_ListNoDup in Hnd1, Hnd2. apply Nat.eqb_eq in Hlen.
    rewrite !dumps_dict. unfold Json.order.
    assert (PyDict.sorted_items (map (entry true isep ksep) d1)
            = PyDict.sorted_items (map (entry true isep ksep) d2)) as ->;
      [|reflexivity].
    apply SortFacts.sorted_items_perm.
    { now rewrite keys_entries. }
    apply NoDup_Permutation_bis.
    + apply NoDup_keys_items. now rewrite keys_entries.
    + rewrite !length_map. lia.
    + intros [k s] Hin. apply in_map_iff in Hin as [[k1 v1] [Heq Hin]].
      unfold entry in Heq. simpl in Heq. injection Heq as <- <-.
      rewrite forallb_forall in Hall. specialize (Hall _ Hin). simpl in Hall.
      destruct (PyDict.get k1 d2) as [v2|] eqn:Hget; [|discriminate].
      rewrite List.Forall_forall in IH.
      pose proof (IH _ Hin _ Hall) as Heq. simpl in Heq. rewrite Heq.
      apply PyDictFacts.get_In in Hget.
      apply in_map_iff. exists (k1, v2). split; [reflexivity|assumption].
Qed.

(** *** No whitespace in the canonical form *)

Lemma spaceless_app a b : spaceless (a ++ b) = spaceless a && spaceless b.
Proof.
  induction a as [|c a IH]; simpl; [reflexivity|].
  now rewrite IH, andb_assoc.
Qed.

Lemma hex_digit_not_space n : Ascii.eqb (Json.hex_digit n) " " = false.
Proof.
  unfold Json.hex_digit.
  repeat match goal with
         | |- context [match ?x with _ => _ end] => destruct x
         end; reflexivity.
Qed.

Lemma escape_char_spaceless c :
  Ascii.eqb c " " = false -> spaceless (Json.escape_char c) = true.
Proof.
  intros Hc. unfold Json.escape_char.
  repeat match goal with
         | |- context [if ?b then _ else _] => destruct b
         end; simpl; rewrite ?Hc, ?hex_digit_not_space; reflexivity.
Qed.

Lemma escape_spaceless s : spaceless s = true -> spaceless (Json.escape s) = true.
Proof.
  induction s as [|c s IH]; simpl; [reflexivity|].
  intros H. apply andb_prop in H as [Hc Hs].
  rewrite spaceless_app, IH by assumption.
  rewrite escape_char_spaceless; [reflexivity|].
  now destruct (Ascii.eqb c " ").
Qed.

Lemma dump_str_spaceless s : spaceless s = true -> spaceless (Json.dump_str s) = true.
Proof.
  intros H. unfold Json.dump_str. rewrite !spaceless_app, escape_spaceless by assumption.
  reflexivity.
Qed.

Lemma string_of_uint_spaceless d : spaceless (NilZero.string_of_uint d) = true.
Proof.
  destruct d; try reflexivity; simpl;
    match goal with |- spaceless (NilEmpty.string_of_uint ?d) = true =>
      induction d; simpl; auto end.
Qed.

Lemma dump_int_spaceless n : spaceless (Json.dump_int n) = true.
Proof.
  unfold Json.dump_int, NilZero.string_of_int.
  destruct (Z.to_int n); simpl; apply string_of_uint_spaceless.
Qed.

Lemma join_spaceless sep parts :
  spaceless sep = true -> forallb spaceless parts = true ->
  spaceless (Json.join sep parts) = true.
Proof.
  intros Hsep. induction parts as [|p parts IH]; simpl; [reflexivity|].
  intros H. apply andb_prop in H as [Hp Hparts].
  destruct parts as [|q parts]; [assumption|].
  rewrite !spaceless_app, Hp, Hsep, IH by assumption. reflexivity.
Qed.

Lemma forallb_sorted_items {V} (P : string * V -> bool) d :
  forallb P d = true -> forallb P (PyDict.sorted_items d) = true.
Proof.
  rewrite !forallb_forall. intros H x Hx. apply H.
  eapply Permutation_in; [|exact Hx].
  symmetry. apply SortFacts.sorted_items_permutation.
Qed.

(** With the separators [,] and [:], the text has a space only where a
    key or a string of the value has one. *)
Lemma dumps_canonical_spaceless :
  forall j, json_spaceless j = true -> spaceless (Json.dumps_canonical j) = true.
Proof.
  unfold Json.dumps_canonical.
  induction j as [ | [] | n | s | items IH | fields IH ] using json_nested_ind;
    simpl json_spaceless; intros H; try reflexivity.
  - apply dump_int_spaceless.
  - now apply dump_str_spaceless.
  - rewrite dumps_list, !spaceless_app, join_spaceless; try reflexivity.
    rewrite forallb_forall in *. intros text Hin.
    apply in_map_iff in Hin as (x & <- & Hx).
    rewrite List.Forall_forall in IH. auto.
  - rewrite dumps_dict, !spaceless_app, join_spaceless; try reflexivity.
    unfold Json.order.
    rewrite forallb_forall. intros text Hin.
    apply in_map_iff in Hin as ([k v] & <- & Hkv). cbn [fst snd].
    assert (Hall : forallb (fun kv : string * string =>
                              spaceless (fst kv) && spaceless (snd kv))
                     (PyDict.sorted_items (map (entry true "," ":") fields)) = true).
    { apply forallb_sorted_items. rewrite forallb_forall.
      intros kv Hin. apply in_map_iff in Hin as (kv0 & <- & Hin0). simpl.
      rewrite forallb_forall in H. specialize (H _ Hin0).
      apply andb_prop in H as [Hk Hv]. rewrite Hk. simpl.
      rewrite List.Forall_forall in IH. now apply IH. }
    rewrite forallb_forall in Hall. specialize (Hall _ Hkv). simpl in Hall.
    apply andb_prop in Hall as [Hk Hv].
    rewrite !spaceless_app, dump_str_spaceless, Hv by assumption. reflexivity.
Qed.

(** the image of the end-to-end scenario *)
Example dumps_canonical_image :
  Json.dumps_canonical (JDict [("tag", JStr "v2"); ("repo", JStr "x")])
  = String.concat Json.quote ["{"; "repo"; ":"; "x"; ","; "tag"; ":"; "v2"; "}"].
Proof. reflexivity. Qed.

(** escapes, nesting and the default separators *)
Example dumps_default_nested :
  Json.dumps_default
    (JDict [("b", JList [JInt (-5); JBool true; JNull]); ("a", JStr "x y\z")])
  = String.concat Json.quote
      ["{"; "b"; ": [-5, true, null], "; "a"; ": "; "x y\\z"; "}"].
Proof. reflexivity. Qed.

End JsonFacts.

(** ** The store *)

Module StoreFacts.

Lemma bind_ok {S A B} (c : M S A) (k : A -> M S B) s s' a :
  c s = (s', Ok a) -> bind c k s = k a s'.
Proof. unfold bind. now intros ->. Qed.

Lemma bind_raise {S A B} (c : M S A) (k : A -> M S B) s s' e :
  c s = (s', Raise e) -> bind c k s = (s', Raise e).
Proof. unfold bind. now intros ->. Qed.

Lemma bind_inv {S A B} (c : M S A) (k : A -> M S B) s s2 b :
  bind c k s = (s2, Ok b) ->
  exists s1 a, c s = (s1, Ok a) /\ k a s1 = (s2, Ok b).
Proof.
  unfold bind. destruct (c s) as [s1 [a|e]]; [|discriminate].
  intros H. now exists s1, a.
Qed.

Lemma lookup_new (h : heap) (o : object) : (h ++ [o])%list !! length h = Some o.
Proof. rewrite lookup_app_r by lia. now rewrite Nat.sub_diag. Qed.

Lemma copy_ref (h : heap) l o :
  h !! l = Some o -> Py.copy (VRef l) h = ((h ++ [o])%list, Ok (VRef (length h))).
Proof. unfold Py.copy, Py.new. now intros ->. Qed.

Lemma getitem_ref (h : heap) l d k v :
  h !! l = Some (ODict d) -> PyDict.get k d = Some v ->
  Py.getitem (VRef l) k h = (h, Ok v).
Proof. unfold Py.getitem. now intros -> ->. Qed.

Lemma setitem_ref (h : heap) l d k x :
  h !! l = Some (ODict d) ->
  Py.setitem (VRef l) k x h = (<[l := ODict (PyDict.set k x d)]> h, Ok tt).
Proof. unfold Py.setitem, Py.store. now intros ->. Qed.

Lemma iadd_list_ref (h : heap) l items xs :
  h !! l = Some (OList items) ->
  Py.iadd_list (VRef l) xs h = (<[l := OList (items ++ xs)%list]> h, Ok (VRef l)).
Proof. unfold Py.iadd_list. now intros ->. Qed.

Lemma os_environ_ok host k v (h : heap) :
  environ host !! k = Some v -> os_environ host k h = (h, Ok v).
Proof. unfold os_environ. now intros ->. Qed.

(** a dict and a list are never the same object *)
Lemma dict_list_apart (h : heap) l1 l2 d items :
  h !! l1 = Some (ODict d) -> h !! l2 = Some (OList items) -> l1 <> l2.
Proof. intros H1 H2 ->. congruence. Qed.

End StoreFacts.

Module EditSpecFacts.
Import StoreFacts.

Lemma insert_new (h : heap) (o x : object) :
  <[length h := x]> (h ++ [o])%list = (h ++ [x])%list.
Proof.
  replace (length h) with (length h + 0) at 1 by lia.
  now rewrite insert_app_r.
Qed.

Lemma new_run (h : heap) o : Py.new o h = ((h ++ [o])%list, Ok (VRef (length h))).
Proof. reflexivity. Qed.

Lemma lookup_old (h k : heap) i o : h !! i = Some o -> (h ++ k)%list !! i = Some o.
Proof. apply lookup_app_l_Some. Qed.

Lemma edit_spec_run host h l p wf_name step_name image region acct :
  valid_spec h l p -> configured host region acct ->
  edit_spec host (VRef l) wf_name step_name image h
  = (edited_store host h p wf_name step_name image region acct,
     Ok (VRef (length h))).
Proof.
  intros (Hl & Hcp & Hlc & Henv & Hle & Hpar & Hlp & Htag & Hlt) [Hreg Hacct].
  pose proof (lookup_lt_Some _ _ _ Hlc) as Blc.
  pose proof (lookup_lt_Some _ _ _ Hle) as Ble.
  pose proof (lookup_lt_Some _ _ _ Hlp) as Blp.
  pose proof (lookup_lt_Some _ _ _ Hlt) as Blt.
  pose proof (dict_list_apart _ _ _ _ _ Hlc Hle) as Nce.
  pose proof (dict_list_apart _ _ _ _ _ Hlp Hle) as Npe.
  pose proof (dict_list_apart _ _ _ _ _ Hlt Hle) as Nte.
  unfold edit_spec, edited_store.
  set (name := VStr _). set (image_json := VStr (Json.dumps_canonical image)).
  set (top' := PyDict.set "jobDefinitionName" name (top p)).
  assert (Hcp' : PyDict.get "containerProperties" top' = Some (VRef (cp_loc p)))
    by (unfold top'; now rewrite PyDictFacts.get_set_ne).
  assert (Hpar' : PyDict.get "parameters" top' = Some (VRef (params_loc p)))
    by (unfold top'; now rewrite PyDictFacts.get_set_ne).
  assert (Htag' : PyDict.get "tags" top' = Some (VRef (tags_loc p)))
    by (unfold top'; now rewrite PyDictFacts.get_set_ne).
  erewrite bind_ok by (apply copy_ref; eassumption).
  erewrite bind_ok by (apply setitem_ref; apply lookup_new).
  rewrite insert_new. fold top'.
  erewrite bind_ok by (eapply getitem_ref; [apply lookup_new | eassumption]).
  erewrite bind_ok by (eapply getitem_ref; [apply lookup_old; eassumption | eassumption]).
  erewrite bind_ok by apply new_run.
  erewrite bind_ok by apply new_run.
  erewrite bind_ok by (apply os_environ_ok; eassumption).
  erewrite bind_ok by apply new_run.
  erewrite bind_ok by (apply os_environ_ok; eassumption).
  erewrite bind_ok by apply new_run.
  rewrite <- !app_assoc. simpl app.
  rewrite !length_app. simpl length.
  fold (new_entries (length h)).
  remember (h ++ _)%list as h1 eqn:Eh1.
  assert (Htop1 : h1 !! length h = Some (ODict top'))
    by (rewrite Eh1; now apply list_lookup_middle).
  assert (Hold1 : forall i o, h !! i = Some o -> h1 !! i = Some o)
    by (intros i o Hi; rewrite Eh1; now apply lookup_app_l_Some).
  assert (Len1 : length h1 = length h + 5)
    by (rewrite Eh1, length_app; reflexivity).
  erewrite bind_ok by (apply iadd_list_ref; apply Hold1; eassumption).
  remember (<[env_loc p := _]> h1) as h2 eqn:Eh2.
  assert (Htop2 : h2 !! length h = Some (ODict top'))
    by (rewrite Eh2, list_lookup_insert_ne by lia; assumption).
  assert (Hcp2 : h2 !! cp_loc p = Some (ODict (cp p)))
    by (rewrite Eh2, list_lookup_insert_ne by congruence; auto).
  assert (Hpar2 : h2 !! params_loc p = Some (ODict (params p)))
    by (rewrite Eh2, list_lookup_insert_ne by congruence; auto).
  erewrite bind_ok by (apply setitem_ref; exact Hcp2).
  rewrite (PyDictFacts.set_get_id _ _ _ Henv). rewrite (list_insert_id _ _ _ Hcp2).
  erewrite bind_ok by (eapply getitem_ref; eassumption).
  erewrite bind_ok by (apply setitem_ref; exact Hpar2).
  remember (<[params_loc p := _]> h2) as h3 eqn:Eh3.
  assert (Htop3 : h3 !! length h = Some (ODict top'))
    by (rewrite Eh3, list_lookup_insert_ne by lia; assumption).
  assert (Htags3 : h3 !! tags_loc p
                   = Some (ODict (if decide (tags_loc p = params_loc p)
                                  then PyDict.set "image" image_json (params p)
                                  else tags p))).
  { rewrite Eh3. destruct (decide (tags_loc p = params_loc p)) as [E|E].
    - rewrite E. apply list_lookup_insert_eq.
      rewrite Eh2, length_insert. lia.
    - rewrite list_lookup_insert_ne by congruence.
      rewrite Eh2, list_lookup_insert_ne by congruence. auto. }
  erewrite bind_ok by (eapply getitem_ref; eassumption).
  erewrite bind_ok by (apply setitem_ref; exact Htags3).
  reflexivity.
Qed.

Section Edited.
Variables (host : Host) (h : heap) (l : loc) (p : spec_parts).
Variables (wf_name step_name image : json) (region acct : string).
Hypothesis Hvalid : valid_spec h l p.

#[local] Abbreviation h' := (edited_store host h p wf_name step_name image region acct).

Lemma edited_length : length h' = length h + 5.
Proof.
  unfold edited_store. rewrite !length_insert, length_app. reflexivity.
Qed.

Lemma edited_top :
  h' !! length h
  = Some (ODict (PyDict.set "jobDefinitionName"
                   (VStr (fmt host wf_name ++ "_" ++ fmt host step_name)) (top p))).
Proof.
  destruct Hvalid as (_ & _ & _ & _ & Hle & _ & Hlp & _ & Hlt).
  apply lookup_lt_Some in Hle, Hlp, Hlt.
  unfold edited_store.
  rewrite !list_lookup_insert_ne by lia. now apply list_lookup_middle.
Qed.

Lemma edited_entries :
  h' !! (length h + 1) = Some (name_value "BC_WORKFLOW_NAME" (VJson wf_name))
  /\ h' !! (length h + 2) = Some (name_value "BC_STEP_NAME" (VJson step_name))
  /\ h' !! (length h + 3) = Some (name_value "AWS_DEFAULT_REGION" (VStr region))
  /\ h' !! (length h + 4) = Some (name_value "AWS_ACCOUNT_ID" (VStr acct)).
Proof.
  destruct Hvalid as (_ & _ & _ & _ & Hle & _ & Hlp & _ & Hlt).
  apply lookup_lt_Some in Hle, Hlp, Hlt.
  unfold edited_store.
  rewrite !list_lookup_insert_ne by lia.
  rewrite !lookup_app_r by lia.
  replace (length h + 1 - length h) with 1 by lia.
  replace (length h + 2 - length h) with 2 by lia.
  replace (length h + 3 - length h) with 3 by lia.
  replace (length h + 4 - length h) with 4 by lia.
  repeat split; reflexivity.
Qed.

Lemma edited_env :
  h' !! env_loc p = Some (OList (env p ++ new_entries (length h))%list).
Proof.
  destruct Hvalid as (_ & _ & _ & _ & Hle & _ & Hlp & _ & Hlt).
  pose proof (dict_list_apart _ _ _ _ _ Hlp Hle).
  pose proof (dict_list_apart _ _ _ _ _ Hlt Hle).
  apply lookup_lt_Some in Hle.
  unfold edited_store.
  rewrite !list_lookup_insert_ne by congruence.
  apply list_lookup_insert_eq. rewrite length_app. lia.
Qed.

(** what is at a location other than the three that are updated *)
Lemma edited_frame x o :
  h !! x = Some o ->
  x <> env_loc p -> x <> params_loc p -> x <> tags_loc p ->
  h' !! x = Some o.
Proof.
  intros Hx N1 N2 N3. unfold edited_store.
  rewrite !list_lookup_insert_ne by congruence.
  now apply lookup_app_l_Some.
Qed.

Lemma edited_params :
  exists params',
    h' !! params_loc p = Some (ODict params')
    /\ PyDict.get "image" params' = Some (VStr (Json.dumps_canonical image)).
Proof.
  destruct Hvalid as (_ & _ & _ & _ & Hle & _ & Hlp & _ & Hlt).
  apply lookup_lt_Some in Hlp.
  unfold edited_store.
  destruct (decide (tags_loc p = params_loc p)) as [E|E].
  - rewrite E. eexists. split.
    + apply list_lookup_insert_eq. rewrite !length_insert, length_app. lia.
    + rewrite PyDictFacts.get_set_ne by discriminate.
      apply PyDictFacts.get_set_eq.
  - eexists. split.
    + rewrite list_lookup_insert_ne by congruence.
      apply list_lookup_insert_eq. rewrite !length_insert, length_app. lia.
    + apply PyDictFacts.get_set_eq.
Qed.

Lemma edited_tags :
  exists tags',
    h' !! tags_loc p = Some (ODict tags')
    /\ PyDict.get "bclaw:workflow" tags' = Some (VJson wf_name)
    /\ (params_loc p <> tags_loc p ->
        tags' = PyDict.set "bclaw:workflow" (VJson wf_name) (tags p)).
Proof.
  destruct Hvalid as (_ & _ & _ & _ & Hle & _ & Hlp & _ & Hlt).
  apply lookup_lt_Some in Hlt.
  unfold edited_store. eexists. split; [|split].
  - apply list_lookup_insert_eq. rewrite !length_insert, length_app. lia.
  - apply PyDictFacts.get_set_eq.
  - intros N. destruct (decide (tags_loc p = params_loc p)); congruence.
Qed.

Lemma edited_cp :
  exists cp',
    h' !! cp_loc p = Some (ODict cp')
    /\ PyDict.get "environment" cp' = Some (VRef (env_loc p)).
Proof.
  destruct edited_params as (params' & Hp' & _).
  destruct edited_tags as (tags' & Ht' & _).
  destruct Hvalid as (_ & _ & Hlc & Henv & Hle & _ & Hlp & _ & Hlt).
  pose proof (dict_list_apart _ _ _ _ _ Hlc Hle) as Nce.
  destruct (decide (cp_loc p = tags_loc p)) as [E1|N1].
  { exists tags'. rewrite E1. split; [assumption|].
    assert (cp p = tags p) as Ecp by congruence.
    revert Ht'. unfold edited_store.
    rewrite list_lookup_insert_eq
      by (rewrite !length_insert, length_app; apply lookup_lt_Some in Hlt; lia).
    intros [= <-]. rewrite PyDictFacts.get_set_ne by discriminate.
    destruct (decide (tags_loc p = params_loc p)).
    - rewrite PyDictFacts.get_set_ne by discriminate. congruence.
    - congruence. }
  destruct (decide (cp_loc p = params_loc p)) as [E2|N2].
  { exists (PyDict.set "image" (VStr (Json.dumps_canonical image)) (params p)).
    split.
    - unfold edited_store. rewrite list_lookup_insert_ne by congruence.
      rewrite E2. apply list_lookup_insert_eq.
      rewrite !length_insert, length_app. apply lookup_lt_Some in Hlp. lia.
    - rewrite PyDictFacts.get_set_ne by discriminate. congruence. }
  exists (cp p). split; [|assumption].
  apply edited_frame; assumption.
Qed.
End Edited.

(** The copy is one level deep: the caller's spec keeps its own items,
    but its environment list is the list that [edit_spec] extends. *)
Lemma edit_spec_shares_nested host h l p wf_name step_name image region acct :
  valid_spec h l p -> configured host region acct ->
  l <> params_loc p -> l <> tags_loc p ->
  let h' := final (edit_spec host (VRef l) wf_name step_name image h) in
  h' !! l = Some (ODict (top p))
  /\ h' !! env_loc p = Some (OList (env p ++ new_entries (length h))%list)
  /\ h' !! env_loc p <> h !! env_loc p.
Proof.
  intros Hv Hc N1 N2. cbv zeta.
  rewrite (edit_spec_run host h l p wf_name step_name image region acct Hv Hc).
  unfold final, fst.
  pose proof (edited_env host h l p wf_name step_name image region acct Hv) as Henv.
  destruct Hv as (Hl & _ & _ & _ & Hle & _ & Hlp & _ & Hlt).
  split; [|split].
  - apply edited_frame; try assumption.
    intros ->. congruence.
  - exact Henv.
  - rewrite Henv, Hle. intros [= H].
    apply (f_equal (@length value)) in H. rewrite length_app in H.
    simpl in H. lia.
Qed.

End EditSpecFacts.

(** ** [edit_spec]: the properties *)

(** C8. For every valid spec, the environment list of the output of
    [edit_spec] is the list of the input, in its order, followed by four
    new name/value entries: BC_WORKFLOW_NAME, BC_STEP_NAME,
    AWS_DEFAULT_REGION (the REGION variable) and AWS_ACCOUNT_ID (the
    ACCT_NUM variable).  Nothing else in the store changes but the
    parameters and the tags. *)
Theorem edit_spec_appends_environment
    (host : Host) (h : heap) (l : loc) (p : spec_parts)
    (wf step : string) (image : json) (region acct : string) :
  valid_spec h l p -> configured host region acct ->
  exists h',
    let n := length h in
    edit_spec host (VRef l) (JStr wf) (JStr step) image h = (h', Ok (VRef n))
    /\ read h' (VRef n) "containerProperties" = Some (VRef (cp_loc p))
    /\ read h' (VRef (cp_loc p)) "environment" = Some (VRef (env_loc p))
    /\ h' !! env_loc p
       = Some (OList (env p ++ [VRef (n + 1); VRef (n + 2); VRef (n + 3); VRef (n + 4)])%list)
    /\ h' !! (n + 1) = Some (ODict [("name", VStr "BC_WORKFLOW_NAME"); ("value", VStr wf)])
    /\ h' !! (n + 2) = Some (ODict [("name", VStr "BC_STEP_NAME"); ("value", VStr step)])
    /\ h' !! (n + 3) = Some (ODict [("name", VStr "AWS_DEFAULT_REGION"); ("value", VStr region)])
    /\ h' !! (n + 4) = Some (ODict [("name", VStr "AWS_ACCOUNT_ID"); ("value", VStr acct)])
    /\ (forall x o, h !! x = Some o ->
                x <> env_loc p -> x <> params_loc p -> x <> tags_loc p ->
                h' !! x = Some o).
Proof.
  intros Hv Hc.
  exists (edited_store host h p (JStr wf) (JStr step) image region acct). cbv zeta.
  pose proof (EditSpecFacts.edited_top host h l p (JStr wf) (JStr step) image region acct Hv) as Htop.
  destruct (EditSpecFacts.edited_cp host h l p (JStr wf) (JStr step) image region acct Hv)
    as (cp' & Hcp' & Henv').
  destruct (EditSpecFacts.edited_entries host h l p (JStr wf) (JStr step) image region acct Hv)
    as (E1 & E2 & E3 & E4).
  split; [now apply EditSpecFacts.edit_spec_run|].
  split.
  { unfold read, Py.getitem. rewrite Htop.
    rewrite PyDictFacts.get_set_ne by discriminate.
    destruct Hv as (_ & -> & _). reflexivity. }
  split.
  { unfold read, Py.getitem. now rewrite Hcp', Henv'. }
  split; [now apply (EditSpecFacts.edited_env host h l)|].
  repeat (split; [assumption|]).
  intros x o. now apply EditSpecFacts.edited_frame.
Qed.

Lemma edit_spec_appends_environment_witness :
  exists h',
    edit_spec Demo.host (VRef Demo.spec_ref) (JStr "wf1") (JStr "step1") Demo.image Demo.spec_store
    = (h', Ok (VRef 6))
    /\ h' !! 1 = Some (OList [VRef 0; VRef 7; VRef 8; VRef 9; VRef 10])
    /\ h' !! 9 = Some (ODict [("name", VStr "AWS_DEFAULT_REGION"); ("value", VStr "us-east-1")]).
Proof.
  destruct (edit_spec_appends_environment Demo.host Demo.spec_store Demo.spec_ref Demo.parts
              "wf1" "step1" Demo.image "us-east-1" "123456789012")
    as (h' & Hrun & _ & _ & Henv & _ & _ & H3 & _).
  - repeat split; reflexivity.
  - split; vm_compute; reflexivity.
  - exists h'. repeat split; assumption.
Defined.

(** C9. For every valid spec (its parameters and its tags being two
    mappings), the output of [edit_spec] has [jobDefinitionName] equal to
    workflow name, underscore, step name; its tags bind [bclaw:workflow] to
    the workflow name, and every other tag is as in the input. *)
Theorem edit_spec_name_and_tags
    (host : Host) (h : heap) (l : loc) (p : spec_parts)
    (wf step : string) (image : json) (region acct : string) :
  valid_spec h l p -> configured host region acct ->
  params_loc p <> tags_loc p ->
  exists h' tags',
    let n := length h in
    edit_spec host (VRef l) (JStr wf) (JStr step) image h = (h', Ok (VRef n))
    /\ read h' (VRef n) "jobDefinitionName" = Some (VStr (wf ++ "_" ++ step))
    /\ read h' (VRef n) "tags" = Some (VRef (tags_loc p))
    /\ h' !! tags_loc p = Some (ODict tags')
    /\ PyDict.get "bclaw:workflow" tags' = Some (VStr wf)
    /\ (forall k, k <> "bclaw:workflow" -> PyDict.get k tags' = PyDict.get k (tags p)).
Proof.
  intros Hv Hc Hne.
  destruct (EditSpecFacts.edited_tags host h l p (JStr wf) (JStr step) image region acct Hv)
    as (tags' & Htags' & Hwf & Hset).
  pose proof (EditSpecFacts.edited_top host h l p (JStr wf) (JStr step) image region acct Hv) as Htop.
  exists (edited_store host h p (JStr wf) (JStr step) image region acct), tags'. cbv zeta.
  split; [now apply EditSpecFacts.edit_spec_run|].
  split.
  { unfold read, Py.getitem. rewrite Htop, PyDictFacts.get_set_eq. reflexivity. }
  split.
  { unfold read, Py.getitem. rewrite Htop.
    rewrite PyDictFacts.get_set_ne by discriminate.
    destruct Hv as (_ & _ & _ & _ & _ & _ & _ & -> & _). reflexivity. }
  split; [assumption|]. split; [assumption|].
  intros k Hk. rewrite (Hset Hne). apply PyDictFacts.get_set_ne. congruence.
Qed.

Lemma edit_spec_name_and_tags_witness :
  exists h' tags',
    edit_spec Demo.host (VRef Demo.spec_ref) (JStr "wf1") (JStr "step1") Demo.image Demo.spec_store
    = (h', Ok (VRef 6))
    /\ read h' (VRef 6) "jobDefinitionName" = Some (VStr "wf1_step1")
    /\ h' !! 4 = Some (ODict tags')
    /\ PyDict.get "bclaw:workflow" tags' = Some (VStr "wf1")
    /\ PyDict.get "owner" tags' = Some (VStr "me").
Proof.
  destruct (edit_spec_name_and_tags Demo.host Demo.spec_store Demo.spec_ref Demo.parts
              "wf1" "step1" Demo.image "us-east-1" "123456789012")
    as (h' & tags' & Hrun & Hname & _ & Htags & Hwf & Hother).
  - repeat split; reflexivity.
  - split; vm_compute; reflexivity.
  - simpl. lia.
  - exists h', tags'. repeat split; try assumption.
    rewrite Hother by discriminate. reflexivity.
Defined.

(** C7. For every image, the output of [edit_spec] has [parameters.image]
    equal to the JSON text of the image with sorted keys and the
    separators [,] and [:], a text with no space but those inside the keys
    and strings of the image; two images that are the same mapping with
    the keys supplied in another order give the same text. *)
Theorem edit_spec_image_canonical
    (host : Host) (h : heap) (l : loc) (p : spec_parts)
    (wf_name step_name image : json) (region acct : string) :
  valid_spec h l p -> configured host region acct ->
  let run image := edit_spec host (VRef l) wf_name step_name image h in
  let ret_ := VRef (length h) in
  outcome (run image) = Ok ret_
  /\ parameters_image (final (run image)) ret_
     = Some (VStr (Json.dumps true "," ":" image))
  /\ (json_spaceless image = true ->
      spaceless (Json.dumps true "," ":" image) = true)
  /\ (forall image',
        same_map image image' = true ->
        outcome (run image') = Ok ret_
        /\ parameters_image (final (run image')) ret_
           = parameters_image (final (run image)) ret_).
Proof.
  intros Hv Hc.
  assert (Hrun : forall img,
             outcome (edit_spec host (VRef l) wf_name step_name img h)
             = Ok (VRef (length h))
             /\ parameters_image
                  (final (edit_spec host (VRef l) wf_name step_name img h))
                  (VRef (length h))
                = Some (VStr (Json.dumps_canonical img))).
  { intros img.
    rewrite (EditSpecFacts.edit_spec_run host h l p wf_name step_name img region acct Hv Hc).
    split; [reflexivity|]. unfold final, outcome, fst, snd.
    pose proof (EditSpecFacts.edited_top host h l p wf_name step_name img region acct Hv) as Htop.
    destruct (EditSpecFacts.edited_params host h l p wf_name step_name img region acct Hv)
      as (params' & Hp' & Himg).
    unfold parameters_image, read, Py.getitem. rewrite Htop.
    rewrite PyDictFacts.get_set_ne by discriminate.
    destruct Hv as (_ & _ & _ & _ & _ & -> & _).
    now rewrite Hp', Himg. }
  cbv zeta. split; [apply Hrun|]. split; [apply Hrun|].
  split; [apply JsonFacts.dumps_canonical_spaceless|].
  intros image' Hsame. split; [apply Hrun|].
  rewrite (proj2 (Hrun image')), (proj2 (Hrun image)).
  unfold Json.dumps_canonical.
  now rewrite (JsonFacts.dumps_sorted_same_map "," ":" image image' Hsame).
Qed.

Lemma edit_spec_image_canonical_witness :
  parameters_image
    (final (edit_spec Demo.host (VRef Demo.spec_ref) (JStr "wf1") (JStr "step1") Demo.image Demo.spec_store))
    (VRef 6)
  = Some (VStr (String.concat Json.quote ["{"; "repo"; ":"; "x"; ","; "tag"; ":"; "v2"; "}"]))
  /\ parameters_image
       (final (edit_spec Demo.host (VRef Demo.spec_ref) (JStr "wf1") (JStr "step1")
                 Demo.image_reordered Demo.spec_store))
       (VRef 6)
     = parameters_image
         (final (edit_spec Demo.host (VRef Demo.spec_ref) (JStr "wf1") (JStr "step1")
                   Demo.image Demo.spec_store))
         (VRef 6).
Proof.
  destruct (edit_spec_image_canonical Demo.host Demo.spec_store Demo.spec_ref Demo.parts
              (JStr "wf1") (JStr "step1") Demo.image "us-east-1" "123456789012")
    as (_ & Himage & _ & Hsame).
  - repeat split; reflexivity.
  - split; vm_compute; reflexivity.
  - split.
    + etransitivity; [exact Himage|]. reflexivity.
    + refine (proj2 (Hsame Demo.image_reordered _)). vm_compute. reflexivity.
Defined.

(** C3. [edit_spec] copies the spec at the top level only.  On a minimal
    spec, as [json.loads] builds it, the call returns a new record, and
    afterwards the value of the caller's own spec is another one: it has
    the four new environment entries, [parameters.image] and the
    [bclaw:workflow] tag. *)
Theorem edit_spec_changes_the_input :
  let run := edit_spec Demo.host (VRef Demo.spec_ref) (JStr "wf1") (JStr "step1")
               Demo.image Demo.spec_store in
  Py.alloc Demo.spec [] = (Demo.spec_store, Ok (VRef Demo.spec_ref))
  /\ Py.snapshot 8 Demo.spec_store (VRef Demo.spec_ref) = Some Demo.spec
  /\ outcome run = Ok (VRef 6)
  /\ Py.snapshot 8 (final run) (VRef Demo.spec_ref) = Some Demo.spec_afterwards
  /\ Demo.spec_afterwards <> Demo.spec.
Proof.
  cbv zeta. repeat split; try (vm_compute; reflexivity).
  discriminate.
Qed.

(** ** The objects of a parsed document *)

Module AllocFacts.
Import StoreFacts.

Lemma Forall2_pointwise {A B} (R R' : A -> B -> Prop) l l' :
  Forall2 R l l' ->
  Forall (fun x => forall y, R x y -> R' x y) l ->
  Forall2 R' l l'.
Proof.
  induction 1; intros HF; constructor; inversion HF; subst; auto.
Qed.

Lemma represents_mono h ext :
  forall j v, represents h j v -> represents (h ++ ext)%list j v.
Proof.
  induction j as [ | b | n | s | items IH | fields IH ] using JsonFacts.json_nested_ind;
    intros v Hr; inversion Hr; subst; try constructor.
  - eapply represents_list; [apply lookup_app_l_Some; eassumption|].
    eapply Forall2_pointwise; eassumption.
  - eapply represents_dict; [apply lookup_app_l_Some; eassumption|].
    eapply Forall2_pointwise; [eassumption|].
    eapply Forall_impl; [exact IH|]. intros [k x] Hx [k' v'] [Hk Hv].
    split; [assumption|]. now apply Hx.
Qed.

Section ForEach.
Context {A B : Type} (f : A -> M heap B) (R : heap -> A -> B -> Prop).
Hypothesis R_mono : forall h ext a b, R h a b -> R (h ++ ext)%list a b.

(** a comprehension whose steps only allocate only allocates *)
Lemma for_each_extends l :
  Forall (fun x => forall h, exists ext y,
              f x h = ((h ++ ext)%list, Ok y) /\ R (h ++ ext)%list x y) l ->
  forall h, exists ext ys,
    for_each f l h = ((h ++ ext)%list, Ok ys)
    /\ Forall2 (R (h ++ ext)%list) l ys.
Proof.
  induction 1 as [|x l Hx _ IH]; intros h; simpl.
  - exists [], []. rewrite app_nil_r. split; [reflexivity|constructor].
  - destruct (Hx h) as (ext1 & y & Hrun & Hy).
    destruct (IH (h ++ ext1)%list) as (ext2 & ys & Hrest & Hys).
    exists (ext1 ++ ext2)%list, (y :: ys).
    rewrite (bind_ok _ _ _ _ _ Hrun), (bind_ok _ _ _ _ _ Hrest).
    rewrite app_assoc. split; [reflexivity|].
    constructor; [now apply R_mono|assumption].
Qed.
End ForEach.

(** [json.loads] only allocates, and what it returns is the document *)
Lemma alloc_represents :
  forall j h, exists ext v,
    Py.alloc j h = ((h ++ ext)%list, Ok v) /\ represents (h ++ ext)%list j v.
Proof.
  induction j as [ | b | n | s | items IH | fields IH ] using JsonFacts.json_nested_ind;
    intros h;
    try (exists [], (VJson JNull); rewrite app_nil_r; split; [reflexivity|constructor]);
    try (exists [], (VJson (JBool b)); rewrite app_nil_r; split; [reflexivity|constructor]);
    try (exists [], (VJson (JInt n)); rewrite app_nil_r; split; [reflexivity|constructor]);
    try (exists [], (VJson (JStr s)); rewrite app_nil_r; split; [reflexivity|constructor]).
  - destruct (for_each_extends Py.alloc (fun h x v => represents h x v)
                (fun h ext a b => represents_mono h ext a b) items IH h)
      as (ext & vs & Hrun & Hvs).
    exists (ext ++ [OList vs])%list, (VRef (length (h ++ ext)%list)).
    rewrite app_assoc. split.
    + simpl. now rewrite (bind_ok _ _ _ _ _ Hrun).
    + eapply represents_list; [apply lookup_new|].
      eapply Forall2_impl; [exact Hvs|]. intros x v. apply represents_mono.
  - destruct (for_each_extends
                (fun kv => bind (Py.alloc (snd kv)) (fun v => ret (fst kv, v)))
                (fun h kj kv => fst kj = fst kv /\ represents h (snd kj) (snd kv))
                (fun h ext a b '(conj Hk Hv) => conj Hk (represents_mono h ext _ _ Hv))
                fields) with (h := h) as (ext & d & Hrun & Hd).
    { eapply Forall_impl; [exact IH|]. intros [k x] Hx h0. simpl in *.
      destruct (Hx h0) as (ext0 & v & Hrun0 & Hv).
      exists ext0, (k, v). rewrite (bind_ok _ _ _ _ _ Hrun0).
      split; [reflexivity|]. now split. }
    exists (ext ++ [ODict d])%list, (VRef (length (h ++ ext)%list)).
    rewrite app_assoc. split.
    + simpl. now rewrite (bind_ok _ _ _ _ _ Hrun).
    + eapply represents_dict; [apply lookup_new|].
      eapply Forall2_impl; [exact Hd|]. intros kj kv [Hk Hv].
      split; [assumption|]. now apply represents_mono.
Qed.

Lemma represents_field h fields d k x :
  Forall2 (fun kj kv => fst kj = fst kv /\ represents h (snd kj) (snd kv)) fields d ->
  PyDict.get k fields = Some x ->
  exists v, PyDict.get k d = Some v /\ represents h x v.
Proof.
  induction 1 as [|[k1 x1] [k2 v2] fields d [Hk Hv] _ IH]; simpl; [discriminate|].
  simpl in Hk. subst k2.
  destruct (String.eqb k k1); [|exact IH].
  intros [= <-]. now exists v2.
Qed.

Lemma alloc_items_run (items : list json) (h : heap) :
  exists ext vs,
    for_each Py.alloc items h = ((h ++ ext)%list, Ok vs)
    /\ Forall2 (represents (h ++ ext)%list) items vs.
Proof.
  apply (for_each_extends Py.alloc (fun h x v => represents h x v)
           (fun h ext a b => represents_mono h ext a b)).
  apply Forall_forall. intros x _. apply alloc_represents.
Qed.

Lemma alloc_fields_run (fields : list (string * json)) (h : heap) :
  exists ext d,
    for_each (fun kv => bind (Py.alloc (snd kv)) (fun v => ret (fst kv, v))) fields h
    = ((h ++ ext)%list, Ok d)
    /\ Forall2 (fun kj kv => fst kj = fst kv /\ represents (h ++ ext)%list (snd kj) (snd kv))
         fields d.
Proof.
  apply (for_each_extends
           (fun kv => bind (Py.alloc (snd kv)) (fun v => ret (fst kv, v)))
           (fun h kj kv => fst kj = fst kv /\ represents h (snd kj) (snd kv))
           (fun h ext a b '(conj Hk Hv) => conj Hk (represents_mono h ext _ _ Hv))).
  apply Forall_forall. intros [k x] _ h0. simpl.
  destruct (alloc_represents x h0) as (ext0 & v & Hrun0 & Hv).
  exists ext0, (k, v). rewrite (bind_ok _ _ _ _ _ Hrun0).
  split; [reflexivity|]. now split.
Qed.

(** a container of the document is a new object *)
Lemma alloc_ref_fresh j h h' l :
  Py.alloc j h = (h', Ok (VRef l)) -> length h <= l < length h'.
Proof.
  destruct j as [ | b | n | s | items | fields ]; simpl; try discriminate.
  - intros H. apply bind_inv in H as (h1 & vs & Hitems & Hnew).
    destruct (alloc_items_run items h) as (ext & vs' & Hrun & _).
    rewrite Hrun in Hitems. injection Hitems as <- _.
    unfold Py.new in Hnew. injection Hnew as <- <-.
    rewrite !length_app. simpl. lia.
  - intros H. apply bind_inv in H as (h1 & d & Hfields & Hnew).
    destruct (alloc_fields_run fields h) as (ext & d' & Hrun & _).
    rewrite Hrun in Hfields. injection Hfields as <- _.
    unfold Py.new in Hnew. injection Hnew as <- <-.
    rewrite !length_app. simpl. lia.
Qed.

Lemma alloc_grows j h h' v :
  Py.alloc j h = (h', Ok v) -> length h <= length h'.
Proof.
  intros H. destruct (alloc_represents j h) as (ext & v' & Hrun & _).
  rewrite Hrun in H. injection H as <- _. rewrite length_app. lia.
Qed.

(** the values of a parsed dict refer to pairwise distinct new objects *)
Lemma alloc_fields_distinct (fields : list (string * json)) :
  forall h h' d,
    for_each (fun kv => bind (Py.alloc (snd kv)) (fun v => ret (fst kv, v))) fields h
    = (h', Ok d) ->
    List.NoDup (locations d)
    /\ Forall (fun l => length h <= l < length h') (locations d)
    /\ length h <= length h'.
Proof.
  induction fields as [|[k x] fields IH]; intros h h' d; simpl.
  - unfold ret. intros [= <- <-]. simpl. repeat split; [constructor|constructor|lia].
  - intros H. apply bind_inv in H as (h1 & kv & Hhead & H).
    apply bind_inv in Hhead as (h1' & v & Hx & Hret).
    unfold ret in Hret. injection Hret as <- <-.
    apply bind_inv in H as (h2 & d' & Hrest & Hret).
    unfold ret in Hret. injection Hret as <- <-.
    destruct (IH _ _ _ Hrest) as (Hnd & Hall & Hlen).
    pose proof (alloc_grows _ _ _ _ Hx) as Hgrow.
    destruct v as [j|l]; simpl.
    + repeat split; [assumption| |lia].
      eapply Forall_impl; [exact Hall|]. simpl. intros; lia.
    + pose proof (alloc_ref_fresh _ _ _ _ Hx) as Hl.
      repeat split; [| |lia].
      * constructor; [|assumption]. intros Hin.
        rewrite List.Forall_forall in Hall. specialize (Hall _ Hin). lia.
      * constructor; [lia|].
        eapply Forall_impl; [exact Hall|]. simpl. intros; lia.
Qed.

Lemma locations_get d k l :
  PyDict.get k d = Some (VRef l) -> In l (locations d).
Proof.
  induction d as [|[k' v] d IH]; simpl; [discriminate|].
  destruct (String.eqb k k').
  - intros [= ->]. now left.
  - intros H. destruct v; [|right]; auto.
Qed.

Lemma distinct_keys_distinct_locations d k1 k2 l1 l2 :
  List.NoDup (locations d) ->
  PyDict.get k1 d = Some (VRef l1) -> PyDict.get k2 d = Some (VRef l2) ->
  k1 <> k2 -> l1 <> l2.
Proof.
  induction d as [|[k' v] d IH]; simpl; [discriminate|].
  intros Hnd H1 H2 Hne.
  destruct (String.eqb k1 k') eqn:E1, (String.eqb k2 k') eqn:E2.
  - apply String.eqb_eq in E1, E2. congruence.
  - injection H1 as ->. inversion Hnd as [|? ? Hnotin _]; subst.
    intros ->. apply Hnotin. eapply locations_get. exact H2.
  - injection H2 as ->. inversion Hnd as [|? ? Hnotin _]; subst.
    intros <-. apply Hnotin. eapply locations_get. exact H1.
  - apply IH; try assumption. destruct v; [assumption|]. now inversion Hnd.
Qed.

(** the objects of a spec document are a valid spec, its parameters and
    its tags two objects *)
Lemma alloc_valid_spec doc h :
  spec_document doc ->
  exists h' l p,
    Py.alloc doc h = (h', Ok (VRef l))
    /\ valid_spec h' l p
    /\ params_loc p <> tags_loc p.
Proof.
  intros (fields & cpf & envl & pf & tf & -> & Hcp & Henv & Hpar & Htag).
  destruct (alloc_represents (JDict fields) h) as (ext & v & Hrun & Hrep).
  inversion Hrep as [ | | | | |? l d Hl Hd]; subst.
  destruct (represents_field _ _ _ _ _ Hd Hcp) as (vc & Hgc & Hrc).
  inversion Hrc as [ | | | | |? lc dc Hlc Hdc]; subst.
  destruct (represents_field _ _ _ _ _ Hdc Henv) as (ve & Hge & Hre).
  inversion Hre as [ | | | |? le es Hle Hes| ]; subst.
  destruct (represents_field _ _ _ _ _ Hd Hpar) as (vp & Hgp & Hrp).
  inversion Hrp as [ | | | | |? lp dp Hlp Hdp]; subst.
  destruct (represents_field _ _ _ _ _ Hd Htag) as (vt & Hgt & Hrt).
  inversion Hrt as [ | | | | |? lt dt Hlt Hdt]; subst.
  exists (h ++ ext)%list, l,
    {| top := d; cp_loc := lc; cp := dc; env_loc := le; env := es;
       params_loc := lp; params := dp; tags_loc := lt; tags := dt |}.
  split; [assumption|]. split; [repeat split; assumption|]. simpl.
  pose proof Hrun as Hrun'. simpl in Hrun'.
  apply bind_inv in Hrun' as (h1 & d1 & Hfields & Hnew).
  unfold Py.new in Hnew. injection Hnew as Hh1 Hl1.
  destruct (alloc_fields_distinct _ _ _ _ Hfields) as (Hnd & _ & _).
  assert (d1 = d) as ->.
  { rewrite <- Hh1 in Hl. rewrite <- Hl1 in Hl. rewrite lookup_new in Hl.
    congruence. }
  eapply distinct_keys_distinct_locations; try eassumption. discriminate.
Qed.

End AllocFacts.

(** ** The responder *)

Module ResponderFacts.

Lemma respond_addressed host event hst target body w :
  addressed host event hst target ->
  exists url,
    Py.subscript event "ResponseURL" = Ok url
    /\ respond host url body w
       = (after w (HttpsPut hst target (Json.dumps_default body)),
          https_request host hst target (Json.dumps_default body)).
Proof.
  intros (url & u & Hurl & Hparse & Hhost & -> & Hconn).
  exists (JStr url). split; [assumption|].
  unfold respond, bind, of_res, HTTPSConnection, bind, of_res, emit, ret.
  rewrite Hparse, Hhost, Hconn. reflexivity.
Qed.

(** [responder] in one piece: the body runs on the new envelope, the exit
    is logged and recorded in the envelope, the envelope is logged, and
    the callback is attempted. *)
Lemma responder_run host event context no_echo body w r0 :
  new_response event no_echo = Ok r0 ->
  responder host event context no_echo body w
  = let ended := outcome (body (r0, w)) in
    let r := exit_envelope context (fst (final (body (r0, w)))) ended in
    let w' := after (after (snd (final (body (r0, w)))) (exit_log ended))
                (Log INFO "asdict(response)=" [VJson (asdict r)]) in
    match Py.subscript event "ResponseURL" with
    | Ok url => respond host url (asdict r) w'
    | Raise e => (w', Raise e)
    end.
Proof.
  intros Hnew. unfold responder, bind at 1, of_res at 1. rewrite Hnew.
  unfold with_response, try_finally, try_except, final, outcome.
  cbv zeta.
  unfold bind, in_world, logger_info, logger_exception, emit,
    update_response, get_response, of_res.
  destruct (body (r0, w)) as [[r1 w1] [[]|e]]; simpl;
    destruct (Py.subscript event "ResponseURL") as [url|e']; simpl;
    try reflexivity;
    match goal with
    | |- context [respond ?h ?u ?b ?w] => destruct (respond h u b w) as [w2 [[]|e2]]
    end; reflexivity.
Qed.

Lemma responder_not_entered host event context no_echo body w e :
  new_response event no_echo = Raise e ->
  responder host event context no_echo body w = (w, Raise e).
Proof.
  intros Hnew. unfold responder, bind, of_res. now rewrite Hnew.
Qed.

End ResponderFacts.

(** ** Computations that issue no callback *)

Module QuietFacts.

Lemma callbacks_app t1 t2 : callbacks (t1 ++ t2)%list = (callbacks t1 ++ callbacks t2)%list.
Proof. unfold callbacks. apply List.filter_app. Qed.

Lemma callbacks_after w e :
  callbacks (trace (after w e))
  = (callbacks (trace w) ++ (if is_put e then [e] else []))%list.
Proof.
  unfold after. simpl. rewrite callbacks_app. unfold callbacks. simpl.
  now destruct (is_put e).
Qed.

Section Generic.
Context {S : Type} (tr : S -> list effect).

Lemma quiet_ret {A} (a : A) : quiet tr (ret a).
Proof. intros s. reflexivity. Qed.

Lemma quiet_raise {A} e : quiet tr (@raise S A e).
Proof. intros s. reflexivity. Qed.

Lemma quiet_of_res {A} (r : res A) : quiet tr (of_res r).
Proof. intros s. reflexivity. Qed.

Lemma quiet_bind {A B} (c : M S A) (k : A -> M S B) :
  quiet tr c -> (forall a, quiet tr (k a)) -> quiet tr (bind c k).
Proof.
  intros Hc Hk s. unfold bind. specialize (Hc s).
  destruct (c s) as [s' [a|e]]; simpl in *.
  - now rewrite Hk.
  - assumption.
Qed.

Lemma quiet_try_except {A} (c : M S A) (handler : exn -> M S A) :
  quiet tr c -> (forall e, quiet tr (handler e)) -> quiet tr (try_except c handler).
Proof.
  intros Hc Hh s. unfold try_except. specialize (Hc s).
  destruct (c s) as [s' [a|e]]; simpl in *.
  - assumption.
  - now rewrite Hh.
Qed.
End Generic.

Lemma quiet_emit e : is_put e = false -> quiet trace (emit e).
Proof.
  intros He w. change (fst (emit e w)) with (after w e).
  rewrite callbacks_after, He. apply app_nil_r.
Qed.

Lemma quiet_in_heap {A} (c : M heap A) : quiet trace (in_heap c).
Proof. intros w. unfold in_heap. now destruct (c (store w)). Qed.

Lemma quiet_in_world {A} (c : M world A) :
  quiet trace c -> quiet scope_trace (in_world c).
Proof.
  intros Hc [r w]. unfold in_world, scope_trace. simpl. specialize (Hc w).
  now destruct (c w).
Qed.

Lemma quiet_update_response f : quiet scope_trace (update_response f).
Proof. intros [r w]. reflexivity. Qed.

Lemma quiet_loads host text : quiet trace (loads host text).
Proof.
  unfold loads. destruct text; try apply quiet_raise.
  apply quiet_bind; [apply quiet_of_res|]. intros doc. apply quiet_in_heap.
Qed.

Lemma quiet_call_register batch spec : quiet trace (call_register batch spec).
Proof.
  unfold call_register. apply quiet_bind; [now apply quiet_emit|].
  intros _ w. reflexivity.
Qed.

Lemma quiet_call_deregister batch id : quiet trace (call_deregister batch id).
Proof.
  unfold call_deregister. apply quiet_bind; [now apply quiet_emit|].
  intros _. apply quiet_of_res.
Qed.

Create HintDb quiet.
#[local] Hint Resolve quiet_ret quiet_raise quiet_of_res quiet_in_heap
  quiet_in_world quiet_update_response quiet_loads quiet_call_register
  quiet_call_deregister : quiet.

Ltac quiet_steps :=
  repeat first
    [ solve [auto with quiet]
    | apply quiet_emit; reflexivity
    | apply quiet_in_world
    | apply quiet_try_except; [|intros ?]
    | apply quiet_bind; [|intros ?] ].

Lemma quiet_create_or_update host batch event :
  quiet scope_trace (create_or_update host batch event).
Proof. unfold create_or_update, logger_info. quiet_steps. Qed.

Lemma quiet_delete batch event : quiet scope_trace (delete batch event).
Proof.
  unfold delete, logger_warning. quiet_steps.
  match goal with |- context [match ?j with _ => _ end] => destruct j end;
    quiet_steps.
Qed.

(** the block of the [with] statement issues no callback itself *)
Lemma quiet_handler_body host batch event :
  quiet scope_trace (handler_body host batch event).
Proof.
  unfold handler_body. apply quiet_bind; [apply quiet_of_res|]. intros rt.
  destruct (is_create_or_update rt).
  - apply quiet_create_or_update.
  - apply quiet_delete.
Qed.

End QuietFacts.

(** ** The responder: the properties *)

Module ScopeFacts.
Import ResponderFacts QuietFacts.

Lemma new_response_fields event no_echo r0 :
  new_response event no_echo = Ok r0 ->
  Status r0 = "FAILED" /\ Reason r0 = "" /\ Data r0 = [] /\ NoEcho r0 = no_echo
  /\ Py.get event "PhysicalResourceId" = Ok (PhysicalResourceId r0).
Proof.
  unfold new_response.
  destruct (Py.get event "PhysicalResourceId"); [|discriminate].
  destruct (Py.subscript event "StackId"); [|discriminate].
  destruct (Py.subscript event "RequestId"); [|discriminate].
  destruct (Py.subscript event "LogicalResourceId"); [|discriminate].
  intros [= <-]. repeat split; reflexivity.
Qed.

(** [respond] only adds to the trace *)
Lemma respond_extends host url body w :
  exists rest, trace (final (respond host url body w)) = (trace w ++ rest)%list.
Proof.
  unfold respond, bind, of_res, raise, HTTPSConnection, emit, ret, final.
  destruct url; try (exists []; simpl; now rewrite app_nil_r).
  destruct (urlparse host s) as [u|e]; [|exists []; simpl; now rewrite app_nil_r].
  destruct (hostname u) as [hst|]; [|exists []; simpl; now rewrite app_nil_r].
  unfold bind, of_res.
  destruct (https_connection host hst) as [[]|e];
    [|exists []; simpl; now rewrite app_nil_r].
  simpl. eexists. reflexivity.
Qed.

(** the run of [responder] on an addressed event *)
Lemma responder_delivers host event context no_echo body w r0 hst target :
  new_response event no_echo = Ok r0 ->
  addressed host event hst target ->
  let ended := outcome (body (r0, w)) in
  let r := exit_envelope context (fst (final (body (r0, w)))) ended in
  let w1 := snd (final (body (r0, w))) in
  responder host event context no_echo body w
  = ({| store := store w1;
        trace := (trace w1 ++ exit_log ended :: delivery hst target r)%list |},
     https_request host hst target (Json.dumps_default (asdict r))).
Proof.
  intros Hnew Haddr. cbv zeta.
  rewrite (responder_run _ _ _ _ _ _ _ Hnew). cbv zeta.
  destruct (respond_addressed host event hst target
              (asdict (exit_envelope context (fst (final (body (r0, w))))
                         (outcome (body (r0, w)))))
              (after (after (snd (final (body (r0, w))))
                        (exit_log (outcome (body (r0, w)))))
                 (Log INFO "asdict(response)="
                    [VJson (asdict (exit_envelope context (fst (final (body (r0, w))))
                                      (outcome (body (r0, w)))))]))
              Haddr) as (url & Hurl & Hrespond).
  rewrite Hurl. cbv beta iota. rewrite Hrespond.
  unfold after, delivery. simpl. rewrite <- !app_assoc. reflexivity.
Qed.

End ScopeFacts.

(** C5. When the body of the responder's scope returns, the envelope is
    given Status SUCCESS at the exit, whatever the body wrote to Status;
    the envelope was constructed with Status FAILED before the body ran. *)
Theorem normal_exit_forces_success
    (host : Host) (event : json) (context : Context) (no_echo : bool)
    (body : M scope unit) (w : world) (r0 r1 : Response) (w1 : world) :
  new_response event no_echo = Ok r0 ->
  body (r0, w) = ((r1, w1), Ok tt) ->
  let r := set_Status "SUCCESS" r1 in
  let run := responder host event context no_echo body w in
  Status r0 = "FAILED"
  /\ Status r = "SUCCESS"
  /\ (exists rest,
        trace (final run)
        = (trace w1 ++ [Log INFO "succeeded" [];
                        Log INFO "asdict(response)=" [VJson (asdict r)]] ++ rest)%list)
  /\ (forall hst target,
        addressed host event hst target ->
        trace (final run)
        = (trace w1 ++ [Log INFO "succeeded" [];
                        Log INFO "asdict(response)=" [VJson (asdict r)];
                        HttpsPut hst target (Json.dumps_default (asdict r))])%list).
Proof.
  intros Hnew Hbody. cbv zeta.
  split; [apply (ScopeFacts.new_response_fields _ _ _ Hnew)|].
  split; [reflexivity|]. split.
  - rewrite (ResponderFacts.responder_run _ _ _ _ _ _ _ Hnew). cbv zeta.
    rewrite Hbody. unfold final at 2 3 4, outcome, fst, snd. simpl exit_envelope.
    simpl exit_log.
    destruct (Py.subscript event "ResponseURL") as [url|e].
    + destruct (ScopeFacts.respond_extends host url (asdict (set_Status "SUCCESS" r1))
                  (after (after w1 (Log INFO "succeeded" []))
                     (Log INFO "asdict(response)=" [VJson (asdict (set_Status "SUCCESS" r1))])))
        as (rest & ->).
      exists rest. unfold after. simpl. now rewrite <- !app_assoc.
    + exists []. unfold final, after. simpl. now rewrite <- !app_assoc.
  - intros hst target Haddr.
    rewrite (ScopeFacts.responder_delivers _ _ _ _ _ _ _ _ _ Hnew Haddr).
    rewrite Hbody. reflexivity.
Qed.

Lemma normal_exit_forces_success_witness :
  exists r,
    Status r = "SUCCESS"
    /\ trace (final (responder Demo.host Demo.delete_unknown Demo.context false
                       Demo.body_returns Demo.start))
       = [Log INFO "succeeded" [];
          Log INFO "asdict(response)=" [VJson (asdict r)];
          HttpsPut "cfn.example.com" "/callback?sig=abc" (Json.dumps_default (asdict r))].
Proof.
  destruct (normal_exit_forces_success Demo.host Demo.delete_unknown Demo.context false
              Demo.body_returns Demo.start
              (Response_init JNull (JStr "stack-1") (JStr "request-1") (JStr "JobDef") false)
              (set_Status "PENDING"
                 (Response_init JNull (JStr "stack-1") (JStr "request-1") (JStr "JobDef") false))
              Demo.start eq_refl eq_refl)
    as (_ & Hstatus & _ & Hput).
  eexists. split; [exact Hstatus|].
  apply (Hput "cfn.example.com" "/callback?sig=abc").
  exists Demo.url. eexists. repeat split; reflexivity.
Defined.

(** C4. When the body of the responder's scope raises, the exception is
    caught and not raised again; Status stays what the body left (FAILED
    unless the body wrote it), Reason becomes the text that points to the
    log group and the log stream of the invocation, whatever the exception
    was, and that envelope is what is delivered. *)
Theorem failure_is_caught_and_reported
    (host : Host) (event : json) (context : Context) (no_echo : bool)
    (body : M scope unit) (w : world) (r0 r1 : Response) (w1 : world) (e : exn)
    (hst target : string) :
  new_response event no_echo = Ok r0 ->
  addressed host event hst target ->
  body (r0, w) = ((r1, w1), Raise e) ->
  let r := set_Reason (diagnostic context) r1 in
  let run := responder host event context no_echo body w in
  Status r0 = "FAILED"
  /\ Status r = Status r1
  /\ Reason r = "see log group " ++ log_group_name context
                ++ " / log stream " ++ log_stream_name context
  /\ trace (final run)
     = (trace w1 ++ [Log ERROR "failed: " [];
                     Log INFO "asdict(response)=" [VJson (asdict r)];
                     HttpsPut hst target (Json.dumps_default (asdict r))])%list
  /\ outcome run = https_request host hst target (Json.dumps_default (asdict r)).
Proof.
  intros Hnew Haddr Hbody. cbv zeta.
  split; [apply (ScopeFacts.new_response_fields _ _ _ Hnew)|].
  split; [reflexivity|]. split; [reflexivity|].
  rewrite (ScopeFacts.responder_delivers _ _ _ _ _ _ _ _ _ Hnew Haddr).
  rewrite Hbody. split; reflexivity.
Qed.

Lemma failure_is_caught_and_reported_witness :
  let run := responder Demo.host Demo.delete_unknown Demo.context false
               Demo.body_raises Demo.start in
  outcome run = Ok tt
  /\ exists r,
       Status r = "PENDING"
       /\ Reason r = "see log group /aws/lambda/register / log stream 2024/01/01/[1]abc"
       /\ trace (final run)
          = [Log ERROR "failed: " [];
             Log INFO "asdict(response)=" [VJson (asdict r)];
             HttpsPut "cfn.example.com" "/callback?sig=abc" (Json.dumps_default (asdict r))].
Proof.
  destruct (failure_is_caught_and_reported Demo.host Demo.delete_unknown Demo.context false
              Demo.body_raises Demo.start
              (Response_init JNull (JStr "stack-1") (JStr "request-1") (JStr "JobDef") false)
              (set_Status "PENDING"
                 (Response_init JNull (JStr "stack-1") (JStr "request-1") (JStr "JobDef") false))
              Demo.start (KeyError "spec") "cfn.example.com" "/callback?sig=abc" eq_refl)
    as (_ & Hstatus & Hreason & Htrace & Hout).
  - exists Demo.url. eexists. repeat split; reflexivity.
  - reflexivity.
  - cbv zeta. split; [exact Hout|]. eexists. split; [exact Hstatus|].
    split; [exact Hreason|]. exact Htrace.
Defined.

(** C1. Every run of the responder's scope issues exactly one callback
    PUT, to the event's ResponseURL and carrying the serialized envelope,
    whether the enclosed logic returns or raises; in particular a run of
    [lambda_handler] issues exactly one.  (The event has the keys of a
    custom-resource event, and its ResponseURL parses with a host name
    from which [http.client] can construct a connection; C10 is about
    events that lack the keys.) *)
Theorem exactly_one_callback
    (host : Host) (event : json) (context : Context) (batch : Batch)
    (r0 : Response) (hst target : string) :
  boto3_client_batch host = Ok batch ->
  new_response event false = Ok r0 ->
  addressed host event hst target ->
  (forall (body : M scope unit) (w : world),
      let r := exit_envelope context (fst (final (body (r0, w))))
                 (outcome (body (r0, w))) in
      callbacks (trace (final (responder host event context false body w)))
      = (callbacks (scope_trace (final (body (r0, w))))
           ++ [HttpsPut hst target (Json.dumps_default (asdict r))])%list)
  /\ (forall w : world,
        let run := lambda_handler host event context w in
        puts (trace (final run)) = puts (trace w) + 1
        /\ exists r,
             callbacks (trace (final run))
             = (callbacks (trace w)
                  ++ [HttpsPut hst target (Json.dumps_default (asdict r))])%list).
Proof.
  intros Hclient Hnew Haddr.
  assert (Hscope : forall (body : M scope unit) (w : world),
             callbacks (trace (final (responder host event context false body w)))
             = (callbacks (scope_trace (final (body (r0, w))))
                  ++ [HttpsPut hst target
                        (Json.dumps_default
                           (asdict (exit_envelope context (fst (final (body (r0, w))))
                                      (outcome (body (r0, w))))))])%list).
  { intros body w.
    rewrite (ScopeFacts.responder_delivers _ _ _ _ _ _ _ _ _ Hnew Haddr).
    unfold final at 1, fst at 1, trace at 1.
    rewrite QuietFacts.callbacks_app. unfold scope_trace. f_equal.
    destruct (outcome (body (r0, w))); reflexivity. }
  split; [exact Hscope|].
  intros w. cbv zeta.
  assert (Hrun : lambda_handler host event context w
                 = responder host event context false (handler_body host batch event)
                     (after w (Log INFO "event=" [VJson event]))).
  { unfold lambda_handler, with_block, logger_info, bind, emit, of_res.
    now rewrite Hclient. }
  rewrite Hrun.
  assert (Hcalls :
            callbacks (trace (final (responder host event context false
                                       (handler_body host batch event)
                                       (after w (Log INFO "event=" [VJson event])))))
            = (callbacks (trace w)
                 ++ [HttpsPut hst target
                       (Json.dumps_default
                          (asdict (exit_envelope context
                                     (fst (final (handler_body host batch event
                                                    (r0, after w (Log INFO "event=" [VJson event])))))
                                     (outcome (handler_body host batch event
                                                 (r0, after w (Log INFO "event=" [VJson event])))))))])%list).
  { rewrite Hscope. f_equal.
    pose proof (QuietFacts.quiet_handler_body host batch event
                  (r0, after w (Log INFO "event=" [VJson event]))) as Hq.
    unfold final. rewrite Hq. unfold scope_trace, snd.
    rewrite QuietFacts.callbacks_after. apply app_nil_r. }
  split.
  - unfold puts. rewrite Hcalls, length_app. reflexivity.
  - eexists. exact Hcalls.
Qed.

Lemma exactly_one_callback_witness :
  puts (trace (final (lambda_handler Demo.host Demo.create Demo.context Demo.start))) = 1
  /\ puts (trace (final (lambda_handler Demo.host Demo.create_without_spec
                           Demo.context Demo.start))) = 1.
Proof.
  split.
  - refine (proj1 (proj2 (exactly_one_callback Demo.host Demo.create Demo.context Demo.batch
                            (Response_init JNull (JStr "stack-1") (JStr "request-1")
                               (JStr "JobDef") false)
                            "cfn.example.com" "/callback?sig=abc" eq_refl eq_refl _)
                     Demo.start)).
    exists Demo.url. eexists. repeat split; reflexivity.
  - refine (proj1 (proj2 (exactly_one_callback Demo.host Demo.create_without_spec
                            Demo.context Demo.batch
                            (Response_init JNull (JStr "stack-1") (JStr "request-1")
                               (JStr "JobDef") false)
                            "cfn.example.com" "/callback?sig=abc" eq_refl eq_refl _)
                     Demo.start)).
    exists Demo.url. eexists. repeat split; reflexivity.
Defined.

(** C10. The callback needs the keys of the event.  Without StackId,
    RequestId or LogicalResourceId the envelope cannot be constructed: the
    responder raises KeyError before its scope is entered, the body does
    not run and nothing is sent.  Without ResponseURL the body runs, the
    lookup in the finalization raises KeyError, nothing is sent, and the
    KeyError leaves the invocation. *)
Theorem callback_needs_event_keys
    (host : Host) (fields : list (string * json)) (context : Context) :
  let event := JDict fields in
  (PyDict.get "StackId" fields = None
   \/ PyDict.get "RequestId" fields = None
   \/ PyDict.get "LogicalResourceId" fields = None ->
   forall no_echo (body : M scope unit) (w : world),
   exists key,
     In key ["StackId"; "RequestId"; "LogicalResourceId"]
     /\ responder host event context no_echo body w = (w, Raise (KeyError key)))
  /\ (PyDict.get "ResponseURL" fields = None ->
      forall no_echo r0, new_response event no_echo = Ok r0 ->
      (forall (body : M scope unit) (w : world),
          let run := responder host event context no_echo body w in
          outcome run = Raise (KeyError "ResponseURL")
          /\ callbacks (trace (final run)) = callbacks (scope_trace (final (body (r0, w)))))
      /\ (forall batch (w : world),
             boto3_client_batch host = Ok batch -> no_echo = false ->
             let run := lambda_handler host event context w in
             outcome run = Raise (KeyError "ResponseURL")
             /\ puts (trace (final run)) = puts (trace w))).
Proof.
  cbv zeta. split.
  - intros Hmissing no_echo body w.
    assert (exists key, In key ["StackId"; "RequestId"; "LogicalResourceId"]
                        /\ new_response (JDict fields) no_echo = Raise (KeyError key))
      as (key & Hin & Hnew).
    { unfold new_response, Py.get, Py.subscript.
      destruct (PyDict.get "PhysicalResourceId" fields);
        (destruct (PyDict.get "StackId" fields);
         [|exists "StackId"; simpl; auto]);
        (destruct (PyDict.get "RequestId" fields);
         [|exists "RequestId"; simpl; auto]);
        (destruct (PyDict.get "LogicalResourceId" fields);
         [|exists "LogicalResourceId"; simpl; auto]);
        exfalso; destruct Hmissing as [H|[H|H]]; discriminate. }
    exists key. split; [assumption|].
    now apply ResponderFacts.responder_not_entered.
  - intros Hmissing no_echo r0 Hnew.
    assert (Hscope : forall (body : M scope unit) (w : world),
               outcome (responder host (JDict fields) context no_echo body w)
               = Raise (KeyError "ResponseURL")
               /\ callbacks (trace (final (responder host (JDict fields) context no_echo body w)))
                  = callbacks (scope_trace (final (body (r0, w))))).
    { intros body w.
      rewrite (ResponderFacts.responder_run _ _ _ _ _ _ _ Hnew). cbv zeta.
      unfold Py.subscript. rewrite Hmissing. split; [reflexivity|].
      unfold final at 1, fst at 1.
      rewrite !QuietFacts.callbacks_after. simpl is_put at 1.
      rewrite app_nil_r. unfold scope_trace.
      destruct (outcome (body (r0, w))); simpl; apply app_nil_r. }
    split; [exact Hscope|].
    intros batch w Hclient ->.
    assert (Hrun : lambda_handler host (JDict fields) context w
                   = responder host (JDict fields) context false
                       (handler_body host batch (JDict fields))
                       (after w (Log INFO "event=" [VJson (JDict fields)]))).
    { unfold lambda_handler, with_block, logger_info, bind, emit, of_res.
      now rewrite Hclient. }
    rewrite Hrun. split; [apply Hscope|].
    unfold puts. rewrite (proj2 (Hscope _ _)).
    pose proof (QuietFacts.quiet_handler_body host batch (JDict fields)
                  (r0, after w (Log INFO "event=" [VJson (JDict fields)]))) as Hq.
    unfold final. rewrite Hq. unfold scope_trace, snd.
    rewrite QuietFacts.callbacks_after. simpl. now rewrite app_nil_r.
Qed.

Lemma callback_needs_event_keys_witness :
  (exists key,
      responder Demo.host (JDict Demo.unidentified) Demo.context false
        Demo.body_returns Demo.start
      = (Demo.start, Raise (KeyError key)))
  /\ outcome (lambda_handler Demo.host (JDict Demo.unaddressed) Demo.context Demo.start)
     = Raise (KeyError "ResponseURL")
  /\ puts (trace (final (lambda_handler Demo.host (JDict Demo.unaddressed)
                           Demo.context Demo.start))) = 0.
Proof.
  destruct (callback_needs_event_keys Demo.host Demo.unidentified Demo.context)
    as (Hidentity & _).
  destruct (callback_needs_event_keys Demo.host Demo.unaddressed Demo.context)
    as (_ & Haddress).
  split.
  - destruct (Hidentity (or_intror (or_introl eq_refl)) false
                Demo.body_returns Demo.start) as (key & _ & Hrun).
    exists key. exact Hrun.
  - destruct (Haddress eq_refl false
                (Response_init JNull (JStr "stack-1") (JStr "request-1") (JStr "JobDef") false)
                eq_refl) as (_ & Hhandler).
    exact (Hhandler Demo.batch Demo.start eq_refl eq_refl).
Defined.

(** ** The dispatch on the request type *)

Module DispatchFacts.
Import StoreFacts.

Lemma handler_body_dispatch host batch event request_type s :
  Py.subscript event "RequestType" = Ok request_type ->
  handler_body host batch event s
  = if is_create_or_update request_type
    then create_or_update host batch event s
    else delete batch event s.
Proof.
  intros H. unfold handler_body, bind, of_res. rewrite H.
  now destruct (is_create_or_update request_type).
Qed.

(** a Delete request never fails and leaves the envelope alone *)
Lemma delete_run batch event physical r w :
  Py.get event "PhysicalResourceId" = Ok physical ->
  delete batch event (r, w)
  = ((r, {| store := store w;
            trace := (trace w ++ deregistration batch physical)%list |}),
     Ok tt).
Proof.
  intros H.
  unfold delete, try_except, bind, of_res, in_world, logger_warning,
    call_deregister, bind, of_res, emit, after, ret, deregistration.
  rewrite H. simpl.
  destruct physical; simpl;
    try (destruct (deregister_job_definition batch _); simpl;
         rewrite <- ?app_assoc; reflexivity).
  reflexivity.
Qed.

Lemma of_res_inv {S A} (r : res A) (s s1 : S) a :
  of_res r s = (s1, Ok a) -> r = Ok a /\ s1 = s.
Proof. unfold of_res. intros [= -> ->]. now split. Qed.

Lemma update_response_inv f (s s1 : scope) u :
  update_response f s = (s1, Ok u) -> s1 = (f (fst s), snd s).
Proof. unfold update_response. now intros [= <-]. Qed.

Lemma in_world_inv {A} (c : M world A) (s s1 : scope) a :
  in_world c s = (s1, Ok a) ->
  fst s1 = fst s /\ c (snd s) = (snd s1, Ok a).
Proof.
  unfold in_world. destruct (c (snd s)) as [w r] eqn:E.
  intros [= <- ->]. now split.
Qed.

(** what a Create or Update request has done when it returns *)
Lemma create_or_update_ok host batch event r0 w r1 w1 :
  create_or_update host batch event (r0, w) = ((r1, w1), Ok tt) ->
  exists earlier spec result arn,
    trace w1 = (earlier ++ [Log INFO "spec=" [spec]; RegisterJobDefinition spec])%list
    /\ register_job_definition batch (store w1) spec = Ok result
    /\ Py.subscript result "jobDefinitionArn" = Ok arn
    /\ r1 = return_this [("Arn", arn)] (set_PhysicalResourceId arn r0).
Proof.
  unfold create_or_update. intros H.
  repeat match type of H with
         | bind (of_res _) _ _ = _ =>
             let s := fresh "s" in let a := fresh "a" in
             let H1 := fresh "H" in
             apply bind_inv in H as (s & a & H1 & H);
             apply of_res_inv in H1 as [H1 ->]
         end.
  apply bind_inv in H as (s1 & spec0 & Hloads & H).
  apply in_world_inv in Hloads as [Hr1 Hloads]. destruct s1 as [r' w']. simpl in *. subst r'.
  repeat match type of H with
         | bind (of_res _) _ _ = _ =>
             let s := fresh "s" in let a := fresh "a" in
             let H1 := fresh "H" in
             apply bind_inv in H as (s & a & H1 & H);
             apply of_res_inv in H1 as [H1 ->]
         end.
  apply bind_inv in H as (s2 & spec & Hedit & H).
  apply in_world_inv in Hedit as [Hr2 Hedit]. destruct s2 as [r' w2]. simpl in *. subst r'.
  apply bind_inv in H as (s3 & [] & Hlog & H).
  apply in_world_inv in Hlog as [Hr3 Hlog]. destruct s3 as [r' w3]. simpl in *. subst r'.
  apply bind_inv in H as (s4 & result & Hreg & H).
  apply in_world_inv in Hreg as [Hr4 Hreg]. destruct s4 as [r' w4]. simpl in *. subst r'.
  apply bind_inv in H as (s5 & arn & Harn & H).
  apply of_res_inv in Harn as [Harn ->].
  apply bind_inv in H as (s6 & [] & Hset & H).
  apply update_response_inv in Hset. subst s6. simpl in H.
  apply bind_inv in H as (s7 & arn' & Harn' & H).
  apply of_res_inv in Harn' as [Harn' ->].
  apply update_response_inv in H. simpl in H. injection H as Hr1 Hw1.
  subst r1 w1.
  assert (arn' = arn) as -> by congruence.
  unfold logger_info, emit in Hlog. injection Hlog as <-.
  unfold call_register, bind, emit in Hreg. injection Hreg as <- Hreg.
  exists (trace w2), spec, result, arn.
  split; [|split; [|split]].
  - unfold after. simpl. now rewrite <- app_assoc.
  - exact Hreg.
  - exact Harn.
  - reflexivity.
Qed.

(** A Create or Update request with a spec document, the three other
    properties and the two environment variables gets as far as the
    register call, and returns when that call returns an ARN. *)
Lemma create_or_update_succeeds host batch event r0 w
    props text doc wf_name step_name image region acct :
  Py.subscript event "ResourceProperties" = Ok props ->
  Py.subscript props "spec" = Ok (JStr text) ->
  json_loads host text = Ok doc ->
  spec_document doc ->
  Py.subscript props "workflowName" = Ok wf_name ->
  Py.subscript props "stepName" = Ok step_name ->
  Py.subscript props "image" = Ok image ->
  configured host region acct ->
  exists h1 spec,
    forall result arn,
      register_job_definition batch h1 spec = Ok result ->
      Py.subscript result "jobDefinitionArn" = Ok arn ->
      create_or_update host batch event (r0, w)
      = ((return_this [("Arn", arn)] (set_PhysicalResourceId arn r0),
          {| store := h1;
             trace := (trace w ++ [Log INFO "spec=" [spec];
                                   RegisterJobDefinition spec])%list |}),
         Ok tt).
Proof.
  intros Hprops Htext Hloads Hdoc Hwf Hstep Himage Hconf.
  destruct (AllocFacts.alloc_valid_spec doc (store w) Hdoc)
    as (h0 & l & p & Halloc & Hvalid & _).
  pose proof (EditSpecFacts.edit_spec_run host h0 l p wf_name step_name image
                region acct Hvalid Hconf) as Hedit.
  exists (edited_store host h0 p wf_name step_name image region acct),
    (VRef (length h0)).
  intros result arn Hreg Harn.
  unfold create_or_update, bind, of_res, in_world, loads, bind, of_res,
    in_heap, logger_info, call_register, bind, emit, update_response, after.
  rewrite Hprops, Htext, Hloads. cbn [fst snd store trace].
  rewrite Halloc. cbn [fst snd store trace].
  rewrite Hwf, Hstep, Himage, Hedit. cbn [fst snd store trace].
  rewrite Hreg, Harn. cbn [fst snd]. rewrite <- app_assoc. reflexivity.
Qed.

End DispatchFacts.

(** C2. A Delete request (a request type other than Create and Update)
    always reports SUCCESS.  With a physical resource id, the deregister
    operation is called with that id, and a failure of the call only adds
    a warning to the log; without one, the operation is not called and a
    warning is logged. *)
Theorem delete_reports_success
    (host : Host) (batch : Batch) (event : json) (context : Context)
    (request_type : json) (r0 : Response) (hst target : string) (w : world) :
  new_response event false = Ok r0 ->
  addressed host event hst target ->
  Py.subscript event "RequestType" = Ok request_type ->
  is_create_or_update request_type = false ->
  let physical := PhysicalResourceId r0 in
  let r := set_Status "SUCCESS" r0 in
  let run := with_block host batch event context w in
  let report := [Log INFO "succeeded" [];
                 Log INFO "asdict(response)=" [VJson (asdict r)];
                 HttpsPut hst target (Json.dumps_default (asdict r))] in
  Py.get event "PhysicalResourceId" = Ok physical
  /\ Status r = "SUCCESS"
  /\ (physical <> JNull ->
      trace (final run)
      = (trace w
           ++ DeregisterJobDefinition physical
           :: match deregister_job_definition batch physical with
              | Ok _ => []
              | Raise _ => [Log WARNING "deregistration failed: " []]
              end
           ++ report)%list)
  /\ (physical = JNull ->
      trace (final run)
      = (trace w ++ Log WARNING "no physical resource id found" [] :: report)%list
      /\ List.filter is_deregister (trace (final run))
         = List.filter is_deregister (trace w)).
Proof.
  intros Hnew Haddr Htype Hdelete. cbv zeta.
  destruct (ScopeFacts.new_response_fields _ _ _ Hnew) as (_ & _ & _ & _ & Hget).
  assert (Hrun : trace (final (with_block host batch event context w))
                 = (trace w ++ deregistration batch (PhysicalResourceId r0)
                      ++ [Log INFO "succeeded" [];
                          Log INFO "asdict(response)=" [VJson (asdict (set_Status "SUCCESS" r0))];
                          HttpsPut hst target
                            (Json.dumps_default (asdict (set_Status "SUCCESS" r0)))])%list).
  { unfold with_block.
    rewrite (ScopeFacts.responder_delivers _ _ _ _ _ _ _ _ _ Hnew Haddr).
    rewrite (DispatchFacts.handler_body_dispatch _ _ _ _ _ Htype), Hdelete.
    rewrite (DispatchFacts.delete_run _ _ _ _ _ Hget).
    unfold final, outcome, fst, snd, trace at 1. simpl exit_envelope.
    simpl exit_log. unfold delivery. simpl trace. now rewrite <- app_assoc. }
  split; [exact Hget|]. split; [reflexivity|]. split.
  - intros Hid. rewrite Hrun. unfold deregistration.
    destruct (PhysicalResourceId r0); try reflexivity. congruence.
  - intros Hnone. rewrite Hrun, Hnone. simpl deregistration. split; [reflexivity|].
    rewrite List.filter_app. simpl. apply app_nil_r.
Qed.

Lemma delete_reports_success_witness :
  (exists r,
      Status r = "SUCCESS"
      /\ trace (final (with_block Demo.host Demo.batch Demo.delete_known Demo.context Demo.start))
         = [DeregisterJobDefinition (JStr "arn:old");
            Log WARNING "deregistration failed: " [];
            Log INFO "succeeded" [];
            Log INFO "asdict(response)=" [VJson (asdict r)];
            HttpsPut "cfn.example.com" "/callback?sig=abc" (Json.dumps_default (asdict r))])
  /\ (exists r,
         Status r = "SUCCESS"
         /\ trace (final (with_block Demo.host Demo.batch Demo.delete_unknown
                            Demo.context Demo.start))
            = [Log WARNING "no physical resource id found" [];
               Log INFO "succeeded" [];
               Log INFO "asdict(response)=" [VJson (asdict r)];
               HttpsPut "cfn.example.com" "/callback?sig=abc" (Json.dumps_default (asdict r))]).
Proof.
  assert (Haddr : forall more,
             addressed Demo.host (Demo.event "Delete" more)
               "cfn.example.com" "/callback?sig=abc").
  { intros more. exists Demo.url. eexists. repeat split; reflexivity. }
  split.
  - destruct (delete_reports_success Demo.host Demo.batch Demo.delete_known Demo.context
                (JStr "Delete")
                (Response_init (JStr "arn:old") (JStr "stack-1") (JStr "request-1")
                   (JStr "JobDef") false)
                "cfn.example.com" "/callback?sig=abc" Demo.start
                eq_refl (Haddr _) eq_refl eq_refl)
      as (_ & Hstatus & Hknown & _).
    eexists. split; [exact Hstatus|]. apply Hknown. discriminate.
  - destruct (delete_reports_success Demo.host Demo.batch Demo.delete_unknown Demo.context
                (JStr "Delete")
                (Response_init JNull (JStr "stack-1") (JStr "request-1")
                   (JStr "JobDef") false)
                "cfn.example.com" "/callback?sig=abc" Demo.start
                eq_refl (Haddr _) eq_refl eq_refl)
      as (_ & Hstatus & _ & Hunknown).
    eexists. split; [exact Hstatus|]. apply Hunknown. reflexivity.
Defined.

(** C6. A Create or Update request that parses and registers reports the
    ARN.  With a spec document, the other three properties and the two
    environment variables, the block of the [with] statement gets to the
    register call and returns when the call returns an ARN; and whenever
    the block returns, the register operation returned a result whose
    jobDefinitionArn is in the callback body as PhysicalResourceId and as
    Data.Arn, next to Status SUCCESS. *)
Theorem create_reports_the_arn
    (host : Host) (batch : Batch) (event : json) (context : Context)
    (request_type : json) (r0 : Response) (hst target : string) (w : world) :
  new_response event false = Ok r0 ->
  addressed host event hst target ->
  Py.subscript event "RequestType" = Ok request_type ->
  is_create_or_update request_type = true ->
  (forall props text doc wf_name step_name image region acct,
      Py.subscript event "ResourceProperties" = Ok props ->
      Py.subscript props "spec" = Ok (JStr text) ->
      json_loads host text = Ok doc ->
      spec_document doc ->
      Py.subscript props "workflowName" = Ok wf_name ->
      Py.subscript props "stepName" = Ok step_name ->
      Py.subscript props "image" = Ok image ->
      configured host region acct ->
      exists h1 spec,
        forall result arn,
          register_job_definition batch h1 spec = Ok result ->
          Py.subscript result "jobDefinitionArn" = Ok arn ->
          exists r1 w1,
            handler_body host batch event (r0, w) = ((r1, w1), Ok tt)
            /\ store w1 = h1)
  /\ (forall r1 w1,
        handler_body host batch event (r0, w) = ((r1, w1), Ok tt) ->
        exists earlier spec result arn body,
          trace w1 = (earlier ++ [Log INFO "spec=" [spec]; RegisterJobDefinition spec])%list
          /\ register_job_definition batch (store w1) spec = Ok result
          /\ Py.subscript result "jobDefinitionArn" = Ok arn
          /\ trace (final (with_block host batch event context w))
             = (trace w1 ++ [Log INFO "succeeded" [];
                             Log INFO "asdict(response)=" [VJson body];
                             HttpsPut hst target (Json.dumps_default body)])%list
          /\ Py.subscript body "Status" = Ok (JStr "SUCCESS")
          /\ Py.subscript body "PhysicalResourceId" = Ok arn
          /\ exists data,
               Py.subscript body "Data" = Ok data /\ Py.subscript data "Arn" = Ok arn).
Proof.
  intros Hnew Haddr Htype Hcreate. split.
  - intros props text doc wf_name step_name image region acct
      Hprops Htext Hloads Hdoc Hwf Hstep Himage Hconf.
    destruct (DispatchFacts.create_or_update_succeeds host batch event r0 w
                props text doc wf_name step_name image region acct
                Hprops Htext Hloads Hdoc Hwf Hstep Himage Hconf)
      as (h1 & spec & Hrun).
    exists h1, spec. intros result arn Hreg Harn.
    rewrite (DispatchFacts.handler_body_dispatch _ _ _ _ _ Htype), Hcreate.
    rewrite (Hrun result arn Hreg Harn). eexists. eexists. split; reflexivity.
  - intros r1 w1 Hbody.
    pose proof Hbody as Hbody'.
    rewrite (DispatchFacts.handler_body_dispatch _ _ _ _ _ Htype), Hcreate in Hbody'.
    apply DispatchFacts.create_or_update_ok in Hbody'
      as (earlier & spec & result & arn & Htrace & Hreg & Harn & Hr1).
    destruct (ScopeFacts.new_response_fields _ _ _ Hnew) as (_ & _ & Hdata & _).
    exists earlier, spec, result, arn, (asdict (set_Status "SUCCESS" r1)).
    split; [exact Htrace|]. split; [exact Hreg|]. split; [exact Harn|]. split.
    { unfold with_block.
      rewrite (ScopeFacts.responder_delivers _ _ _ _ _ _ _ _ _ Hnew Haddr).
      rewrite Hbody. reflexivity. }
    subst r1. split; [reflexivity|]. split; [reflexivity|].
    exists (JDict [("Arn", arn)]). split.
    + unfold asdict, Py.subscript. simpl. rewrite Hdata. reflexivity.
    + unfold Py.subscript. simpl. reflexivity.
Qed.

Lemma create_reports_the_arn_witness :
  exists body,
    In (HttpsPut "cfn.example.com" "/callback?sig=abc" (Json.dumps_default body))
      (trace (final (with_block Demo.host Demo.batch Demo.create Demo.context Demo.start)))
    /\ Py.subscript body "Status" = Ok (JStr "SUCCESS")
    /\ Py.subscript body "PhysicalResourceId" = Ok Demo.arn
    /\ exists data, Py.subscript body "Data" = Ok data /\ Py.subscript data "Arn" = Ok Demo.arn.
Proof.
  destruct (create_reports_the_arn Demo.host Demo.batch Demo.create Demo.context
              (JStr "Create")
              (Response_init JNull (JStr "stack-1") (JStr "request-1") (JStr "JobDef") false)
              "cfn.example.com" "/callback?sig=abc" Demo.start eq_refl)
    as (Hforward & Hbackward).
  - exists Demo.url. eexists. repeat split; reflexivity.
  - reflexivity.
  - reflexivity.
  - destruct (Hforward Demo.properties (Json.dumps_default Demo.spec) Demo.spec
                (JStr "wf1") (JStr "step1") Demo.image "us-east-1" "123456789012"
                eq_refl eq_refl eq_refl) as (h1 & spec & Hreturns).
    + do 5 eexists. repeat split; reflexivity.
    + reflexivity.
    + reflexivity.
    + reflexivity.
    + split; vm_compute; reflexivity.
    + destruct (Hreturns (JDict [("jobDefinitionArn", Demo.arn)]) Demo.arn eq_refl eq_refl)
        as (r1 & w1 & Hbody & _).
      destruct (Hbackward r1 w1 Hbody)
        as (earlier & spec' & result & arn & body & _ & Hreg & Harn & Htrace
            & Hstatus & Hid & Hdata).
      assert (arn = Demo.arn) as ->.
      { simpl in Hreg. injection Hreg as <-. simpl in Harn. congruence. }
      exists body. split; [|split; [|split]]; try assumption.
      rewrite Htrace. apply in_or_app. right. simpl. auto.
Defined.

(** ** The end-to-end scenarios *)

Module Scenarios.

(** Create: the spec is edited and registered, and the callback reports
    SUCCESS with the ARN. *)
Example create_succeeds :
  let run := lambda_handler Demo.host Demo.create Demo.context Demo.start in
  outcome run = Ok tt
  /\ trace (final run)
     = ([Log INFO "event=" [VJson Demo.create];
         Log INFO "spec=" [VRef 6];
         RegisterJobDefinition (VRef 6);
         Log INFO "succeeded" []]
          ++ Demo.delivered (Demo.envelope Demo.arn "SUCCESS" "" [("Arn", Demo.arn)]))%list
  /\ Py.snapshot 8 (store (final run)) (VRef 6)
     = Some (JDict [("type", JStr "container");
                    ("containerProperties",
                     JDict [("image", JStr "img");
                            ("environment",
                             JList [JDict [("name", JStr "A"); ("value", JStr "1")];
                                    JDict [("name", JStr "BC_WORKFLOW_NAME"); ("value", JStr "wf1")];
                                    JDict [("name", JStr "BC_STEP_NAME"); ("value", JStr "step1")];
                                    JDict [("name", JStr "AWS_DEFAULT_REGION"); ("value", JStr "us-east-1")];
                                    JDict [("name", JStr "AWS_ACCOUNT_ID"); ("value", JStr "123456789012")]])]);
                    ("parameters", JDict [("image", JStr (Json.dumps_canonical Demo.image))]);
                    ("tags", JDict [("owner", JStr "me"); ("bclaw:workflow", JStr "wf1")]);
                    ("jobDefinitionName", JStr "wf1_step1")]).
Proof. cbv zeta. repeat split; vm_compute; reflexivity. Qed.

(** Delete with a physical id: the deregister call fails, and the
    callback still reports SUCCESS. *)
Example delete_known_succeeds :
  let run := lambda_handler Demo.host Demo.delete_known Demo.context Demo.start in
  outcome run = Ok tt
  /\ trace (final run)
     = ([Log INFO "event=" [VJson Demo.delete_known];
         DeregisterJobDefinition (JStr "arn:old");
         Log WARNING "deregistration failed: " [];
         Log INFO "succeeded" []]
          ++ Demo.delivered (Demo.envelope (JStr "arn:old") "SUCCESS" "" []))%list.
Proof. cbv zeta. split; vm_compute; reflexivity. Qed.

(** Delete without a physical id: nothing is deregistered. *)
Example delete_unknown_succeeds :
  let run := lambda_handler Demo.host Demo.delete_unknown Demo.context Demo.start in
  outcome run = Ok tt
  /\ trace (final run)
     = ([Log INFO "event=" [VJson Demo.delete_unknown];
         Log WARNING "no physical resource id found" [];
         Log INFO "succeeded" []]
          ++ Demo.delivered (Demo.envelope JNull "SUCCESS" "" []))%list.
Proof. cbv zeta. split; vm_compute; reflexivity. Qed.

(** Create without the spec property: the callback reports FAILED and
    points to the logs. *)
Example create_without_spec_fails :
  let run := lambda_handler Demo.host Demo.create_without_spec Demo.context Demo.start in
  outcome run = Ok tt
  /\ trace (final run)
     = ([Log INFO "event=" [VJson Demo.create_without_spec];
         Log ERROR "failed: " []]
          ++ Demo.delivered
               (Demo.envelope JNull "FAILED"
                  "see log group /aws/lambda/register / log stream 2024/01/01/[1]abc" []))%list.
Proof. cbv zeta. split; vm_compute; reflexivity. Qed.

End Scenarios.

(** ** Computations that make no service call *)

Module SilentFacts.

Section Generic.
Context {S : Type} (p : effect -> bool) (tr : S -> list effect).

Lemma silent_ret {A} (a : A) : silent p tr (ret a).
Proof. intros s. reflexivity. Qed.

Lemma silent_raise {A} e : silent p tr (@raise S A e).
Proof. intros s. reflexivity. Qed.

Lemma silent_of_res {A} (r : res A) : silent p tr (of_res r).
Proof. intros s. reflexivity. Qed.

Lemma silent_bind {A B} (c : M S A) (k : A -> M S B) :
  silent p tr c -> (forall a, silent p tr (k a)) -> silent p tr (bind c k).
Proof.
  intros Hc Hk s. unfold bind. specialize (Hc s).
  destruct (c s) as [s' [a|e]]; simpl in *.
  - now rewrite Hk.
  - assumption.
Qed.

Lemma silent_try_except {A} (c : M S A) (handler : exn -> M S A) :
  silent p tr c -> (forall e, silent p tr (handler e)) ->
  silent p tr (try_except c handler).
Proof.
  intros Hc Hh s. unfold try_except. specialize (Hc s).
  destruct (c s) as [s' [a|e]]; simpl in *.
  - assumption.
  - now rewrite Hh.
Qed.

Lemma silent_try_finally {A} (c : M S A) (final : M S unit) :
  silent p tr c -> silent p tr final -> silent p tr (try_finally c final).
Proof.
  intros Hc Hf s. unfold try_finally. specialize (Hc s).
  destruct (c s) as [s' r]. specialize (Hf s').
  destruct (final s') as [s'' [u|e]]; simpl in *; congruence.
Qed.
End Generic.

Section Selected.
Variable p : effect -> bool.

Lemma silent_emit e : p e = false -> silent p trace (emit e).
Proof.
  intros He w. unfold emit, after. simpl.
  rewrite List.filter_app. simpl. rewrite He. apply app_nil_r.
Qed.

Lemma silent_in_heap {A} (c : M heap A) : silent p trace (in_heap c).
Proof. intros w. unfold in_heap. now destruct (c (store w)). Qed.

Lemma silent_in_world {A} (c : M world A) :
  silent p trace c -> silent p scope_trace (in_world c).
Proof.
  intros Hc [r w]. unfold in_world, scope_trace. simpl. specialize (Hc w).
  now destruct (c w).
Qed.

Lemma silent_update_response f : silent p scope_trace (update_response f).
Proof. intros [r w]. reflexivity. Qed.

Lemma silent_get_response : silent p scope_trace get_response.
Proof. intros [r w]. reflexivity. Qed.

Lemma silent_with_response {A} r (c : M scope A) :
  silent p scope_trace c -> silent p trace (with_response r c).
Proof.
  intros Hc w. unfold with_response. specialize (Hc (r, w)).
  now destruct (c (r, w)).
Qed.

Lemma silent_loads host text : silent p trace (loads host text).
Proof.
  unfold loads. destruct text; try apply silent_raise.
  apply silent_bind; [apply silent_of_res|]. intros doc. apply silent_in_heap.
Qed.

Hypothesis Hp : service_only p.

Lemma silent_logger_info msg args : silent p trace (logger_info msg args).
Proof. apply silent_emit, Hp. Qed.

Lemma silent_logger_warning msg : silent p trace (logger_warning msg).
Proof. apply silent_emit, Hp. Qed.

Lemma silent_logger_exception msg : silent p trace (logger_exception msg).
Proof. apply silent_emit, Hp. Qed.

Lemma silent_respond host url body : silent p trace (respond host url body).
Proof.
  unfold respond. apply silent_bind.
  { destruct url; try apply silent_raise. apply silent_of_res. }
  intros u. apply silent_bind.
  { unfold HTTPSConnection. destruct (hostname u); [|apply silent_raise].
    apply silent_bind; [apply silent_of_res|]. intros _. apply silent_ret. }
  intros hst. apply silent_bind; [apply silent_emit, Hp|].
  intros _. apply silent_of_res.
Qed.

(** the responder makes no service call of its own *)
Lemma silent_responder host event context no_echo body :
  silent p scope_trace body ->
  silent p trace (responder host event context no_echo body).
Proof.
  intros Hbody. unfold responder.
  apply silent_bind; [apply silent_of_res|]. intros r.
  apply silent_with_response, silent_try_finally.
  - apply silent_try_except.
    + apply silent_bind; [exact Hbody|]. intros _.
      apply silent_bind; [apply silent_in_world, silent_logger_info|].
      intros _. apply silent_update_response.
    + intros _. apply silent_bind;
        [apply silent_in_world, silent_logger_exception|].
      intros _. apply silent_update_response.
  - apply silent_bind; [apply silent_get_response|]. intros r1.
    apply silent_bind; [apply silent_in_world, silent_logger_info|]. intros _.
    apply silent_bind; [apply silent_of_res|]. intros url.
    apply silent_bind; [apply silent_get_response|]. intros r2.
    apply silent_in_world, silent_respond.
Qed.

Lemma silent_call_register batch spec :
  p (RegisterJobDefinition spec) = false ->
  silent p trace (call_register batch spec).
Proof.
  intros Hreg. unfold call_register.
  apply silent_bind; [now apply silent_emit|]. intros _ w. reflexivity.
Qed.

Lemma silent_create_or_update host batch event :
  (forall spec, p (RegisterJobDefinition spec) = false) ->
  silent p scope_trace (create_or_update host batch event).
Proof.
  intros Hreg. unfold create_or_update.
  repeat first
    [ apply silent_of_res
    | apply silent_update_response
    | apply silent_call_register; apply Hreg
    | apply silent_loads
    | apply silent_in_heap
    | apply silent_logger_info
    | apply silent_in_world
    | apply silent_bind; [|intros ?] ].
Qed.

Lemma silent_delete batch event :
  (forall id, p (DeregisterJobDefinition id) = false) ->
  silent p scope_trace (delete batch event).
Proof.
  intros Hdereg. unfold delete.
  apply silent_try_except.
  - apply silent_bind; [apply silent_of_res|]. intros id.
    assert (Hcall : silent p scope_trace
                      (bind (in_world (call_deregister batch id)) (fun _ => ret tt))).
    { apply silent_bind; [|intros _; apply silent_ret].
      apply silent_in_world. unfold call_deregister.
      apply silent_bind; [apply silent_emit, Hdereg|].
      intros _. apply silent_of_res. }
    destruct id; try exact Hcall.
    apply silent_in_world, silent_logger_warning.
  - intros _. apply silent_in_world, silent_logger_warning.
Qed.
End Selected.

Lemma service_only_register : service_only is_register.
Proof. split; reflexivity. Qed.

Lemma service_only_deregister : service_only is_deregister.
Proof. split; reflexivity. Qed.

(** [lambda_handler] once the client exists *)
Lemma lambda_handler_run host event context batch w :
  boto3_client_batch host = Ok batch ->
  lambda_handler host event context w
  = with_block host batch event context (after w (Log INFO "event=" [VJson event])).
Proof.
  intros Hclient. unfold lambda_handler, logger_info, bind, emit, of_res.
  now rewrite Hclient.
Qed.

Lemma lambda_handler_no_client host event context e w :
  boto3_client_batch host = Raise e ->
  lambda_handler host event context w
  = (after w (Log INFO "event=" [VJson event]), Raise e).
Proof.
  intros Hclient. unfold lambda_handler, logger_info, bind, emit, of_res.
  now rewrite Hclient.
Qed.

(** an invocation is silent for [p] when the block of its [with]
    statement is *)
Lemma silent_lambda_handler p host event context :
  service_only p ->
  (forall batch, silent p scope_trace (handler_body host batch event)) ->
  silent p trace (lambda_handler host event context).
Proof.
  intros Hp Hbody w.
  destruct (boto3_client_batch host) as [batch|e] eqn:Hclient.
  - rewrite (lambda_handler_run _ _ _ _ _ Hclient). unfold with_block.
    rewrite (silent_responder p Hp host event context false _ (Hbody batch)).
    unfold after. simpl. rewrite List.filter_app. simpl.
    destruct Hp as [Hlog _]. rewrite Hlog. apply app_nil_r.
  - rewrite (lambda_handler_no_client _ _ _ _ _ Hclient).
    unfold after. simpl. rewrite List.filter_app. simpl.
    destruct Hp as [Hlog _]. rewrite Hlog. apply app_nil_r.
Qed.

End SilentFacts.

(** ** [edit_spec] step by step *)

Module EditSpecSteps.
Import StoreFacts EditSpecFacts.

Lemma getitem_missing (h : heap) l d k :
  h !! l = Some (ODict d) -> PyDict.get k d = None ->
  Py.getitem (VRef l) k h = (h, Raise (KeyError k)).
Proof. unfold Py.getitem. now intros -> ->. Qed.

Section Steps.
Variables (host : Host) (h : heap) (l : loc) (top : list (string * value)).
Variables (lc : loc) (dc : list (string * value)) (le : loc) (es : list value).
Variables (wf_name step_name image : json).
Hypothesis Hshape : has_environment h l top lc dc le es.

#[local] Abbreviation top' := (renamed host wf_name step_name top).
#[local] Abbreviation e1 := (name_value "BC_WORKFLOW_NAME" (VJson wf_name)).
#[local] Abbreviation e2 := (name_value "BC_STEP_NAME" (VJson step_name)).

(** up to the first environment variable nothing but new objects *)
Lemma edit_spec_no_region :
  environ host !! "REGION" = None ->
  edit_spec host (VRef l) wf_name step_name image h
  = ((h ++ [top'; e1; e2])%list, Raise (KeyError "REGION")).
Proof.
  destruct Hshape as (Hl & Hcp & Hlc & Henv & Hle). intros Hreg.
  assert (Hcp' : PyDict.get "containerProperties"
                   (PyDict.set "jobDefinitionName"
                      (VStr (fmt host wf_name ++ "_" ++ fmt host step_name)) top)
                 = Some (VRef lc))
    by now rewrite PyDictFacts.get_set_ne.
  unfold edit_spec.
  erewrite bind_ok by (apply copy_ref; eassumption).
  erewrite bind_ok by (apply setitem_ref; apply lookup_new).
  rewrite insert_new.
  erewrite bind_ok by (eapply getitem_ref; [apply lookup_new | eassumption]).
  erewrite bind_ok by (eapply getitem_ref; [apply lookup_old; eassumption | eassumption]).
  erewrite bind_ok by apply new_run.
  erewrite bind_ok by apply new_run.
  erewrite bind_raise; cycle 1.
  { unfold os_environ. rewrite Hreg. reflexivity. }
  rewrite <- !app_assoc. reflexivity.
Qed.

Lemma edit_spec_no_account region :
  environ host !! "REGION" = Some region ->
  environ host !! "ACCT_NUM" = None ->
  edit_spec host (VRef l) wf_name step_name image h
  = ((h ++ [top'; e1; e2; name_value "AWS_DEFAULT_REGION" (VStr region)])%list,
     Raise (KeyError "ACCT_NUM")).
Proof.
  destruct Hshape as (Hl & Hcp & Hlc & Henv & Hle). intros Hreg Hacct.
  assert (Hcp' : PyDict.get "containerProperties"
                   (PyDict.set "jobDefinitionName"
                      (VStr (fmt host wf_name ++ "_" ++ fmt host step_name)) top)
                 = Some (VRef lc))
    by now rewrite PyDictFacts.get_set_ne.
  unfold edit_spec.
  erewrite bind_ok by (apply copy_ref; eassumption).
  erewrite bind_ok by (apply setitem_ref; apply lookup_new).
  rewrite insert_new.
  erewrite bind_ok by (eapply getitem_ref; [apply lookup_new | eassumption]).
  erewrite bind_ok by (eapply getitem_ref; [apply lookup_old; eassumption | eassumption]).
  erewrite bind_ok by apply new_run.
  erewrite bind_ok by apply new_run.
  erewrite bind_ok by (apply os_environ_ok; eassumption).
  erewrite bind_ok by apply new_run.
  erewrite bind_raise; cycle 1.
  { unfold os_environ. rewrite Hacct. reflexivity. }
  rewrite <- !app_assoc. reflexivity.
Qed.

(** with both variables the environment is extended, and the rest
    runs in the store that this leaves *)
Lemma edit_spec_extends_first region acct :
  configured host region acct ->
  edit_spec host (VRef l) wf_name step_name image h
  = edit_spec_rest (VRef (length h)) wf_name image
      (<[le := OList (es ++ new_entries (length h))%list]>
         (h ++ [top'; e1; e2;
                name_value "AWS_DEFAULT_REGION" (VStr region);
                name_value "AWS_ACCOUNT_ID" (VStr acct)])%list).
Proof.
  destruct Hshape as (Hl & Hcp & Hlc & Henv & Hle). intros [Hreg Hacct].
  pose proof (dict_list_apart _ _ _ _ _ Hlc Hle) as Nce.
  assert (Hcp' : PyDict.get "containerProperties"
                   (PyDict.set "jobDefinitionName"
                      (VStr (fmt host wf_name ++ "_" ++ fmt host step_name)) top)
                 = Some (VRef lc))
    by now rewrite PyDictFacts.get_set_ne.
  unfold edit_spec.
  erewrite bind_ok by (apply copy_ref; eassumption).
  erewrite bind_ok by (apply setitem_ref; apply lookup_new).
  rewrite insert_new.
  erewrite bind_ok by (eapply getitem_ref; [apply lookup_new | eassumption]).
  erewrite bind_ok by (eapply getitem_ref; [apply lookup_old; eassumption | eassumption]).
  erewrite bind_ok by apply new_run.
  erewrite bind_ok by apply new_run.
  erewrite bind_ok by (apply os_environ_ok; eassumption).
  erewrite bind_ok by apply new_run.
  erewrite bind_ok by (apply os_environ_ok; eassumption).
  erewrite bind_ok by apply new_run.
  rewrite <- !app_assoc. simpl app.
  rewrite !length_app. simpl length.
  fold (new_entries (length h)).
  remember (h ++ _)%list as h1 eqn:Eh1.
  assert (Hold1 : forall i o, h !! i = Some o -> h1 !! i = Some o)
    by (intros i o Hi; rewrite Eh1; now apply lookup_app_l_Some).
  erewrite bind_ok by (apply iadd_list_ref; apply Hold1; eassumption).
  remember (<[le := _]> h1) as h2 eqn:Eh2.
  assert (Hcp2 : h2 !! lc = Some (ODict dc))
    by (rewrite Eh2, list_lookup_insert_ne by congruence; auto).
  erewrite bind_ok by (apply setitem_ref; exact Hcp2).
  rewrite (PyDictFacts.set_get_id _ _ _ Henv), (list_insert_id _ _ _ Hcp2).
  reflexivity.
Qed.
End Steps.

End EditSpecSteps.

(** ** The envelope and the store through an invocation *)

Module EnvelopeFacts.
Import StoreFacts.

Lemma new_response_identity event no_echo r0 :
  new_response event no_echo = Ok r0 ->
  Py.subscript event "StackId" = Ok (StackId r0)
  /\ Py.subscript event "RequestId" = Ok (RequestId r0)
  /\ Py.subscript event "LogicalResourceId" = Ok (LogicalResourceId r0).
Proof.
  unfold new_response.
  destruct (Py.get event "PhysicalResourceId"); [|discriminate].
  destruct (Py.subscript event "StackId"); [|discriminate].
  destruct (Py.subscript event "RequestId"); [|discriminate].
  destruct (Py.subscript event "LogicalResourceId"); [|discriminate].
  intros [= <-]. repeat split; reflexivity.
Qed.

(** the Delete branch always returns, with the envelope and the store
    as they were *)
Lemma delete_returns batch event r w :
  exists w',
    delete batch event (r, w) = ((r, w'), Ok tt) /\ store w' = store w.
Proof.
  unfold delete, try_except, bind, of_res, in_world, logger_warning,
    call_deregister, bind, of_res, emit, after, ret.
  destruct (Py.get event "PhysicalResourceId") as [id|e]; simpl.
  - destruct id; simpl;
      try (destruct (deregister_job_definition batch _); simpl;
           eexists; split; reflexivity).
    eexists; split; reflexivity.
  - eexists; split; reflexivity.
Qed.

(** a Create or Update that raises has not written to the envelope *)
Lemma create_or_update_raise host batch event r0 w r1 w1 e :
  create_or_update host batch event (r0, w) = ((r1, w1), Raise e) -> r1 = r0.
Proof.
  unfold create_or_update, bind, of_res, in_world, update_response.
  repeat match goal with
         | |- context [match ?x with _ => _ end] =>
             match x with
             | context [match _ with _ => _ end] => fail 1
             | _ => destruct x eqn:?
             end
         end; simpl; intros H; try discriminate; now injection H.
Qed.

(** the envelope after the block of the [with] statement: the block
    writes the physical id and the data, and only when it returns *)
Lemma handler_body_envelope host batch event r0 w r1 w1 ended :
  handler_body host batch event (r0, w) = ((r1, w1), ended) ->
  (exists e, ended = Raise e /\ r1 = r0)
  \/ (ended = Ok tt
      /\ (r1 = r0
          \/ exists arn, r1 = return_this [("Arn", arn)] (set_PhysicalResourceId arn r0))).
Proof.
  unfold handler_body, bind at 1, of_res at 1.
  destruct (Py.subscript event "RequestType") as [rt|e0].
  - destruct (is_create_or_update rt).
    + destruct ended as [[]|e]; intros H.
      * right. split; [reflexivity|]. right.
        apply DispatchFacts.create_or_update_ok in H
          as (_ & _ & _ & arn & _ & _ & _ & ->).
        now exists arn.
      * left. exists e. split; [reflexivity|].
        now apply create_or_update_raise in H.
    + destruct (delete_returns batch event r0 w) as (w' & -> & _).
      intros [= <- <- <-]. right. split; [reflexivity|]. now left.
  - intros [= <- <- <-]. left. now exists e0.
Qed.

Lemma respond_store host url body w :
  store (final (respond host url body w)) = store w.
Proof.
  unfold respond, bind, of_res, raise, HTTPSConnection, emit, ret, final.
  destruct url; try reflexivity.
  destruct (urlparse host s) as [u|e]; [|reflexivity].
  destruct (hostname u) as [hst|]; [|reflexivity].
  unfold bind, of_res. destruct (https_connection host hst) as [[]|e]; reflexivity.
Qed.

(** a host name from which no connection can be constructed: nothing
    is sent *)
Lemma respond_rejected host event hst target body w e :
  located host event hst target ->
  https_connection host hst = Raise e ->
  exists url,
    Py.subscript event "ResponseURL" = Ok url
    /\ respond host url body w = (w, Raise e).
Proof.
  intros (url & u & Hurl & Hparse & Hhost & ->) Hconn.
  exists (JStr url). split; [assumption|].
  unfold respond, bind, of_res, HTTPSConnection, bind, of_res.
  rewrite Hparse, Hhost, Hconn. reflexivity.
Qed.

Lemma responder_undelivered host event context no_echo body w r0 hst target e :
  new_response event no_echo = Ok r0 ->
  located host event hst target ->
  https_connection host hst = Raise e ->
  let ended := outcome (body (r0, w)) in
  let r := exit_envelope context (fst (final (body (r0, w)))) ended in
  let w1 := snd (final (body (r0, w))) in
  responder host event context no_echo body w
  = ({| store := store w1;
        trace := (trace w1 ++ [exit_log ended;
                               Log INFO "asdict(response)=" [VJson (asdict r)]])%list |},
     Raise e).
Proof.
  intros Hnew Hloc Hconn. cbv zeta.
  rewrite (ResponderFacts.responder_run _ _ _ _ _ _ _ Hnew). cbv zeta.
  destruct (respond_rejected host event hst target
              (asdict (exit_envelope context (fst (final (body (r0, w))))
                         (outcome (body (r0, w)))))
              (after (after (snd (final (body (r0, w))))
                        (exit_log (outcome (body (r0, w)))))
                 (Log INFO "asdict(response)="
                    [VJson (asdict (exit_envelope context (fst (final (body (r0, w))))
                                      (outcome (body (r0, w)))))]))
              e Hloc Hconn) as (url & Hurl & Hrespond).
  rewrite Hurl. cbv beta iota. rewrite Hrespond.
  unfold after. simpl. rewrite <- !app_assoc. reflexivity.
Qed.

Lemma addressed_located host event hst target :
  addressed host event hst target ->
  located host event hst target /\ https_connection host hst = Ok tt.
Proof.
  intros (url & u & Hurl & Hparse & Hhost & Htarget & Hconn).
  split; [|assumption]. now exists url, u.
Qed.

Lemma located_addressed host event hst target :
  located host event hst target -> https_connection host hst = Ok tt ->
  addressed host event hst target.
Proof.
  intros (url & u & Hurl & Hparse & Hhost & Htarget) Hconn.
  now exists url, u.
Qed.

(** the responder itself leaves the store alone and calls no service *)
Lemma responder_passes_on p host event context no_echo body w r0 :
  service_only p ->
  new_response event no_echo = Ok r0 ->
  let run := responder host event context no_echo body w in
  store (final run) = store (snd (final (body (r0, w))))
  /\ List.filter p (trace (final run))
     = List.filter p (trace (snd (final (body (r0, w))))).
Proof.
  intros Hp Hnew. cbv zeta.
  rewrite (ResponderFacts.responder_run _ _ _ _ _ _ _ Hnew). cbv zeta.
  set (w' := after (after _ _) _).
  assert (Hw' : store w' = store (snd (final (body (r0, w))))
                /\ List.filter p (trace w')
                   = List.filter p (trace (snd (final (body (r0, w)))))).
  { unfold w', after. simpl. split; [reflexivity|].
    rewrite !List.filter_app. simpl.
    destruct Hp as [Hlog _]. rewrite Hlog.
    destruct (outcome (body (r0, w))); simpl; rewrite Hlog, !app_nil_r; reflexivity. }
  destruct Hw' as [Hstore Hcalls].
  destruct (Py.subscript event "ResponseURL") as [url|e].
  - rewrite respond_store.
    pose proof (SilentFacts.silent_respond p Hp host url
                  (asdict (exit_envelope context (fst (final (body (r0, w))))
                             (outcome (body (r0, w))))) w') as Hsilent.
    unfold final in *. rewrite Hsilent. now split.
  - unfold final in *. simpl. now split.
Qed.

End EnvelopeFacts.

(** ** The data of the envelope *)

Module DataFacts.

Section Keys.
Context {V : Type}.
Implicit Types (d : list (string * V)) (k : string) (v : V).

Lemma keys_set_inv k v d x :
  In x (PyDict.keys (PyDict.set k v d)) -> x = k \/ In x (PyDict.keys d).
Proof.
  induction d as [|[k' v'] d IH]; simpl.
  - intros [<-|[]]. now left.
  - destruct (String.eqb k k') eqn:E; simpl.
    + apply String.eqb_eq in E. subst k'. intros [<-|H]; auto.
    + intros [<-|H]; auto. destruct (IH H); auto.
Qed.

(** an assignment keeps the keys of a dict distinct *)
Lemma NoDup_keys_set k v d :
  List.NoDup (PyDict.keys d) -> List.NoDup (PyDict.keys (PyDict.set k v d)).
Proof.
  induction d as [|[k' v'] d IH]; simpl; intros Hnd.
  - repeat constructor. intros [].
  - inversion Hnd as [|? ? Hnotin Hnd']; subst.
    destruct (String.eqb k k') eqn:E; simpl.
    + apply String.eqb_eq in E. subst k'. now constructor.
    + apply String.eqb_neq in E. constructor; [|now apply IH].
      intros Hin. apply keys_set_inv in Hin as [->|Hin]; [congruence|].
      now apply Hnotin.
Qed.

Lemma update_get_other (kwargs : list (string * V)) d k :
  ~ In k (PyDict.keys kwargs) ->
  PyDict.get k (fold_left (fun d kv => PyDict.set (fst kv) (snd kv) d) kwargs d)
  = PyDict.get k d.
Proof.
  revert d. induction kwargs as [|[k0 v0] kwargs IH]; intros d Hk; simpl.
  - reflexivity.
  - rewrite IH by (intros Hin; apply Hk; now right).
    apply PyDictFacts.get_set_ne. intros ->. apply Hk. now left.
Qed.

Lemma update_get (kwargs : list (string * V)) d k v :
  List.NoDup (PyDict.keys kwargs) -> In (k, v) kwargs ->
  PyDict.get k (fold_left (fun d kv => PyDict.set (fst kv) (snd kv) d) kwargs d)
  = Some v.
Proof.
  revert d. induction kwargs as [|[k0 v0] kwargs IH]; intros d Hnd Hin; simpl.
  - destruct Hin.
  - inversion Hnd as [|? ? Hnotin Hnd']; subst.
    destruct Hin as [Heq|Hin].
    + injection Heq as -> ->.
      rewrite update_get_other by assumption. apply PyDictFacts.get_set_eq.
    + now apply IH.
Qed.

Lemma update_NoDup (kwargs : list (string * V)) d :
  List.NoDup (PyDict.keys d) ->
  List.NoDup (PyDict.keys
                (fold_left (fun d kv => PyDict.set (fst kv) (snd kv) d) kwargs d)).
Proof.
  revert d. induction kwargs as [|[k0 v0] kwargs IH]; intros d Hnd; simpl.
  - assumption.
  - apply IH. now apply NoDup_keys_set.
Qed.
End Keys.

End DataFacts.

(** ** A Create or Update up to the register call *)

Module RegisterFacts.

Lemma create_or_update_reaches_register host batch event r0 w
    props text doc wf_name step_name image region acct :
  Py.subscript event "ResourceProperties" = Ok props ->
  Py.subscript props "spec" = Ok (JStr text) ->
  json_loads host text = Ok doc ->
  spec_document doc ->
  Py.subscript props "workflowName" = Ok wf_name ->
  Py.subscript props "stepName" = Ok step_name ->
  Py.subscript props "image" = Ok image ->
  configured host region acct ->
  exists h0 l p,
    valid_spec h0 l p
    /\ let h1 := edited_store host h0 p wf_name step_name image region acct in
       let spec := VRef (length h0) in
       let called := {| store := h1;
                        trace := (trace w ++ [Log INFO "spec=" [spec];
                                              RegisterJobDefinition spec])%list |} in
       final (create_or_update host batch event (r0, w))
       = (match outcome (create_or_update host batch event (r0, w)) with
          | Ok _ => fst (final (create_or_update host batch event (r0, w)))
          | Raise _ => r0
          end, called).
Proof.
  intros Hprops Htext Hloads Hdoc Hwf Hstep Himage Hconf.
  destruct (AllocFacts.alloc_valid_spec doc (store w) Hdoc)
    as (h0 & l & p & Halloc & Hvalid & _).
  pose proof (EditSpecFacts.edit_spec_run host h0 l p wf_name step_name image
                region acct Hvalid Hconf) as Hedit.
  exists h0, l, p. split; [exact Hvalid|]. cbv zeta.
  unfold create_or_update, bind, of_res, in_world, loads, bind, of_res,
    in_heap, logger_info, call_register, bind, emit, update_response, after,
    final, outcome.
  rewrite Hprops, Htext, Hloads. cbn [fst snd store trace].
  rewrite Halloc. cbn [fst snd store trace].
  rewrite Hwf, Hstep, Himage, Hedit. cbn [fst snd store trace].
  destruct (register_job_definition batch _ _) as [result|e]; cbn [fst snd].
  - destruct (Py.subscript result "jobDefinitionArn") as [arn|e]; cbn [fst snd];
      rewrite <- app_assoc; reflexivity.
  - rewrite <- app_assoc. reflexivity.
Qed.

(** the two courses of a Create or Update: it raises with the trace as
    it was, or it gets to the register call with a spec that was
    parsed and edited *)
Lemma create_or_update_course host batch event r0 w :
  let run := create_or_update host batch event (r0, w) in
  (trace (snd (final run)) = trace w /\ exists e, outcome run = Raise e)
  \/ exists props text doc wf_name step_name image h0 spec0 h1 spec,
       Py.subscript event "ResourceProperties" = Ok props
       /\ Py.subscript props "spec" = Ok (JStr text)
       /\ json_loads host text = Ok doc
       /\ Py.subscript props "workflowName" = Ok wf_name
       /\ Py.subscript props "stepName" = Ok step_name
       /\ Py.subscript props "image" = Ok image
       /\ Py.alloc doc (store w) = (h0, Ok spec0)
       /\ edit_spec host spec0 wf_name step_name image h0 = (h1, Ok spec)
       /\ snd (final run)
          = {| store := h1;
               trace := (trace w ++ [Log INFO "spec=" [spec];
                                     RegisterJobDefinition spec])%list |}.
Proof.
  cbv zeta.
  unfold create_or_update, bind, of_res, in_world, loads, bind, of_res,
    in_heap, logger_info, call_register, bind, emit, update_response, after,
    final, outcome, raise.
  destruct (Py.subscript event "ResourceProperties") as [props|e] eqn:Hprops;
    [|left; split; [reflexivity|eexists; reflexivity]].
  destruct (Py.subscript props "spec") as [s|e] eqn:Hspec;
    [|left; split; [reflexivity|eexists; reflexivity]].
  cbn [fst snd].
  destruct s as [| | |text| |];
    try (left; split; [reflexivity|eexists; reflexivity]).
  destruct (json_loads host text) as [doc|e] eqn:Hloads;
    [|left; split; [reflexivity|eexists; reflexivity]].
  cbn [fst snd store trace].
  destruct (Py.alloc doc (store w)) as [h0 [spec0|e]] eqn:Halloc;
    [|left; split; [reflexivity|eexists; reflexivity]].
  cbn [fst snd store trace].
  destruct (Py.subscript props "workflowName") as [wf_name|e] eqn:Hwf;
    [|left; split; [reflexivity|eexists; reflexivity]].
  destruct (Py.subscript props "stepName") as [step_name|e] eqn:Hstep;
    [|left; split; [reflexivity|eexists; reflexivity]].
  destruct (Py.subscript props "image") as [image|e] eqn:Himage;
    [|left; split; [reflexivity|eexists; reflexivity]].
  cbn [fst snd store trace].
  destruct (edit_spec host spec0 wf_name step_name image h0) as [h1 [spec|e]] eqn:Hedit;
    [|left; split; [reflexivity|eexists; reflexivity]].
  cbn [fst snd store trace].
  right. exists props, text, doc, wf_name, step_name, image, h0, spec0, h1, spec.
  repeat (split; [assumption || reflexivity|]).
  destruct (register_job_definition batch h1 spec) as [result|e]; cbn [fst snd].
  - destruct (Py.subscript result "jobDefinitionArn") as [arn|e]; cbn [fst snd];
      rewrite <- app_assoc; reflexivity.
  - rewrite <- app_assoc. reflexivity.
Qed.

(** what the edited spec reads as in the edited store *)
Lemma edited_reads host h l p wf_name step_name image region acct :
  valid_spec h l p ->
  let h' := edited_store host h p wf_name step_name image region acct in
  let spec := VRef (length h) in
  read h' spec "jobDefinitionName"
  = Some (VStr (fmt host wf_name ++ "_" ++ fmt host step_name))
  /\ parameters_image h' spec = Some (VStr (Json.dumps_canonical image))
  /\ read h' spec "tags" = Some (VRef (tags_loc p))
  /\ read h' (VRef (tags_loc p)) "bclaw:workflow" = Some (VJson wf_name)
  /\ read h' spec "containerProperties" = Some (VRef (cp_loc p))
  /\ read h' (VRef (cp_loc p)) "environment" = Some (VRef (env_loc p)).
Proof.
  intros Hv. cbv zeta.
  pose proof (EditSpecFacts.edited_top host h l p wf_name step_name image region acct Hv)
    as Htop.
  destruct (EditSpecFacts.edited_params host h l p wf_name step_name image region acct Hv)
    as (params' & Hp' & Himg).
  destruct (EditSpecFacts.edited_tags host h l p wf_name step_name image region acct Hv)
    as (tags' & Htags' & Hwf & _).
  destruct (EditSpecFacts.edited_cp host h l p wf_name step_name image region acct Hv)
    as (cp' & Hcp' & Henv).
  destruct Hv as (_ & Hcp & _ & _ & _ & Hparams & _ & Htags & _).
  unfold parameters_image, read, Py.getitem.
  rewrite Htop, PyDictFacts.get_set_eq.
  rewrite !PyDictFacts.get_set_ne by discriminate.
  rewrite Hparams, Htags, Hcp. rewrite Hp', Himg, Htags', Hwf, Hcp', Henv.
  repeat split; reflexivity.
Qed.

End RegisterFacts.

(** ** Counting the service calls *)

Module CountFacts.

Section Generic.
Context {S : Type} (p : effect -> bool) (tr : S -> list effect).

Lemma silent_adds {A} (c : M S A) n : silent p tr c -> adds_at_most p n tr c.
Proof.
  intros Hc s. exists []. rewrite app_nil_r. split; [apply Hc|simpl; lia].
Qed.

Lemma adds_more {A} (c : M S A) n m :
  n <= m -> adds_at_most p n tr c -> adds_at_most p m tr c.
Proof.
  intros Hle Hc s. destruct (Hc s) as (extra & Heq & Hlen).
  exists extra. split; [assumption|lia].
Qed.

Lemma silent_then {A B} (c : M S A) (k : A -> M S B) n :
  silent p tr c -> (forall a, adds_at_most p n tr (k a)) ->
  adds_at_most p n tr (bind c k).
Proof.
  intros Hc Hk s. unfold bind. specialize (Hc s).
  destruct (c s) as [s' [a|e]]; simpl in *.
  - destruct (Hk a s') as (extra & Heq & Hlen).
    exists extra. split; [congruence|assumption].
  - exists []. rewrite app_nil_r. split; [assumption|simpl; lia].
Qed.

Lemma then_silent {A B} (c : M S A) (k : A -> M S B) n :
  adds_at_most p n tr c -> (forall a, silent p tr (k a)) ->
  adds_at_most p n tr (bind c k).
Proof.
  intros Hc Hk s. unfold bind. destruct (Hc s) as (extra & Heq & Hlen).
  destruct (c s) as [s' [a|e]]; simpl in *.
  - exists extra. split; [|assumption]. now rewrite Hk.
  - exists extra. split; assumption.
Qed.

Lemma adds_try_except {A} (c : M S A) (handler : exn -> M S A) n :
  adds_at_most p n tr c -> (forall e, silent p tr (handler e)) ->
  adds_at_most p n tr (try_except c handler).
Proof.
  intros Hc Hh s. unfold try_except. destruct (Hc s) as (extra & Heq & Hlen).
  destruct (c s) as [s' [a|e]]; simpl in *.
  - exists extra. split; assumption.
  - exists extra. split; [|assumption]. now rewrite Hh.
Qed.

Lemma adds_try_finally {A} (c : M S A) (final : M S unit) n :
  adds_at_most p n tr c -> silent p tr final ->
  adds_at_most p n tr (try_finally c final).
Proof.
  intros Hc Hf s. unfold try_finally. destruct (Hc s) as (extra & Heq & Hlen).
  destruct (c s) as [s' r]. specialize (Hf s').
  exists extra. split; [|assumption].
  destruct (final s') as [s'' [u|e]]; simpl in *; congruence.
Qed.
End Generic.

Section Selected.
Variable p : effect -> bool.

Lemma adds_emit e : adds_at_most p 1 trace (emit e).
Proof.
  intros w. unfold emit, after. simpl. rewrite List.filter_app.
  eexists. split; [reflexivity|]. simpl. destruct (p e); simpl; lia.
Qed.

Lemma adds_in_world {A} (c : M world A) n :
  adds_at_most p n trace c -> adds_at_most p n scope_trace (in_world c).
Proof.
  intros Hc [r w]. unfold in_world, scope_trace. simpl.
  destruct (Hc w) as (extra & Heq & Hlen). exists extra.
  split; [|assumption]. now destruct (c w).
Qed.

Lemma adds_with_response {A} r (c : M scope A) n :
  adds_at_most p n scope_trace c -> adds_at_most p n trace (with_response r c).
Proof.
  intros Hc w. unfold with_response.
  destruct (Hc (r, w)) as (extra & Heq & Hlen). exists extra.
  split; [|assumption]. now destruct (c (r, w)).
Qed.

Lemma adds_call_register batch spec :
  adds_at_most p 1 trace (call_register batch spec).
Proof.
  unfold call_register. apply then_silent; [apply adds_emit|].
  intros _ w. reflexivity.
Qed.

Lemma adds_call_deregister batch id :
  adds_at_most p 1 trace (call_deregister batch id).
Proof.
  unfold call_deregister. apply then_silent; [apply adds_emit|].
  intros _. apply SilentFacts.silent_of_res.
Qed.

Hypothesis Hp : service_only p.

Lemma adds_create_or_update host batch event :
  adds_at_most p 1 scope_trace (create_or_update host batch event).
Proof.
  unfold create_or_update.
  repeat (apply silent_then;
          [ first [ apply SilentFacts.silent_of_res
                  | apply SilentFacts.silent_in_world;
                    first [ apply SilentFacts.silent_loads
                          | apply SilentFacts.silent_in_heap
                          | apply SilentFacts.silent_logger_info, Hp ] ]
          | intros ? ]).
  apply then_silent; [apply adds_in_world, adds_call_register|].
  intros result.
  repeat first
    [ apply SilentFacts.silent_of_res
    | apply SilentFacts.silent_update_response
    | apply SilentFacts.silent_bind; [|intros ?] ].
Qed.

Lemma adds_delete batch event :
  adds_at_most p 1 scope_trace (delete batch event).
Proof.
  unfold delete. apply adds_try_except.
  - apply silent_then; [apply SilentFacts.silent_of_res|]. intros id.
    assert (Hcall : adds_at_most p 1 scope_trace
                      (bind (in_world (call_deregister batch id)) (fun _ => ret tt))).
    { apply then_silent; [|intros _; apply SilentFacts.silent_ret].
      apply adds_in_world, adds_call_deregister. }
    destruct id; try exact Hcall.
    apply silent_adds, SilentFacts.silent_in_world, SilentFacts.silent_logger_warning, Hp.
  - intros _. apply SilentFacts.silent_in_world, SilentFacts.silent_logger_warning, Hp.
Qed.

Lemma adds_handler_body host batch event :
  adds_at_most p 1 scope_trace (handler_body host batch event).
Proof.
  unfold handler_body. apply silent_then; [apply SilentFacts.silent_of_res|].
  intros rt. destruct (is_create_or_update rt);
    [apply adds_create_or_update|apply adds_delete].
Qed.

(** the responder adds no service call to those of its block *)
Lemma adds_responder host event context no_echo body n :
  adds_at_most p n scope_trace body ->
  adds_at_most p n trace (responder host event context no_echo body).
Proof.
  intros Hbody. unfold responder.
  apply silent_then; [apply SilentFacts.silent_of_res|]. intros r.
  apply adds_with_response, adds_try_finally.
  - apply adds_try_except.
    + apply then_silent; [exact Hbody|]. intros _.
      apply SilentFacts.silent_bind;
        [apply SilentFacts.silent_in_world, SilentFacts.silent_logger_info, Hp|].
      intros _. apply SilentFacts.silent_update_response.
    + intros _. apply SilentFacts.silent_bind;
        [apply SilentFacts.silent_in_world, SilentFacts.silent_logger_exception, Hp|].
      intros _. apply SilentFacts.silent_update_response.
  - apply SilentFacts.silent_bind; [apply SilentFacts.silent_get_response|]. intros r1.
    apply SilentFacts.silent_bind;
      [apply SilentFacts.silent_in_world, SilentFacts.silent_logger_info, Hp|].
    intros _.
    apply SilentFacts.silent_bind; [apply SilentFacts.silent_of_res|]. intros url.
    apply SilentFacts.silent_bind; [apply SilentFacts.silent_get_response|]. intros r2.
    apply SilentFacts.silent_in_world, SilentFacts.silent_respond, Hp.
Qed.

Lemma adds_lambda_handler host event context :
  adds_at_most p 1 trace (lambda_handler host event context).
Proof.
  unfold lambda_handler.
  apply silent_then; [apply SilentFacts.silent_logger_info, Hp|]. intros _.
  apply silent_then; [apply SilentFacts.silent_of_res|]. intros batch.
  apply adds_responder, adds_handler_body.
Qed.
End Selected.

Lemma service_only_call : service_only is_service_call.
Proof. split; reflexivity. Qed.

Lemma create_or_update_cases rt :
  is_create_or_update rt = true -> rt = JStr "Create" \/ rt = JStr "Update".
Proof.
  destruct rt as [| | |t| |]; simpl; try discriminate.
  intros H. apply orb_true_iff in H as [H|H]; apply String.eqb_eq in H; subst; auto.
Qed.

End CountFacts.

(** ** [edit_spec]: errors, repetition and what stays as it was *)

(** X1. Without the REGION or the ACCT_NUM environment variable [edit_spec]
    raises KeyError for the first one that is missing (REGION when REGION
    is missing, also when both are; ACCT_NUM only when REGION is set), and
    every object of the store is as before: the caller's spec is
    untouched. *)
Theorem edit_spec_unconfigured
    (host : Host) (h : heap) (l : loc) (top : list (string * value))
    (lc : loc) (dc : list (string * value)) (le : loc) (es : list value)
    (wf_name step_name image : json) :
  has_environment h l top lc dc le es ->
  environ host !! "REGION" = None \/ environ host !! "ACCT_NUM" = None ->
  let run := edit_spec host (VRef l) wf_name step_name image h in
  outcome run
  = Raise (KeyError match environ host !! "REGION" with
                    | None => "REGION"
                    | Some _ => "ACCT_NUM"
                    end)
  /\ (forall x o, h !! x = Some o -> final run !! x = Some o).
Proof.
  intros Hshape Hmissing. cbv zeta.
  destruct (environ host !! "REGION") as [region|] eqn:Hreg.
  - destruct Hmissing as [Hm|Hacct]; [discriminate|].
    rewrite (EditSpecSteps.edit_spec_no_account host h l top lc dc le es
               wf_name step_name image Hshape region Hreg Hacct).
    split.
    + reflexivity.
    + intros x o Hx. now apply lookup_app_l_Some.
  - rewrite (EditSpecSteps.edit_spec_no_region host h l top lc dc le es
               wf_name step_name image Hshape Hreg).
    split.
    + reflexivity.
    + intros x o Hx. now apply lookup_app_l_Some.
Qed.

Lemma edit_spec_unconfigured_witness :
  let run host := edit_spec host (VRef Demo.spec_ref) (JStr "wf1") (JStr "step1")
                    Demo.image Demo.spec_store in
  (final (run Cases.bare) !! 1 = Some (OList [VRef 0])
   /\ outcome (run Cases.bare) = Raise (KeyError "REGION"))
  /\ outcome (run Cases.unconfigured) = Raise (KeyError "REGION")
  /\ outcome (run Cases.accountless) = Raise (KeyError "ACCT_NUM").
Proof.
  cbv zeta. split; [|split].
  - destruct (edit_spec_unconfigured Cases.bare Demo.spec_store Demo.spec_ref
                (top Demo.parts) 2 (cp Demo.parts) 1 [VRef 0]
                (JStr "wf1") (JStr "step1") Demo.image)
      as (Hout & Hsame).
    + repeat split; reflexivity.
    + left. vm_compute. reflexivity.
    + split; [apply Hsame; reflexivity|exact Hout].
  - refine (proj1 (edit_spec_unconfigured Cases.unconfigured Demo.spec_store Demo.spec_ref
                     (top Demo.parts) 2 (cp Demo.parts) 1 [VRef 0]
                     (JStr "wf1") (JStr "step1") Demo.image _ _)).
    + repeat split; reflexivity.
    + left. vm_compute. reflexivity.
  - refine (proj1 (edit_spec_unconfigured Cases.accountless Demo.spec_store Demo.spec_ref
                     (top Demo.parts) 2 (cp Demo.parts) 1 [VRef 0]
                     (JStr "wf1") (JStr "step1") Demo.image _ _)).
    + repeat split; reflexivity.
    + right. vm_compute. reflexivity.
Defined.

(** X2. A spec that has its environment and no [parameters] makes
    [edit_spec] raise KeyError only after the environment list, which it
    shares with the caller's spec, has got the four new entries. *)
Theorem edit_spec_fails_after_the_environment
    (host : Host) (h : heap) (l : loc) (top : list (string * value))
    (lc : loc) (dc : list (string * value)) (le : loc) (es : list value)
    (wf_name step_name image : json) (region acct : string) :
  has_environment h l top lc dc le es ->
  configured host region acct ->
  PyDict.get "parameters" top = None ->
  let run := edit_spec host (VRef l) wf_name step_name image h in
  outcome run = Raise (KeyError "parameters")
  /\ final run !! le = Some (OList (es ++ new_entries (length h))%list).
Proof.
  intros Hshape Hconf Hpar. cbv zeta.
  rewrite (EditSpecSteps.edit_spec_extends_first host h l top lc dc le es
             wf_name step_name image Hshape region acct Hconf).
  destruct Hshape as (Hl & Hcp & Hlc & Henv & Hle).
  pose proof (lookup_lt_Some _ _ _ Hle) as Ble.
  unfold edit_spec_rest.
  erewrite StoreFacts.bind_raise; cycle 1.
  { eapply EditSpecSteps.getitem_missing.
    - rewrite list_lookup_insert_ne by lia. now apply list_lookup_middle.
    - rewrite PyDictFacts.get_set_ne by discriminate. exact Hpar. }
  unfold final, outcome. simpl. split; [reflexivity|].
  apply list_lookup_insert_eq. rewrite length_app. lia.
Qed.

Lemma edit_spec_fails_after_the_environment_witness :
  let run := edit_spec Demo.host (VRef 3) (JStr "wf1") (JStr "step1")
               Demo.image Cases.store_without_parameters in
  outcome run = Raise (KeyError "parameters")
  /\ final run !! 0 = Some (OList [VRef 5; VRef 6; VRef 7; VRef 8]).
Proof.
  apply (edit_spec_fails_after_the_environment Demo.host Cases.store_without_parameters 3
           [("containerProperties", VRef 1); ("tags", VRef 2)]
           1 [("environment", VRef 0)] 0 []
           (JStr "wf1") (JStr "step1") Demo.image "us-east-1" "123456789012").
  - repeat split; reflexivity.
  - split; vm_compute; reflexivity.
  - reflexivity.
Defined.

(** X3. [edit_spec] is not idempotent on the environment: applied to its
    own output it appends the four entries once more, so that the list has
    them twice over. *)
Theorem edit_spec_twice_appends_twice
    (host : Host) (h : heap) (l : loc) (p : spec_parts)
    (wf_name step_name image : json) (region acct : string) :
  valid_spec h l p -> configured host region acct ->
  exists h1 h2,
    let n := length h in
    edit_spec host (VRef l) wf_name step_name image h = (h1, Ok (VRef n))
    /\ edit_spec host (VRef n) wf_name step_name image h1 = (h2, Ok (VRef (n + 5)))
    /\ h1 !! env_loc p = Some (OList (env p ++ new_entries n)%list)
    /\ h2 !! env_loc p
       = Some (OList (env p ++ new_entries n ++ new_entries (n + 5))%list).
Proof.
  intros Hv Hc.
  set (h1 := edited_store host h p wf_name step_name image region acct).
  pose proof (EditSpecFacts.edit_spec_run host h l p wf_name step_name image
                region acct Hv Hc) as Hrun1.
  pose proof (EditSpecFacts.edited_top host h l p wf_name step_name image region acct Hv)
    as Htop.
  pose proof (EditSpecFacts.edited_env host h l p wf_name step_name image region acct Hv)
    as Henv.
  pose proof (EditSpecFacts.edited_length host h p wf_name step_name image region acct)
    as Hlen.
  destruct (EditSpecFacts.edited_cp host h l p wf_name step_name image region acct Hv)
    as (cp' & Hcp' & Hgetenv).
  destruct (EditSpecFacts.edited_params host h l p wf_name step_name image region acct Hv)
    as (params' & Hparams' & _).
  destruct (EditSpecFacts.edited_tags host h l p wf_name step_name image region acct Hv)
    as (tags' & Htags' & _).
  fold h1 in Hrun1, Htop, Henv, Hlen, Hcp', Hparams', Htags'.
  set (p1 := {| top := PyDict.set "jobDefinitionName"
                         (VStr (fmt host wf_name ++ "_" ++ fmt host step_name)) (top p);
                cp_loc := cp_loc p; cp := cp';
                env_loc := env_loc p; env := (env p ++ new_entries (length h))%list;
                params_loc := params_loc p; params := params';
                tags_loc := tags_loc p; tags := tags' |}).
  assert (Hv1 : valid_spec h1 (length h) p1).
  { destruct Hv as (_ & Hgcp & _ & _ & _ & Hgpar & _ & Hgtag & _).
    unfold valid_spec, p1. simpl.
    rewrite !PyDictFacts.get_set_ne by discriminate.
    repeat split; assumption. }
  pose proof (EditSpecFacts.edit_spec_run host h1 (length h) p1 wf_name step_name image
                region acct Hv1 Hc) as Hrun2.
  pose proof (EditSpecFacts.edited_env host h1 (length h) p1 wf_name step_name image
                region acct Hv1) as Henv2.
  exists h1, (edited_store host h1 p1 wf_name step_name image region acct). cbv zeta.
  split; [exact Hrun1|]. split; [now rewrite Hrun2, Hlen|]. split; [exact Henv|].
  etransitivity; [exact Henv2|]. unfold p1. cbn [env].
  now rewrite Hlen, <- app_assoc.
Qed.

Lemma edit_spec_twice_appends_twice_witness :
  exists h1 h2,
    edit_spec Demo.host (VRef Demo.spec_ref) (JStr "wf1") (JStr "step1")
      Demo.image Demo.spec_store = (h1, Ok (VRef 6))
    /\ edit_spec Demo.host (VRef 6) (JStr "wf1") (JStr "step1") Demo.image h1
       = (h2, Ok (VRef 11))
    /\ h2 !! 1 = Some (OList [VRef 0; VRef 7; VRef 8; VRef 9; VRef 10;
                              VRef 12; VRef 13; VRef 14; VRef 15]).
Proof.
  destruct (edit_spec_twice_appends_twice Demo.host Demo.spec_store Demo.spec_ref
              Demo.parts (JStr "wf1") (JStr "step1") Demo.image
              "us-east-1" "123456789012")
    as (h1 & h2 & Hrun1 & Hrun2 & _ & Henv).
  - repeat split; reflexivity.
  - split; vm_compute; reflexivity.
  - exists h1, h2. repeat split; assumption.
Defined.

(** X4. [edit_spec] returns a record that did not exist before, and the
    caller's own record keeps exactly the items it had: in particular it
    does not get the [jobDefinitionName]. *)
Theorem edit_spec_keeps_the_top_level
    (host : Host) (h : heap) (l : loc) (p : spec_parts)
    (wf_name step_name image : json) (region acct : string) :
  valid_spec h l p -> configured host region acct ->
  l <> params_loc p -> l <> tags_loc p ->
  let run := edit_spec host (VRef l) wf_name step_name image h in
  outcome run = Ok (VRef (length h))
  /\ h !! length h = None
  /\ final run !! l = Some (ODict (top p))
  /\ read (final run) (VRef l) "jobDefinitionName"
     = read h (VRef l) "jobDefinitionName".
Proof.
  intros Hv Hc N1 N2. cbv zeta.
  destruct (EditSpecFacts.edit_spec_shares_nested host h l p wf_name step_name image
              region acct Hv Hc N1 N2) as (Hl' & _).
  rewrite (EditSpecFacts.edit_spec_run host h l p wf_name step_name image
             region acct Hv Hc) in *.
  split; [reflexivity|]. split; [now apply lookup_ge_None_2|].
  split; [exact Hl'|].
  destruct Hv as (Hl & _).
  unfold final, fst in *. unfold read, Py.getitem. rewrite Hl', Hl.
  now destruct (PyDict.get "jobDefinitionName" (top p)).
Qed.

Lemma edit_spec_keeps_the_top_level_witness :
  let run := edit_spec Demo.host (VRef Demo.spec_ref) (JStr "wf1") (JStr "step1")
               Demo.image Demo.spec_store in
  outcome run = Ok (VRef 6)
  /\ read (final run) (VRef Demo.spec_ref) "jobDefinitionName" = None
  /\ read (final run) (VRef 6) "jobDefinitionName" = Some (VStr "wf1_step1").
Proof.
  destruct (edit_spec_keeps_the_top_level Demo.host Demo.spec_store Demo.spec_ref
              Demo.parts (JStr "wf1") (JStr "step1") Demo.image
              "us-east-1" "123456789012")
    as (Hout & _ & _ & Hname).
  - repeat split; reflexivity.
  - split; vm_compute; reflexivity.
  - discriminate.
  - discriminate.
  - cbv zeta. split; [exact Hout|]. split.
    + etransitivity; [exact Hname|]. reflexivity.
    + vm_compute. reflexivity.
Defined.

(** X5. A spec that [json.loads] parsed to something other than an object
    (a list, a string, a number, a boolean or null) makes [edit_spec]
    raise TypeError or AttributeError at its first two statements, and no
    object of the store is changed. *)
Theorem edit_spec_rejects_other_documents
    (host : Host) (doc : json) (h : heap) (wf_name step_name image : json) :
  not_an_object doc = true ->
  exists h0 spec0 added e,
    Py.alloc doc h = (h0, Ok spec0)
    /\ edit_spec host spec0 wf_name step_name image h0 = ((h0 ++ added)%list, Raise e)
    /\ (e = TypeError \/ e = AttributeError).
Proof.
  intros Hdoc.
  destruct doc as [ | b | n | s | items | fields ]; try discriminate.
  1-4: eexists h, _, [], AttributeError; rewrite app_nil_r;
       split; [reflexivity|]; split; [reflexivity|]; now right.
  destruct (AllocFacts.alloc_items_run items h) as (ext & vs & Hitems & _).
  exists ((h ++ ext) ++ [OList vs])%list, (VRef (length (h ++ ext)%list)),
    [OList vs], TypeError.
  split.
  { simpl. now rewrite (StoreFacts.bind_ok _ _ _ _ _ Hitems). }
  split; [|now left].
  unfold edit_spec.
  erewrite StoreFacts.bind_ok by (apply StoreFacts.copy_ref; apply StoreFacts.lookup_new).
  erewrite StoreFacts.bind_raise; [reflexivity|].
  unfold Py.setitem. now rewrite StoreFacts.lookup_new.
Qed.

Lemma edit_spec_rejects_other_documents_witness :
  exists e,
    outcome (edit_spec Demo.host (VRef 0) (JStr "wf1") (JStr "step1") Demo.image
               [OList [VJson (JInt 1)]])
    = Raise e.
Proof.
  destruct (edit_spec_rejects_other_documents Demo.host (JList [JInt 1]) []
              (JStr "wf1") (JStr "step1") Demo.image eq_refl)
    as (h0 & spec0 & added & e & Halloc & Hrun & _).
  injection Halloc as <- <-. exists e. now rewrite Hrun.
Defined.

(** ** The envelope, the callback and the service calls *)

(** X6. [return_this] puts every keyword argument into Data: afterwards
    each argument is found under its name, the other keys of Data read as
    before, the keys stay distinct, and each of the seven other fields of
    the envelope is what it was. *)
Theorem return_this_updates_data (kwargs : list (string * json)) (r : Response) :
  List.NoDup (PyDict.keys kwargs) ->
  let r' := return_this kwargs r in
  (forall k v, In (k, v) kwargs -> PyDict.get k (Data r') = Some v)
  /\ (forall k, ~ In k (PyDict.keys kwargs) ->
                PyDict.get k (Data r') = PyDict.get k (Data r))
  /\ (List.NoDup (PyDict.keys (Data r)) -> List.NoDup (PyDict.keys (Data r')))
  /\ PhysicalResourceId r' = PhysicalResourceId r
  /\ StackId r' = StackId r
  /\ RequestId r' = RequestId r
  /\ LogicalResourceId r' = LogicalResourceId r
  /\ Status r' = Status r
  /\ Reason r' = Reason r
  /\ NoEcho r' = NoEcho r.
Proof.
  intros Hnd. cbv zeta. unfold return_this.
  cbn [Data PhysicalResourceId StackId RequestId LogicalResourceId Status Reason NoEcho].
  split; [|split; [|split]].
  - intros k v Hin. now apply DataFacts.update_get.
  - intros k Hk. now apply DataFacts.update_get_other.
  - apply DataFacts.update_NoDup.
  - repeat split.
Qed.

Lemma return_this_updates_data_witness :
  let r := return_this [("Arn", Demo.arn); ("Revision", JInt 7)]
             (Demo.envelope JNull "FAILED" "" [("Arn", JStr "arn:old"); ("Name", JStr "wf1_step1")]) in
  PyDict.get "Arn" (Data r) = Some Demo.arn
  /\ PyDict.get "Revision" (Data r) = Some (JInt 7)
  /\ PyDict.get "Name" (Data r) = Some (JStr "wf1_step1").
Proof.
  destruct (return_this_updates_data [("Arn", Demo.arn); ("Revision", JInt 7)]
              (Demo.envelope JNull "FAILED" "" [("Arn", JStr "arn:old"); ("Name", JStr "wf1_step1")]))
    as (Hget & Hother & _).
  - simpl. repeat constructor; simpl; intros H; intuition discriminate.
  - cbv zeta. split; [|split].
    + apply Hget. simpl. auto.
    + apply Hget. simpl. auto.
    + etransitivity; [apply Hother|reflexivity].
      simpl. intros H. intuition discriminate.
Defined.

(** X7. [respond] sends one request or none, and which one is settled by
    the URL.  For a URL that parses with a host name from which a
    connection can be constructed, exactly one PUT with the serialized body
    goes to that host and the path-and-query of the URL, and [respond]
    ends the way that request ends.  In every other case nothing is sent
    and nothing changes: a host name that the constructor rejects raises
    what the constructor raises, a URL without a host name and a URL that
    is not a string raise AttributeError, and a URL that does not parse
    raises what [urlparse] raises.  No object is changed in any case. *)
Theorem respond_sends_once_or_raises (host : Host) (url body : json) (w : world) :
  let run := respond host url body w in
  let text := Json.dumps_default body in
  (forall u o hst,
      url = JStr u -> urlparse host u = Ok o -> hostname o = Some hst ->
      let target := path o ++ "?" ++ query o in
      (https_connection host hst = Ok tt ->
       run = (after w (HttpsPut hst target text), https_request host hst target text))
      /\ (forall e, https_connection host hst = Raise e -> run = (w, Raise e)))
  /\ (forall u o,
        url = JStr u -> urlparse host u = Ok o -> hostname o = None ->
        run = (w, Raise AttributeError))
  /\ (forall u e, url = JStr u -> urlparse host u = Raise e -> run = (w, Raise e))
  /\ ((forall u, url <> JStr u) -> run = (w, Raise AttributeError))
  /\ store (final run) = store w.
Proof.
  cbv zeta. split; [|split; [|split; [|split]]].
  - intros u o hst -> Hparse Hhost. split.
    + intros Hconn.
      unfold respond, bind, of_res, HTTPSConnection, bind, of_res, emit, ret.
      rewrite Hparse, Hhost, Hconn. reflexivity.
    + intros e Hconn.
      unfold respond, bind, of_res, HTTPSConnection, bind, of_res.
      rewrite Hparse, Hhost, Hconn. reflexivity.
  - intros u o -> Hparse Hhost.
    unfold respond, bind, of_res, HTTPSConnection, raise.
    rewrite Hparse, Hhost. reflexivity.
  - intros u e -> Hparse. unfold respond, bind, of_res. now rewrite Hparse.
  - intros Hurl. destruct url as [| | |u| |]; try reflexivity.
    now destruct (Hurl u).
  - apply EnvelopeFacts.respond_store.
Qed.

Lemma respond_sends_once_or_raises_witness :
  let body := asdict (Cases.envelope0 JNull) in
  respond Demo.host (JStr Demo.url) body Demo.start
  = ({| store := [];
        trace := [HttpsPut "cfn.example.com" "/callback?sig=abc" (Json.dumps_default body)] |},
     Ok tt)
  /\ respond Cases.literal (JStr Cases.url6) body Demo.start
     = (Demo.start, Raise InvalidURL)
  /\ respond Demo.host JNull body Demo.start = (Demo.start, Raise AttributeError).
Proof.
  cbv zeta. split; [|split].
  - destruct (respond_sends_once_or_raises Demo.host (JStr Demo.url)
                (asdict (Cases.envelope0 JNull)) Demo.start) as (Hparsed & _).
    exact (proj1 (Hparsed Demo.url
                    {| hostname := Some "cfn.example.com";
                       path := "/callback"; query := "sig=abc" |}
                    "cfn.example.com" eq_refl eq_refl eq_refl) eq_refl).
  - destruct (respond_sends_once_or_raises Cases.literal (JStr Cases.url6)
                (asdict (Cases.envelope0 JNull)) Demo.start) as (Hparsed & _).
    exact (proj2 (Hparsed Cases.url6
                    {| hostname := Some "fe80::abcd";
                       path := "/callback"; query := "sig=abc" |}
                    "fe80::abcd" eq_refl eq_refl eq_refl) InvalidURL eq_refl).
  - destruct (respond_sends_once_or_raises Demo.host JNull
                (asdict (Cases.envelope0 JNull)) Demo.start)
      as (_ & _ & _ & Hother & _).
    apply Hother. discriminate.
Defined.

(** X8. Once the envelope exists and the ResponseURL parses with a host
    name, an invocation ends the way the delivery of the callback ends.
    When a connection can be constructed from the host name, the last two
    effects are the log record and the PUT of one envelope, and the outcome
    of [lambda_handler] is the outcome of that PUT: a failure of the
    request's own work never leaves the handler, and a failure of the
    delivery always does.  When the constructor rejects the host name, what
    it raises leaves the handler and no PUT is added. *)
Theorem invocation_ends_as_the_delivery
    (host : Host) (event : json) (context : Context) (batch : Batch)
    (r0 : Response) (hst target : string) (w : world) :
  boto3_client_batch host = Ok batch ->
  new_response event false = Ok r0 ->
  located host event hst target ->
  let run := lambda_handler host event context w in
  (https_connection host hst = Ok tt ->
   exists earlier r,
     trace (final run) = (earlier ++ delivery hst target r)%list
     /\ outcome run = https_request host hst target (Json.dumps_default (asdict r)))
  /\ (forall e,
        https_connection host hst = Raise e ->
        outcome run = Raise e
        /\ puts (trace (final run)) = puts (trace w)).
Proof.
  intros Hclient Hnew Hloc. cbv zeta.
  rewrite (SilentFacts.lambda_handler_run _ _ _ _ _ Hclient). unfold with_block.
  split.
  - intros Hconn.
    pose proof (EnvelopeFacts.located_addressed _ _ _ _ Hloc Hconn) as Haddr.
    rewrite (ScopeFacts.responder_delivers _ _ _ _ _ _ _ _ _ Hnew Haddr).
    cbv zeta. unfold final at 1, outcome at 1. cbn [fst snd trace].
    eexists (_ ++ [_])%list, _. split; [|reflexivity].
    rewrite <- app_assoc. reflexivity.
  - intros e Hconn.
    rewrite (EnvelopeFacts.responder_undelivered _ _ _ _ _ _ _ _ _ _ Hnew Hloc Hconn).
    cbv zeta. split; [reflexivity|].
    unfold final at 1, fst at 1, puts. cbn [trace].
    rewrite QuietFacts.callbacks_app.
    pose proof (QuietFacts.quiet_handler_body host batch event
                  (r0, after w (Log INFO "event=" [VJson event]))) as Hq.
    unfold scope_trace in Hq. unfold final. rewrite Hq. cbn [snd].
    rewrite QuietFacts.callbacks_after.
    destruct (outcome _); cbn; now rewrite !app_nil_r.
Qed.

Lemma invocation_ends_as_the_delivery_witness :
  outcome (lambda_handler Cases.offline Demo.create Demo.context Demo.start)
  = Raise (OSError "connection refused")
  /\ outcome (lambda_handler Demo.host Demo.create_without_spec Demo.context Demo.start)
     = Ok tt
  /\ (outcome (lambda_handler Cases.literal Cases.delete_at_literal Demo.context Demo.start)
      = Raise InvalidURL
      /\ puts (trace (final (lambda_handler Cases.literal Cases.delete_at_literal
                               Demo.context Demo.start))) = 0).
Proof.
  split; [|split].
  - destruct (invocation_ends_as_the_delivery Cases.offline Demo.create Demo.context
                Demo.batch (Cases.envelope0 JNull) "cfn.example.com" "/callback?sig=abc"
                Demo.start eq_refl eq_refl)
      as (Hsent & _).
    + exists Demo.url. eexists. repeat split; reflexivity.
    + destruct (Hsent eq_refl) as (earlier & r & _ & Hout). exact Hout.
  - destruct (invocation_ends_as_the_delivery Demo.host Demo.create_without_spec
                Demo.context Demo.batch (Cases.envelope0 JNull) "cfn.example.com"
                "/callback?sig=abc" Demo.start eq_refl eq_refl)
      as (Hsent & _).
    + exists Demo.url. eexists. repeat split; reflexivity.
    + destruct (Hsent eq_refl) as (earlier & r & _ & Hout). exact Hout.
  - destruct (invocation_ends_as_the_delivery Cases.literal Cases.delete_at_literal
                Demo.context Demo.batch (Cases.envelope0 JNull) "fe80::abcd"
                "/callback?sig=abc" Demo.start eq_refl eq_refl)
      as (_ & Hrejected).
    + exists Cases.url6. eexists. repeat split; reflexivity.
    + exact (Hrejected InvalidURL eq_refl).
Defined.

(** X9. When the Batch client cannot be created, the exception leaves
    [lambda_handler] before the responder is entered: the event is logged,
    nothing else happens, and no callback is sent. *)
Theorem no_client_no_callback
    (host : Host) (event : json) (context : Context) (e : exn) (w : world) :
  boto3_client_batch host = Raise e ->
  let run := lambda_handler host event context w in
  outcome run = Raise e
  /\ trace (final run) = (trace w ++ [Log INFO "event=" [VJson event]])%list
  /\ store (final run) = store w
  /\ puts (trace (final run)) = puts (trace w).
Proof.
  intros Hclient. cbv zeta.
  rewrite (SilentFacts.lambda_handler_no_client _ _ _ _ _ Hclient).
  repeat split. unfold final, fst, puts.
  rewrite QuietFacts.callbacks_after. simpl. now rewrite app_nil_r.
Qed.

Lemma no_client_no_callback_witness :
  outcome (lambda_handler Cases.clientless Demo.create Demo.context Demo.start)
  = Raise (ClientError "no region")
  /\ puts (trace (final (lambda_handler Cases.clientless Demo.create Demo.context
                           Demo.start))) = 0.
Proof.
  destruct (no_client_no_callback Cases.clientless Demo.create Demo.context
              (ClientError "no region") Demo.start eq_refl)
    as (Hout & _ & _ & Hputs).
  split; [exact Hout|exact Hputs].
Defined.

(** X10. A Create or an Update never deregisters: whatever the event holds
    besides its request type and however the invocation ends, it adds no
    deregister call to the trace. *)
Theorem create_never_deregisters
    (host : Host) (event : json) (context : Context) (w : world) :
  Py.subscript event "RequestType" = Ok (JStr "Create")
  \/ Py.subscript event "RequestType" = Ok (JStr "Update") ->
  List.filter is_deregister (trace (final (lambda_handler host event context w)))
  = List.filter is_deregister (trace w).
Proof.
  intros Htype.
  apply (SilentFacts.silent_lambda_handler is_deregister host event context
           SilentFacts.service_only_deregister).
  intros batch s.
  assert (Hbody : handler_body host batch event s = create_or_update host batch event s).
  { destruct Htype as [Ht|Ht];
      now rewrite (DispatchFacts.handler_body_dispatch _ _ _ _ _ Ht). }
  rewrite Hbody.
  now apply SilentFacts.silent_create_or_update.
Qed.

Lemma create_never_deregisters_witness :
  List.filter is_deregister
    (trace (final (lambda_handler Demo.host Cases.update Demo.context Demo.start)))
  = [].
Proof.
  apply (create_never_deregisters Demo.host Cases.update Demo.context Demo.start).
  right. reflexivity.
Defined.

(** X11. Only a Create and an Update register.  When the request type is
    neither (a Delete, any other value, or no request type at all), the
    invocation adds no register call to the trace and leaves every object
    of the store as it was. *)
Theorem only_create_and_update_register
    (host : Host) (event : json) (context : Context) (w : world) :
  Py.subscript event "RequestType" <> Ok (JStr "Create") ->
  Py.subscript event "RequestType" <> Ok (JStr "Update") ->
  let run := lambda_handler host event context w in
  List.filter is_register (trace (final run)) = List.filter is_register (trace w)
  /\ store (final run) = store w.
Proof.
  intros Hcreate Hupdate. cbv zeta.
  assert (Hbody : forall batch s,
             handler_body host batch event s = delete batch event s
             \/ exists e, handler_body host batch event s = (s, Raise e)).
  { intros batch s.
    destruct (Py.subscript event "RequestType") as [rt|e] eqn:Ht.
    - left. rewrite (DispatchFacts.handler_body_dispatch _ _ _ _ _ Ht).
      destruct (is_create_or_update rt) eqn:Hrt; [|reflexivity].
      destruct (CountFacts.create_or_update_cases rt Hrt); subst; congruence.
    - right. exists e. unfold handler_body, bind, of_res. now rewrite Ht. }
  split.
  - apply (SilentFacts.silent_lambda_handler is_register host event context
             SilentFacts.service_only_register).
    intros batch s. destruct (Hbody batch s) as [->|(e & ->)]; [|reflexivity].
    now apply SilentFacts.silent_delete.
  - destruct (boto3_client_batch host) as [batch|e] eqn:Hclient.
    + rewrite (SilentFacts.lambda_handler_run _ _ _ _ _ Hclient). unfold with_block.
      destruct (new_response event false) as [r0|e] eqn:Hnew.
      * destruct (EnvelopeFacts.responder_passes_on is_register host event context false
                    (handler_body host batch event)
                    (after w (Log INFO "event=" [VJson event])) r0
                    SilentFacts.service_only_register Hnew) as [Hstore _].
        rewrite Hstore.
        destruct (Hbody batch (r0, after w (Log INFO "event=" [VJson event])))
          as [->|(e & ->)]; [|reflexivity].
        destruct (EnvelopeFacts.delete_returns batch event r0
                    (after w (Log INFO "event=" [VJson event])))
          as (w' & -> & Hw').
        exact Hw'.
      * now rewrite (ResponderFacts.responder_not_entered _ _ _ _ _ _ _ Hnew).
    + now rewrite (SilentFacts.lambda_handler_no_client _ _ _ _ _ Hclient).
Qed.

Lemma only_create_and_update_register_witness :
  let run := lambda_handler Demo.host Demo.delete_known Demo.context
               {| store := Demo.spec_store; trace := [] |} in
  List.filter is_register (trace (final run)) = []
  /\ store (final run) = Demo.spec_store.
Proof.
  apply (only_create_and_update_register Demo.host Demo.delete_known Demo.context
           {| store := Demo.spec_store; trace := [] |}).
  - vm_compute. discriminate.
  - vm_compute. discriminate.
Defined.

(** X12. The callback echoes the request: the envelope that is delivered
    at the end of an invocation carries the StackId, the RequestId and the
    LogicalResourceId of the event, and NoEcho false, whatever the request
    did in between. *)
Theorem callback_echoes_the_request
    (host : Host) (event : json) (context : Context) (batch : Batch)
    (r0 : Response) (hst target : string) (w : world) :
  boto3_client_batch host = Ok batch ->
  new_response event false = Ok r0 ->
  addressed host event hst target ->
  exists earlier r,
    trace (final (lambda_handler host event context w))
    = (earlier ++ delivery hst target r)%list
    /\ Py.subscript event "StackId" = Ok (StackId r)
    /\ Py.subscript event "RequestId" = Ok (RequestId r)
    /\ Py.subscript event "LogicalResourceId" = Ok (LogicalResourceId r)
    /\ NoEcho r = false.
Proof.
  intros Hclient Hnew Haddr.
  rewrite (SilentFacts.lambda_handler_run _ _ _ _ _ Hclient). unfold with_block.
  rewrite (ScopeFacts.responder_delivers _ _ _ _ _ _ _ _ _ Hnew Haddr).
  cbv zeta. unfold final at 1. cbn [fst trace].
  destruct (EnvelopeFacts.new_response_identity _ _ _ Hnew) as (Hstack & Hreq & Hlog).
  destruct (ScopeFacts.new_response_fields _ _ _ Hnew) as (_ & _ & _ & Hecho & _).
  destruct (handler_body host batch event (r0, after w (Log INFO "event=" [VJson event])))
    as [[r1 w1] ended] eqn:Hbody.
  eexists (_ ++ [_])%list, _. split; [rewrite <- app_assoc; reflexivity|].
  unfold final, outcome. cbn [fst snd].
  destruct (EnvelopeFacts.handler_body_envelope _ _ _ _ _ _ _ _ Hbody)
    as [(e & -> & ->)|(-> & [->|(arn & ->)])]; cbn; auto.
Qed.

Lemma callback_echoes_the_request_witness :
  exists earlier r,
    trace (final (lambda_handler Demo.host Demo.create Demo.context Demo.start))
    = (earlier ++ Demo.delivered r)%list
    /\ StackId r = JStr "stack-1"
    /\ RequestId r = JStr "request-1"
    /\ LogicalResourceId r = JStr "JobDef".
Proof.
  destruct (callback_echoes_the_request Demo.host Demo.create Demo.context Demo.batch
              (Cases.envelope0 JNull) "cfn.example.com" "/callback?sig=abc" Demo.start
              eq_refl eq_refl)
    as (earlier & r & Htrace & Hstack & Hreq & Hlog & _).
  - exists Demo.url. eexists. repeat split; reflexivity.
  - exists earlier, r. split; [exact Htrace|].
    assert (H1 : Ok (StackId r) = Ok (JStr "stack-1")) by (now rewrite <- Hstack).
    assert (H2 : Ok (RequestId r) = Ok (JStr "request-1")) by (now rewrite <- Hreq).
    assert (H3 : Ok (LogicalResourceId r) = Ok (JStr "JobDef")) by (now rewrite <- Hlog).
    injection H1 as H1. injection H2 as H2. injection H3 as H3.
    repeat split; assumption.
Defined.

(** X13. The status of the callback follows the block of the [with]
    statement and nothing else.  When the block returns, the envelope
    delivered has Status SUCCESS and an empty Reason; when it raises, the
    envelope has Status FAILED, the Reason that points to the log, no Data,
    and the PhysicalResourceId that the event came with (none for a
    Create): a failed Create or Update reports no half-made resource. *)
Theorem status_follows_the_block
    (host : Host) (batch : Batch) (event : json) (context : Context)
    (r0 : Response) (hst target : string) (w : world) :
  new_response event false = Ok r0 ->
  addressed host event hst target ->
  let block := handler_body host batch event (r0, w) in
  exists r,
    trace (final (with_block host batch event context w))
    = (trace (snd (final block)) ++ exit_log (outcome block) :: delivery hst target r)%list
    /\ ((outcome block = Ok tt /\ Status r = "SUCCESS" /\ Reason r = "")
        \/ ((exists e, outcome block = Raise e)
            /\ Status r = "FAILED"
            /\ Reason r = diagnostic context
            /\ Data r = []
            /\ Py.get event "PhysicalResourceId" = Ok (PhysicalResourceId r))).
Proof.
  intros Hnew Haddr. cbv zeta. unfold with_block.
  rewrite (ScopeFacts.responder_delivers _ _ _ _ _ _ _ _ _ Hnew Haddr).
  cbv zeta. unfold final at 1. cbn [fst trace].
  destruct (ScopeFacts.new_response_fields _ _ _ Hnew)
    as (Hstatus & Hreason & Hdata & _ & Hphys).
  destruct (handler_body host batch event (r0, w)) as [[r1 w1] ended] eqn:Hbody.
  eexists. split; [reflexivity|].
  unfold final, outcome. cbn [fst snd].
  destruct (EnvelopeFacts.handler_body_envelope _ _ _ _ _ _ _ _ Hbody)
    as [(e & -> & ->)|(-> & [->|(arn & ->)])]; cbn.
  - right. split; [now exists e|]. auto.
  - left. auto.
  - left. auto.
Qed.

Lemma status_follows_the_block_witness :
  exists earlier r,
    trace (final (with_block Demo.host Cases.rejecting Cases.update Demo.context Demo.start))
    = (earlier ++ Log ERROR "failed: " [] :: Demo.delivered r)%list
    /\ Status r = "FAILED"
    /\ Data r = []
    /\ PhysicalResourceId r = JStr "arn:old".
Proof.
  destruct (status_follows_the_block Demo.host Cases.rejecting Cases.update Demo.context
              (Cases.envelope0 (JStr "arn:old")) "cfn.example.com" "/callback?sig=abc"
              Demo.start eq_refl)
    as (r & Htrace & [(Hok & _)|(_ & Hstatus & _ & Hdata & Hphys)]).
  - exists Demo.url. eexists. repeat split; reflexivity.
  - vm_compute in Hok. discriminate.
  - eexists. exists r. split; [exact Htrace|].
    assert (H1 : Ok (PhysicalResourceId r) = Ok (JStr "arn:old"))
      by (now rewrite <- Hphys).
    injection H1 as H1. repeat split; assumption.
Defined.

(** X14. What the Batch service is asked to register is the edited spec.
    For a Create or Update whose properties are there, whose spec parses to
    a document with an environment, parameters and tags, and with the two
    environment variables set, the invocation makes exactly one register
    call, whatever the service answers; its argument is a mapping that
    reads, in the store that the call finds, the name made of the workflow
    and the step, the canonical serialization of the image under
    parameters, the workflow under tags, and an environment that ends with
    the four new entries. *)
Theorem the_edited_spec_is_registered
    (host : Host) (event : json) (context : Context) (batch : Batch) (r0 : Response)
    (w : world) (props : json) (text : string) (doc wf_name step_name image : json)
    (region acct : string) :
  boto3_client_batch host = Ok batch ->
  new_response event false = Ok r0 ->
  Py.subscript event "RequestType" = Ok (JStr "Create")
  \/ Py.subscript event "RequestType" = Ok (JStr "Update") ->
  Py.subscript event "ResourceProperties" = Ok props ->
  Py.subscript props "spec" = Ok (JStr text) ->
  json_loads host text = Ok doc ->
  spec_document doc ->
  Py.subscript props "workflowName" = Ok wf_name ->
  Py.subscript props "stepName" = Ok step_name ->
  Py.subscript props "image" = Ok image ->
  configured host region acct ->
  let run := lambda_handler host event context w in
  let st := store (final run) in
  exists spec,
    List.filter is_register (trace (final run))
    = (List.filter is_register (trace w) ++ [RegisterJobDefinition spec])%list
    /\ read st spec "jobDefinitionName"
       = Some (VStr (fmt host wf_name ++ "_" ++ fmt host step_name))
    /\ parameters_image st spec = Some (VStr (Json.dumps_canonical image))
    /\ (exists tags_,
          read st spec "tags" = Some tags_
          /\ read st tags_ "bclaw:workflow" = Some (VJson wf_name))
    /\ (exists cp_ env_ before n,
          read st spec "containerProperties" = Some cp_
          /\ read st cp_ "environment" = Some (VRef env_)
          /\ st !! env_ = Some (OList (before ++ new_entries n)%list)
          /\ st !! (n + 1) = Some (name_value "BC_WORKFLOW_NAME" (VJson wf_name))
          /\ st !! (n + 2) = Some (name_value "BC_STEP_NAME" (VJson step_name))
          /\ st !! (n + 3) = Some (name_value "AWS_DEFAULT_REGION" (VStr region))
          /\ st !! (n + 4) = Some (name_value "AWS_ACCOUNT_ID" (VStr acct))).
Proof.
  intros Hclient Hnew Htype Hprops Htext Hloads Hdoc Hwf Hstep Himage Hconf. cbv zeta.
  rewrite (SilentFacts.lambda_handler_run _ _ _ _ _ Hclient). unfold with_block.
  remember (after w (Log INFO "event=" [VJson event])) as w0 eqn:Hw0.
  destruct (EnvelopeFacts.responder_passes_on is_register host event context false
              (handler_body host batch event) w0 r0
              SilentFacts.service_only_register Hnew) as [Hstore Hcalls].
  rewrite Hstore, Hcalls.
  assert (Hbody : handler_body host batch event (r0, w0)
                  = create_or_update host batch event (r0, w0)).
  { destruct Htype as [Ht|Ht];
      now rewrite (DispatchFacts.handler_body_dispatch _ _ _ _ _ Ht). }
  rewrite Hbody.
  destruct (RegisterFacts.create_or_update_reaches_register host batch event r0 w0
              props text doc wf_name step_name image region acct
              Hprops Htext Hloads Hdoc Hwf Hstep Himage Hconf)
    as (h0 & l & p & Hvalid & Hfinal).
  cbv zeta in Hfinal. rewrite Hfinal. cbn [snd store trace].
  destruct (RegisterFacts.edited_reads host h0 l p wf_name step_name image region acct Hvalid)
    as (Hname & Himg & Htags & Htag & Hcp & Henv).
  destruct (EditSpecFacts.edited_entries host h0 l p wf_name step_name image region acct Hvalid)
    as (H1 & H2 & H3 & H4).
  exists (VRef (length h0)). split; [|split; [|split; [|split]]].
  - subst w0. unfold after. cbn [trace].
    rewrite !List.filter_app. cbn. now rewrite app_nil_r.
  - exact Hname.
  - exact Himg.
  - exists (VRef (tags_loc p)). split; assumption.
  - exists (VRef (cp_loc p)), (env_loc p), (env p), (length h0).
    repeat split; try assumption.
    apply (EditSpecFacts.edited_env host h0 l p wf_name step_name image region acct Hvalid).
Qed.

Lemma the_edited_spec_is_registered_witness :
  let run := lambda_handler Demo.host Demo.create Demo.context Demo.start in
  exists spec,
    List.filter is_register (trace (final run)) = [RegisterJobDefinition spec]
    /\ read (store (final run)) spec "jobDefinitionName" = Some (VStr "wf1_step1")
    /\ parameters_image (store (final run)) spec
       = Some (VStr (Json.dumps_canonical Demo.image)).
Proof.
  destruct (the_edited_spec_is_registered Demo.host Demo.create Demo.context Demo.batch
              (Cases.envelope0 JNull) Demo.start Demo.properties
              (Json.dumps_default Demo.spec) Demo.spec (JStr "wf1") (JStr "step1")
              Demo.image "us-east-1" "123456789012" eq_refl eq_refl)
    as (spec & Hcalls & Hname & Himg & _).
  - left. reflexivity.
  - reflexivity.
  - reflexivity.
  - reflexivity.
  - do 5 eexists. repeat split; reflexivity.
  - reflexivity.
  - reflexivity.
  - reflexivity.
  - split; vm_compute; reflexivity.
  - cbv zeta. exists spec. split; [exact Hcalls|]. split; [exact Hname|exact Himg].
Defined.

(** X15. An invocation calls the Batch service at most once: to the
    register and deregister calls that the trace held before, any event
    and any course of the invocation add one call or none. *)
Theorem at_most_one_service_call
    (host : Host) (event : json) (context : Context) (w : world) :
  exists calls,
    List.filter is_service_call (trace (final (lambda_handler host event context w)))
    = (List.filter is_service_call (trace w) ++ calls)%list
    /\ length calls <= 1.
Proof.
  exact (CountFacts.adds_lambda_handler is_service_call CountFacts.service_only_call
           host event context w).
Qed.

(** X16. Nothing is registered that was not parsed and edited.  If an
    invocation adds a register call, the request is a Create or an Update
    with all four properties, the spec text was parsed, [edit_spec]
    returned on the parsed document, and the one call that was added has
    the result of [edit_spec] as its argument, in the store that
    [edit_spec] left. *)
Theorem registration_needs_an_edited_spec
    (host : Host) (event : json) (context : Context) (w : world) :
  List.filter is_register (trace (final (lambda_handler host event context w)))
  <> List.filter is_register (trace w) ->
  let run := lambda_handler host event context w in
  exists props text doc wf_name step_name image h0 spec0 spec,
    (Py.subscript event "RequestType" = Ok (JStr "Create")
     \/ Py.subscript event "RequestType" = Ok (JStr "Update"))
    /\ Py.subscript event "ResourceProperties" = Ok props
    /\ Py.subscript props "spec" = Ok (JStr text)
    /\ json_loads host text = Ok doc
    /\ Py.subscript props "workflowName" = Ok wf_name
    /\ Py.subscript props "stepName" = Ok step_name
    /\ Py.subscript props "image" = Ok image
    /\ Py.alloc doc (store w) = (h0, Ok spec0)
    /\ edit_spec host spec0 wf_name step_name image h0 = (store (final run), Ok spec)
    /\ List.filter is_register (trace (final run))
       = (List.filter is_register (trace w) ++ [RegisterJobDefinition spec])%list.
Proof.
  intros Hcalls. cbv zeta.
  remember (after w (Log INFO "event=" [VJson event])) as w0 eqn:Hw0.
  assert (Hsame : List.filter is_register (trace w0) = List.filter is_register (trace w)).
  { subst w0. unfold after. cbn [trace]. rewrite List.filter_app. apply app_nil_r. }
  assert (Hstore0 : store w0 = store w) by now subst w0.
  destruct (boto3_client_batch host) as [batch|e] eqn:Hclient.
  2:{ exfalso. apply Hcalls.
      rewrite (SilentFacts.lambda_handler_no_client _ _ _ _ _ Hclient).
      unfold final, fst. now rewrite <- Hw0. }
  rewrite (SilentFacts.lambda_handler_run _ _ _ _ _ Hclient) in *.
  unfold with_block in *. rewrite <- Hw0 in *.
  destruct (new_response event false) as [r0|e] eqn:Hnew.
  2:{ exfalso. apply Hcalls.
      now rewrite (ResponderFacts.responder_not_entered _ _ _ _ _ _ _ Hnew). }
  destruct (EnvelopeFacts.responder_passes_on is_register host event context false
              (handler_body host batch event) w0 r0
              SilentFacts.service_only_register Hnew) as [Hstore Hfilter].
  rewrite Hfilter in *. rewrite Hstore. clear Hstore Hfilter.
  destruct (Py.subscript event "RequestType") as [rt|e] eqn:Ht.
  2:{ exfalso. apply Hcalls. unfold handler_body, bind, of_res. now rewrite Ht. }
  rewrite (DispatchFacts.handler_body_dispatch _ _ _ _ _ Ht) in *.
  destruct (is_create_or_update rt) eqn:Hrt.
  2:{ exfalso. apply Hcalls. rewrite <- Hsame.
      apply (SilentFacts.silent_delete is_register SilentFacts.service_only_register
               batch event (fun _ => eq_refl) (r0, w0)). }
  destruct (RegisterFacts.create_or_update_course host batch event r0 w0)
    as [[Htrace _]|(props & text & doc & wf_name & step_name & image & h0 & spec0
                     & h1 & spec & Hprops & Hspec & Hloads & Hwf & Hstep & Himage
                     & Halloc & Hedit & Hfinal)].
  { exfalso. apply Hcalls. now rewrite Htrace. }
  rewrite Hfinal in *. cbn [store trace] in *.
  exists props, text, doc, wf_name, step_name, image, h0, spec0, spec.
  split.
  { destruct (CountFacts.create_or_update_cases rt Hrt); subst; auto. }
  rewrite <- Hstore0.
  repeat (split; [assumption|]).
  rewrite List.filter_app, Hsame. reflexivity.
Qed.

Lemma registration_needs_an_edited_spec_witness :
  exists spec0 spec,
    edit_spec Demo.host spec0 (JStr "wf1") (JStr "step1") Demo.image Demo.spec_store
    = (store (final (lambda_handler Demo.host Demo.create Demo.context Demo.start)),
       Ok spec)
    /\ List.filter is_register
         (trace (final (lambda_handler Demo.host Demo.create Demo.context Demo.start)))
       = [RegisterJobDefinition spec].
Proof.
  destruct (registration_needs_an_edited_spec Demo.host Demo.create Demo.context
              Demo.start)
    as (props & text & doc & wf_name & step_name & image & h0 & spec0 & spec
        & _ & Hprops & Hspec & Hloads & Hwf & Hstep & Himage & Halloc & Hedit & Hcalls).
  - vm_compute. discriminate.
  - assert (Hp : Ok props = Ok Demo.properties) by (now rewrite <- Hprops).
    injection Hp as ->.
    assert (Hw : Ok wf_name = Ok (JStr "wf1")) by (now rewrite <- Hwf).
    assert (Hs : Ok step_name = Ok (JStr "step1")) by (now rewrite <- Hstep).
    assert (Hi : Ok image = Ok Demo.image) by (now rewrite <- Himage).
    assert (Ht : Ok (JStr text) = Ok (JStr (Json.dumps_default Demo.spec)))
      by (now rewrite <- Hspec).
    injection Hw as ->. injection Hs as ->. injection Hi as ->. injection Ht as ->.
    assert (Hd : Ok doc = Ok Demo.spec) by (now rewrite <- Hloads).
    injection Hd as ->.
    assert (Ha : (h0, Ok spec0) = (Demo.spec_store, Ok (VRef Demo.spec_ref)))
      by (now rewrite <- Halloc).
    injection Ha as -> ->.
    exists (VRef Demo.spec_ref), spec. split; [exact Hedit|exact Hcalls].
Defined.
